(** * Research-Agent: the plan-execution pipeline and the report synthesizer

    A shallow embedding of [backend/agent/executor.py] (class [ToolExecutor])
    and [backend/agent/synthesizer.py] (class [Synthesizer]), together with
    the properties of the pipeline that the specification states.

    Conventions of the embedding.
    - A Python [str] is a [string]; [s[:n]] is [substring 0 n s]; truthiness
      of a string is non-emptiness.
    - A Python dict read through [.get(k, d)] / [k in d] is a record whose
      fields are [option]s: [None] is an absent key.
    - The tools and the language model are collaborators outside the
      pipeline: they are oracles over an abstract [World], and each call
      either returns a value or raises an [Exception].
    - Python exceptions are the [inl] results of the monad [M]; [try/except
      Exception] is [try_except].
    - Every call of [execute_tool] is recorded in a ghost log of the state,
      so that the number and the arguments of invocations can be stated.
    - What [json.loads] returns is a [json] value: the planner reads the
      answer of its model as such, without assuming its shape. *)

From stdpp Require Import gmap strings list.
From Stdlib Require Import DecimalString QArith_base SpecFloat.

Local Open Scope string_scope.
Local Open Scope nat_scope.
Local Open Scope list_scope.

(** ** Python values used by the pipeline *)

(** An instance of [Exception]; [str(e)] is its message. *)
Inductive exn := Exception (msg : string).

Definition str_exn (e : exn) : string :=
  match e with Exception msg => msg end.

(** [s[:n]] on strings. *)
Definition str_take (n : nat) (s : string) : string := String.substring 0 n s.

(** Truthiness of a string: [if s:]. *)
Definition truthy (s : string) : bool := negb (String.eqb s "").

(** The newline character, and the blank-line separator ["\n\n"]. *)
Definition nl : string := String (Ascii.ascii_of_nat 10) EmptyString.
Definition blank_line : string := nl +:+ nl.

(** One item of a search result list: the keys ['url'] and ['title']. *)
Record search_item := SearchItem {
  item_url : option string;
  item_title : option string
}.

(** The payload a tool returns (a dict): the keys the pipeline reads, and
    the names of the keys it does not read. *)
Record payload := Payload {
  p_results : option (list search_item);
  p_url : option string;
  p_title : option string;
  p_text : option string;
  p_other_keys : list string
}.

(** The empty dict [{}]. *)
Definition empty_payload : payload := Payload None None None None [].

(** Truthiness of a dict: it has at least one key. *)
Definition payload_truthy (d : payload) : bool :=
  match p_results d, p_url d, p_title d, p_text d, p_other_keys d with
  | None, None, None, None, [] => false
  | _, _, _, _, _ => true
  end.

(** A ToolInvocationResult: [{'tool', 'success', 'result'?, 'error'?}]. *)
Record tool_result := ToolResult {
  tool : string;
  success : bool;
  result : option payload;
  error : option string
}.

(** The keyword arguments of [execute_tool]. *)
Record kwargs := Kwargs {
  kw_query : option string;
  kw_url : option string;
  kw_text : option string;
  kw_data : option (list payload);
  kw_create_chart : option bool;
  kw_expression : option string;
  kw_max_length : option nat;
  kw_style : option string
}.

Definition no_kwargs : kwargs :=
  Kwargs None None None None None None None None.

(** Ghost record of one call of [execute_tool]. *)
Record invocation := Invocation {
  inv_tool : string;
  inv_args : kwargs
}.

(** ** config.py *)
Module config.

Definition MAX_RESPONSE_TOKENS : nat := 2000.

Definition MAX_SUB_QUESTIONS : nat := 5.

Definition MAX_URLS_TO_SCRAPE : nat := 3.

End config.

(** ** The tool objects of the registry *)
Inductive tool_obj :=
  | WebSearchTool | WebScraperTool | DataAnalysisTool
  | CalculatorTool | SummarizerTool.

Definition class_name (t : tool_obj) : string :=
  match t with
  | WebSearchTool => "WebSearchTool"
  | WebScraperTool => "WebScraperTool"
  | DataAnalysisTool => "DataAnalysisTool"
  | CalculatorTool => "CalculatorTool"
  | SummarizerTool => "SummarizerTool"
  end.

(** [ToolExecutor.__init__]: [self.tools]. *)
Definition tools : gmap string tool_obj :=
  <["web_search" := WebSearchTool]>
  (<["scraper" := WebScraperTool]>
  (<["data_analysis" := DataAnalysisTool]>
  (<["calculator" := CalculatorTool]>
  (<["summarizer" := SummarizerTool]> ∅)))).

(** ** Plans and execution logs *)

(** A plan (a dict): the keys [execute_plan] reads. *)
Record Plan := {
  query : option string;
  sub_questions : option (list string);
  tool_sequence : option (list string)
}.

(** An entry of [errors]: [{'tool', 'error'}]. *)
Record error_entry := ErrorEntry {
  err_tool : string;
  err_error : string
}.

(** The ExecutionLog [all_results]:
    [{'plan', 'tool_results', 'success', 'errors'}]. *)
Record ExecutionLog := Log {
  log_plan : Plan;
  tool_results : list tool_result;
  log_success : bool;
  errors : list error_entry
}.

(** [a or b] on lists: [a] when it is a non-empty list, otherwise [b]. *)
Definition or_list {A} (a : option (list A)) (b : list A) : list A :=
  match a with
  | Some (x :: l) => x :: l
  | _ => b
  end.

(** [sum(1 for r in results if r.get('success'))]. *)
Definition successful (results : list tool_result) : nat :=
  length (List.filter success results).

(** [prev_result.get('tool') == 'scraper' and prev_result.get('success')]. *)
Definition is_scraped (r : tool_result) : bool :=
  String.eqb (tool r) "scraper" && success r.

(** [prev_result.get('result', {}).get('text', '')]. *)
Definition scraped_text (r : tool_result) : string :=
  default "" (p_text (default empty_payload (result r))).

(** The URL accumulation after one search invocation (executor.py, lines
    131-136 and 144-149). *)
Definition collect_urls (r : tool_result) (urls_to_scrape : list string)
    : list string :=
  if success r then
    match result r with
    | Some search_data =>
        match p_results search_data with
        | Some items => urls_to_scrape ++ omap item_url items
        | None => urls_to_scrape
        end
    | None => urls_to_scrape
    end
  else urls_to_scrape.

(** The loop of the data_analysis stage over the previous results. *)
Fixpoint analysis_buffer (prev : list tool_result) (text_to_analyze : string)
    : string :=
  match prev with
  | [] => text_to_analyze
  | r :: rest =>
      if is_scraped r
      then analysis_buffer rest (text_to_analyze +:+ scraped_text r +:+ " ")
      else analysis_buffer rest text_to_analyze
  end.

(** The loop of the summarizer stage, with its [break]. *)
Fixpoint summary_buffer (prev : list tool_result) (text_to_summarize : string)
    : string :=
  match prev with
  | [] => text_to_summarize
  | r :: rest =>
      if is_scraped r then
        let text := scraped_text r in
        let text_to_summarize :=
          text_to_summarize +:+ str_take 2000 text +:+ blank_line in
        if 3000 <? String.length text_to_summarize
        then text_to_summarize
        else summary_buffer rest text_to_summarize
      else summary_buffer rest text_to_summarize
  end.

(** The error check that ends each iteration of the stage loop. *)
Definition check_errors (tool_name : string) (tr : option tool_result)
    (all_results : ExecutionLog) : ExecutionLog :=
  match tr with
  | Some r =>
      if negb (success r) then
        Log (log_plan all_results) (tool_results all_results)
            (log_success all_results)
            (errors all_results ++
               [ErrorEntry tool_name (default "Unknown error" (error r))])
      else all_results
  | None => all_results
  end.

Definition extend_results (rs : list tool_result) (all_results : ExecutionLog)
    : ExecutionLog :=
  Log (log_plan all_results) (tool_results all_results ++ rs)
      (log_success all_results) (errors all_results).

(** ** synthesizer.py: [Synthesizer.extract_citations] *)

Record Citation := Cite {
  title : string;
  url : string
}.

(** [a or b] on strings. *)
Definition or_str (a b : string) : string := if truthy a then a else b.

(** Lines 44-49 and 55-60: add a citation for a non-empty unseen URL. *)
Definition add_citation (u t : string) (acc : list Citation * gset string)
    : list Citation * gset string :=
  let (citations, seen_urls) := acc in
  if truthy u && negb (bool_decide (u ∈ seen_urls))
  then (citations ++ [Cite (or_str t u) u], {[u]} ∪ seen_urls)
  else acc.

Definition add_item (acc : list Citation * gset string) (item : search_item)
    : list Citation * gset string :=
  add_citation (default "" (item_url item)) (default "" (item_title item)) acc.

(** One iteration of the loop over [tool_results] (lines 31-60). *)
Definition citation_step (acc : list Citation * gset string) (r : tool_result)
    : list Citation * gset string :=
  if negb (success r) then acc
  else
    let tool_name := tool r in
    let tool_data := default empty_payload (result r) in
    if String.eqb tool_name "web_search" then
      let search_results := default [] (p_results tool_data) in
      fold_left add_item search_results acc
    else if String.eqb tool_name "scraper" then
      add_citation (default "" (p_url tool_data))
                   (default "" (p_title tool_data)) acc
    else acc.

Definition extract_citations (tool_results : list tool_result)
    : list Citation :=
  fst (fold_left citation_step tool_results ([], ∅)).

(** ** synthesizer.py: the pure parts of [Synthesizer.generate_report] *)

Record Report := {
  report_query : string;
  markdown : string;
  citations : list Citation;
  report_success : bool;
  report_error : option string
}.

(** The four accumulators of the loop at lines 89-103. *)
Record collected := Collected {
  search_info : list payload;
  scraped_content : list payload;
  data_analysis : option payload;
  summaries : list payload
}.

Definition collect_step (c : collected) (r : tool_result) : collected :=
  if negb (success r) then c
  else
    let tool_name := tool r in
    let tool_data := default empty_payload (result r) in
    if String.eqb tool_name "web_search" then
      Collected (search_info c ++ [tool_data]) (scraped_content c)
                (data_analysis c) (summaries c)
    else if String.eqb tool_name "scraper" then
      Collected (search_info c) (scraped_content c ++ [tool_data])
                (data_analysis c) (summaries c)
    else if String.eqb tool_name "data_analysis" then
      Collected (search_info c) (scraped_content c)
                (Some tool_data) (summaries c)
    else if String.eqb tool_name "summarizer" then
      Collected (search_info c) (scraped_content c)
                (data_analysis c) (summaries c ++ [tool_data])
    else c.

Definition collect (tool_results : list tool_result) : collected :=
  fold_left collect_step tool_results (Collected [] [] None []).

(** [str(n)] for a natural number. *)
Definition str_nat (n : nat) : string :=
  NilEmpty.string_of_uint (Nat.to_uint n).

(** [needle in hay] on strings. *)
Fixpoint contains (needle hay : string) : bool :=
  String.prefix needle hay ||
  match hay with
  | EmptyString => false
  | String _ rest => contains needle rest
  end.

(** [f"{i}. [{citation['title']}]({citation['url']})\n"]. *)
Definition reference_line (i : nat) (c : Citation) : string :=
  str_nat i +:+ ". [" +:+ title c +:+ "](" +:+ url c +:+ ")" +:+ nl.

(** The loop [for i, citation in enumerate(citations, i)] that appends the
    reference lines to [markdown_report]. *)
Fixpoint append_references (i : nat) (cs : list Citation)
    (markdown_report : string) : string :=
  match cs with
  | [] => markdown_report
  | c :: rest =>
      append_references (S i) rest (markdown_report +:+ reference_line i c)
  end.

Definition system_prompt : string :=
  "You are a research report writer. Create a comprehensive, well-structured research report based on the provided information. The report should be professional, accurate, and well-organized.".

Definition prompt_of (query context : string) : string :=
  "Based on the following research query and collected information, create a comprehensive research report in Markdown format.

Research Query: " +:+ query +:+ "

Collected Information:
" +:+ context +:+ "

Create a report with the following structure:
1. # Title (based on the query)
2. ## Executive Summary (2-3 paragraphs)
3. ## Key Findings (bullet points of main findings)
4. ## Deep Dive (detailed sections covering different aspects)
5. ## Data Analysis (if data was found, include tables/charts descriptions)
6. ## Conclusion (summary and implications)
7. ## References (list all source URLs)

Make sure to:
- Synthesize information from multiple sources
- Provide accurate information
- Include specific details and numbers when available
- Write in a professional, academic style
- Cite sources naturally in the text
- Format the report properly in Markdown".

(** The f-string of the fallback report (lines 175-196). *)
Definition fallback_template (query : string) (sources : nat)
    (context : string) : string :=
  "# Research Report: " +:+ query +:+ "

## Executive Summary

Research was conducted on: " +:+ query +:+ "

## Key Findings

- Information gathered from " +:+ str_nat sources +:+ " sources
- Multiple perspectives analyzed

## Deep Dive

" +:+ context +:+ "

## Conclusion

Research completed with findings from various sources.

## References

".

(** ** The monad of the pipeline: state and exceptions *)

Declare Scope monad_scope.
Delimit Scope monad_scope with monad.

Section Pipeline.

Variable World : Type.

(** The state threaded through a run: the collaborators' world and the
    ghost log of [execute_tool] calls. *)
Record state := State {
  world : World;
  calls : list invocation
}.

Definition M (A : Type) : Type := state -> (exn + A) * state.

Definition ret {A} (a : A) : M A := fun s => (inr a, s).

Definition raise {A} (e : exn) : M A := fun s => (inl e, s).

Definition bind {A B} (m : M A) (k : A -> M B) : M B :=
  fun s =>
    match m s with
    | (inr a, s') => k a s'
    | (inl e, s') => (inl e, s')
    end.

(** [try: body / except Exception as e: handler e]. *)
Definition try_except {A} (body : M A) (handler : exn -> M A) : M A :=
  fun s =>
    match body s with
    | (inr a, s') => (inr a, s')
    | (inl e, s') => handler e s'
    end.

Notation "x <- m ;; k" := (bind m (fun x => k))
  (at level 100, m at next level, right associativity) : monad_scope.
Local Open Scope monad_scope.

Definition log_invocation (i : invocation) : M unit :=
  fun s => (inr tt, State (world s) (calls s ++ [i])).

(** A collaborator call: it reads and changes the world only. *)
Definition oracle (A : Type) : Type := World -> (exn + A) * World.

Definition call {A} (f : oracle A) : M A :=
  fun s => let (r, w) := f (world s) in (r, State w (calls s)).

(** ** The collaborators *)

(** The methods of the five tools ([search], [scrape], [analyze],
    [calculate], [summarize]). *)
Record Tools := {
  search : string -> oracle payload;
  scrape : string -> oracle payload;
  analyze : option string -> option (list payload) -> bool -> oracle payload;
  calculate : string -> oracle payload;
  summarize : string -> option nat -> string -> oracle payload
}.

Variable env : Tools.

(** Calling a method on an object that has none raises [AttributeError]. *)
Definition attribute_error {A} (t : tool_obj) (meth : string) : M A :=
  raise (Exception ("'" +:+ class_name t +:+ "' object has no attribute '"
                    +:+ meth +:+ "'")).

Definition tool_search (t : tool_obj) (query : string) : M payload :=
  match t with
  | WebSearchTool => call (search env query)
  | _ => attribute_error t "search"
  end.

Definition tool_scrape (t : tool_obj) (url : string) : M payload :=
  match t with
  | WebScraperTool => call (scrape env url)
  | _ => attribute_error t "scrape"
  end.

Definition tool_analyze (t : tool_obj) (text : option string)
    (data : option (list payload)) (create_chart : bool) : M payload :=
  match t with
  | DataAnalysisTool => call (analyze env text data create_chart)
  | _ => attribute_error t "analyze"
  end.

Definition tool_calculate (t : tool_obj) (expression : string) : M payload :=
  match t with
  | CalculatorTool => call (calculate env expression)
  | _ => attribute_error t "calculate"
  end.

Definition tool_summarize (t : tool_obj) (text : string)
    (max_length : option nat) (style : string) : M payload :=
  match t with
  | SummarizerTool => call (summarize env text max_length style)
  | _ => attribute_error t "summarize"
  end.

(** ** executor.py: [ToolExecutor.execute_tool] *)

Definition ok_result (tool_name : string) (r : payload) : tool_result :=
  ToolResult tool_name true (Some r) None.

Definition failed_result (tool_name : string) (msg : string) : tool_result :=
  ToolResult tool_name false None (Some msg).

(** The body of the [try] block: route to the tool method by name. *)
Definition route (tool_name : string) (t : tool_obj) (kw : kwargs)
    : M tool_result :=
  if String.eqb tool_name "web_search" then
    let query := default "" (kw_query kw) in
    r <- tool_search t query ;;
    ret (ok_result tool_name r)
  else if String.eqb tool_name "scraper" then
    let url := default "" (kw_url kw) in
    r <- tool_scrape t url ;;
    ret (ok_result tool_name r)
  else if String.eqb tool_name "data_analysis" then
    let text := kw_text kw in
    let data := kw_data kw in
    let create_chart := default false (kw_create_chart kw) in
    r <- tool_analyze t text data create_chart ;;
    ret (ok_result tool_name r)
  else if String.eqb tool_name "calculator" then
    let expression := default "" (kw_expression kw) in
    r <- tool_calculate t expression ;;
    ret (ok_result tool_name r)
  else if String.eqb tool_name "summarizer" then
    let text := default "" (kw_text kw) in
    let max_length := kw_max_length kw in
    let style := default "concise" (kw_style kw) in
    r <- tool_summarize t text max_length style ;;
    ret (ok_result tool_name r)
  else
    ret (failed_result tool_name
           ("Tool execution not implemented: " +:+ tool_name)).

Definition execute_tool (tool_name : string) (kw : kwargs) : M tool_result :=
  _ <- log_invocation (Invocation tool_name kw) ;;
  match tools !! tool_name with
  | None => ret (failed_result tool_name ("Unknown tool: " +:+ tool_name))
  | Some t =>
      try_except (route tool_name t kw)
        (fun e => ret (failed_result tool_name (str_exn e)))
  end.

(** ** executor.py: [ToolExecutor.execute_plan] *)

Definition kw_of_query (q : string) : kwargs :=
  Kwargs (Some q) None None None None None None None.

Definition kw_of_url (u : string) : kwargs :=
  Kwargs None (Some u) None None None None None None.

Definition kw_analysis (text : string) : kwargs :=
  Kwargs None None (Some text) None (Some true) None None None.

Definition kw_summary (text : string) : kwargs :=
  Kwargs None None (Some text) None None None (Some 150) (Some "concise").

(** [l[0]]: raises [IndexError] on the empty list. *)
Definition index0 (l : list string) : M string :=
  match l with
  | [] => raise (Exception "list index out of range")
  | x :: _ => ret x
  end.

(** Lines 139-149: one search per sub-question. *)
Fixpoint search_each (questions : list string)
    (search_results : list tool_result) (urls_to_scrape : list string)
    : M (list tool_result * list string) :=
  match questions with
  | [] => ret (search_results, urls_to_scrape)
  | question :: rest =>
      r <- execute_tool "web_search" (kw_of_query question) ;;
      search_each rest (search_results ++ [r]) (collect_urls r urls_to_scrape)
  end.

(** Lines 125-151: the web_search stage; returns [search_results] and the
    updated [urls_to_scrape]. *)
Definition web_search_stage (plan : Plan) (limited_sub_questions : list string)
    (urls_to_scrape : list string) : M (list tool_result * list string) :=
  if 3 <? length limited_sub_questions then
    first <- index0 limited_sub_questions ;;
    r <- execute_tool "web_search" (kw_of_query (default first (query plan))) ;;
    ret ([r], collect_urls r urls_to_scrape)
  else
    search_each limited_sub_questions [] urls_to_scrape.

(** Lines 158-164: the scrape loop with its early [break]. *)
Fixpoint scrape_each (urls : list string) (scrape_results : list tool_result)
    : M (list tool_result) :=
  match urls with
  | [] => ret scrape_results
  | url :: rest =>
      r <- execute_tool "scraper" (kw_of_url url) ;;
      let scrape_results := scrape_results ++ [r] in
      if 2 <=? successful scrape_results
      then ret scrape_results
      else scrape_each rest scrape_results
  end.

Definition scraper_stage (urls_to_scrape : list string)
    : M (list tool_result) :=
  let max_urls := config.MAX_URLS_TO_SCRAPE in
  scrape_each (take max_urls urls_to_scrape) [].

(** One iteration of the loop over [tool_sequence] (lines 121-218). *)
Definition stage (plan : Plan) (limited_sub_questions : list string)
    (tool_name : string) (all_results : ExecutionLog)
    (urls_to_scrape : list string) : M (ExecutionLog * list string) :=
  if String.eqb tool_name "web_search" then
    p <- web_search_stage plan limited_sub_questions urls_to_scrape ;;
    ret (check_errors tool_name None (extend_results (fst p) all_results),
         snd p)
  else if String.eqb tool_name "scraper" then
    scrape_results <- scraper_stage urls_to_scrape ;;
    ret (check_errors tool_name None
           (extend_results scrape_results all_results),
         urls_to_scrape)
  else if String.eqb tool_name "data_analysis" then
    let text_to_analyze := analysis_buffer (tool_results all_results) "" in
    if truthy text_to_analyze then
      r <- execute_tool "data_analysis" (kw_analysis text_to_analyze) ;;
      ret (check_errors tool_name (Some r) (extend_results [r] all_results),
           urls_to_scrape)
    else ret (check_errors tool_name None all_results, urls_to_scrape)
  else if String.eqb tool_name "summarizer" then
    let text_to_summarize := summary_buffer (tool_results all_results) "" in
    if truthy text_to_summarize then
      r <- execute_tool "summarizer"
             (kw_summary (str_take 3000 text_to_summarize)) ;;
      ret (check_errors tool_name (Some r) (extend_results [r] all_results),
           urls_to_scrape)
    else ret (check_errors tool_name None all_results, urls_to_scrape)
  else
    r <- execute_tool tool_name no_kwargs ;;
    ret (check_errors tool_name (Some r) (extend_results [r] all_results),
         urls_to_scrape).

Fixpoint run_stages (plan : Plan) (limited_sub_questions : list string)
    (sequence : list string) (all_results : ExecutionLog)
    (urls_to_scrape : list string) : M (ExecutionLog * list string) :=
  match sequence with
  | [] => ret (all_results, urls_to_scrape)
  | tool_name :: rest =>
      p <- stage plan limited_sub_questions tool_name all_results
             urls_to_scrape ;;
      run_stages plan limited_sub_questions rest (fst p) (snd p)
  end.

Definition execute_plan (plan : Plan) (sub_questions_arg : option (list string))
    : M ExecutionLog :=
  let tool_sequence := default [] (tool_sequence plan) in
  let sub_questions :=
    or_list sub_questions_arg (default [] (sub_questions plan)) in
  let all_results := Log plan [] true [] in
  let urls_to_scrape := [] in
  let limited_sub_questions := take config.MAX_SUB_QUESTIONS sub_questions in
  p <- run_stages plan limited_sub_questions tool_sequence all_results
         urls_to_scrape ;;
  ret (fst p).

(** ** synthesizer.py: [Synthesizer.generate_report] *)

(** [str] of a list of search items and of a payload dict: Python's
    built-in rendering, taken as given. *)
Variable str_items : list search_item -> string.
Variable str_payload : payload -> string.

(** The generation collaborator:
    [self.llm.generate(prompt, system_prompt, max_tokens, temperature)]. *)
Variable llm_generate : string -> string -> nat -> Q -> oracle string.

(** Lines 109-111. *)
Definition search_parts (infos : list payload) : list string :=
  omap (fun search =>
          match p_results search with
          | Some results =>
              Some ("Search Results:" +:+ nl +:+ str_items (take 3 results))
          | None => None
          end) infos.

(** Lines 114-117. *)
Definition scraped_parts (scraped : list payload) : list string :=
  omap (fun sc =>
          match p_text sc with
          | Some text =>
              Some ("Content from " +:+ default "page" (p_title sc) +:+ ":"
                    +:+ nl +:+ str_take 1000 text)
          | None => None
          end) (take 3 scraped).

(** Lines 120-121. *)
Definition analysis_parts (da : option payload) : list string :=
  match da with
  | Some d =>
      if payload_truthy d
      then ["Data Analysis:" +:+ nl +:+ str_payload d]
      else []
  | None => []
  end.

(** Lines 84-123: [context]. *)
Definition build_context (tool_results : list tool_result) : string :=
  let c := collect tool_results in
  let context_parts :=
    search_parts (search_info c) ++ scraped_parts (scraped_content c)
    ++ analysis_parts (data_analysis c) in
  String.concat blank_line context_parts.

Definition generate_report (query : string) (plan : Plan)
    (tool_results : list tool_result) : M Report :=
  let citations := extract_citations tool_results in
  let context := build_context tool_results in
  let prompt := prompt_of query context in
  try_except
    (markdown_report <-
       call (llm_generate prompt system_prompt
               (Nat.min (config.MAX_RESPONSE_TOKENS * 2) 3000) (7 # 10)%Q) ;;
     let markdown_report :=
       if negb (contains "## References" markdown_report)
          && negb (bool_decide (citations = []))
       then append_references 1 citations
              (markdown_report +:+ blank_line +:+ "## References"
               +:+ blank_line)
       else markdown_report in
     ret {| report_query := query; markdown := markdown_report;
            citations := citations; report_success := true;
            report_error := None |})
    (fun e =>
       let markdown_report :=
         append_references 1 citations
           (fallback_template query (length citations)
              (str_take 2000 context)) in
       ret {| report_query := query; markdown := markdown_report;
              citations := citations; report_success := false;
              report_error := Some (str_exn e) |}).

End Pipeline.

Arguments State {World} world calls.
Arguments world {World} s.
Arguments calls {World} s.
Arguments ret {World A} a s.
Arguments raise {World A} e s.
Arguments bind {World A B} m k s.
Arguments try_except {World A} body handler s.
Arguments log_invocation {World} i s.
Arguments call {World A} f s.
Arguments search {World} t query w.
Arguments scrape {World} t url w.
Arguments analyze {World} t text data create_chart w.
Arguments calculate {World} t expression w.
Arguments summarize {World} t text max_length style w.
Arguments route {World} env tool_name t kw s.
Arguments execute_tool {World} env tool_name kw s.
Arguments index0 {World} l s.
Arguments search_each {World} env questions search_results urls_to_scrape s.
Arguments web_search_stage {World} env plan limited_sub_questions
  urls_to_scrape s.
Arguments scrape_each {World} env urls scrape_results s.
Arguments scraper_stage {World} env urls_to_scrape s.
Arguments stage {World} env plan limited_sub_questions tool_name all_results
  urls_to_scrape s.
Arguments run_stages {World} env plan limited_sub_questions sequence
  all_results urls_to_scrape s.
Arguments execute_plan {World} env plan sub_questions_arg s.
Arguments generate_report {World} str_items str_payload llm_generate query
  plan tool_results s.

(** ** utils/validators.py *)

(** Python's whitespace test on characters ([str.isspace]) is taken as
    given: [strip] and [split] use the same one. *)
Section Validators.

Variable isspace : Ascii.ascii -> bool.

(** [s.lstrip()]. *)
Fixpoint lstrip (s : string) : string :=
  match s with
  | EmptyString => EmptyString
  | String c rest => if isspace c then lstrip rest else s
  end.

(** [s.rstrip()]. *)
Fixpoint rstrip (s : string) : string :=
  match s with
  | EmptyString => EmptyString
  | String c rest =>
      match rstrip rest with
      | EmptyString => if isspace c then EmptyString else String c EmptyString
      | r => String c r
      end
  end.

(** [s.strip()]. *)
Definition strip (s : string) : string := rstrip (lstrip s).

(** [s.split()]: the maximal runs of non-whitespace characters; [cur] is
    the run being read. *)
Fixpoint split_from (cur : string) (s : string) : list string :=
  match s with
  | EmptyString => if truthy cur then [cur] else []
  | String c rest =>
      if isspace c then
        if truthy cur then cur :: split_from EmptyString rest
        else split_from EmptyString rest
      else split_from (cur +:+ String c EmptyString) rest
  end.

Definition split (s : string) : list string := split_from EmptyString s.

(** [sanitize_query]: raises [ValueError] on the empty query. *)
Definition sanitize_query (query : string) : exn + string :=
  if negb (truthy query) then
    inl (Exception "Query must be a non-empty string")
  else
    let query := String.concat " " (split query) in
    let query :=
      if 500 <? String.length query then str_take 500 query else query in
    inr (strip query).

End Validators.

(** ** agent/planner.py *)

(** A value as [json.loads] returns it: [None], a [bool], an [int], a
    [float], a [str], a [list] or a [dict] with string keys (its items in
    insertion order, the keys distinct). *)
#[warnings="-register-all"]
Inductive json :=
| JNull
| JBool (b : bool)
| JInt (n : Z)
| JFloat (f : spec_float)
| JStr (s : string)
| JList (items : list json)
| JDict (entries : list (string * json)).

(** [type(j).__name__]. *)
Definition type_name (j : json) : string :=
  match j with
  | JNull => "NoneType"
  | JBool _ => "bool"
  | JInt _ => "int"
  | JFloat _ => "float"
  | JStr _ => "str"
  | JList _ => "list"
  | JDict _ => "dict"
  end.

(** [bool(j)]. *)
Definition json_truthy (j : json) : bool :=
  match j with
  | JNull => false
  | JBool b => b
  | JInt n => negb (Z.eqb n 0)
  | JFloat (S754_zero _) => false
  | JFloat _ => true
  | JStr s => truthy s
  | JList items => negb (Nat.eqb (length items) 0)
  | JDict entries => negb (Nat.eqb (length entries) 0)
  end.

(** The value of a key of a dict, if it has the key. *)
Fixpoint dict_lookup (key : string) (entries : list (string * json))
    : option json :=
  match entries with
  | [] => None
  | (k, v) :: rest => if String.eqb k key then Some v else dict_lookup key rest
  end.

(** [j.get(key, d)]: only a dict has the method. *)
Definition json_get (j : json) (key : string) (d : json) : exn + json :=
  match j with
  | JDict entries => inr (default d (dict_lookup key entries))
  | _ =>
      inl (Exception ("'" +:+ type_name j
                      +:+ "' object has no attribute 'get'"))
  end.

(** [len(j)]. *)
Definition json_len (j : json) : exn + nat :=
  match j with
  | JStr s => inr (String.length s)
  | JList items => inr (length items)
  | JDict entries => inr (length entries)
  | _ =>
      inl (Exception ("object of type '" +:+ type_name j
                      +:+ "' has no len()"))
  end.

(** [j[:n]]: a slice of a [str] or of a [list]; a dict raises
    [slice_error] (the [TypeError] "unhashable type: 'slice'" up to Python
    3.11, a [KeyError] of the slice from 3.12 on), the other values are
    not subscriptable. *)
Definition json_slice (slice_error : exn) (j : json) (n : nat)
    : exn + json :=
  match j with
  | JStr s => inr (JStr (str_take n s))
  | JList items => inr (JList (take n items))
  | JDict _ => inl slice_error
  | _ =>
      inl (Exception ("'" +:+ type_name j
                      +:+ "' object is not subscriptable"))
  end.

(** The dict [create_plan] returns. What comes from the answer of the
    planning model is kept as it came: ['sub_questions'],
    ['tool_sequence'] and ['reasoning'] are JSON values. *)
Record created_plan := CreatedPlan {
  plan_query : string;
  plan_sub_questions : json;
  plan_tool_sequence : json;
  plan_reasoning : json;
  plan_success : bool;
  plan_error : option string
}.

(** A [str], and a [list] of [str]. *)
Definition as_string (j : json) : option string :=
  match j with
  | JStr s => Some s
  | _ => None
  end.

Definition as_strings (j : json) : option (list string) :=
  match j with
  | JList items => mapM as_string items
  | _ => None
  end.

(** The created plan as the [Plan] that [execute_plan] reads, when its
    ['sub_questions'] and its ['tool_sequence'] are lists of strings, as
    the signature of [ToolExecutor] has them. *)
Definition the_plan (pr : created_plan) : option Plan :=
  match as_strings (plan_sub_questions pr),
        as_strings (plan_tool_sequence pr) with
  | Some qs, Some seq =>
      Some {| query := Some (plan_query pr); sub_questions := Some qs;
              tool_sequence := Some seq |}
  | _, _ => None
  end.

(** The double quote character. *)
Definition dq : string := String (Ascii.ascii_of_nat 34) EmptyString.

Definition planner_system_prompt : string :=
  "You are a research planning assistant. Break down research queries into 3-7 focused sub-questions that can be answered through web search and analysis. Determine which tools are needed for each sub-question.

Available tools:
- web_search: Search the internet for information
- scraper: Extract content from webpages
- data_analysis: Analyze numbers and create charts
- calculator: Perform mathematical calculations
- summarizer: Summarize long texts

Respond with a JSON object containing:
- sub_questions: array of 3-7 sub-questions
- tool_sequence: array of tool names in execution order
- reasoning: brief explanation of the plan".

Definition planner_prompt (query : string) : string :=
  "Break down this research query into sub-questions and create an execution plan:

Query: " +:+ query +:+ "

Provide a JSON response with:
1. sub_questions: 3-7 focused sub-questions
2. tool_sequence: ordered list of tools needed (e.g., [" +:+ dq
  +:+ "web_search" +:+ dq +:+ ", " +:+ dq +:+ "scraper" +:+ dq +:+ ", "
  +:+ dq +:+ "data_analysis" +:+ dq +:+ "])
3. reasoning: brief explanation of why this plan will work".

(** The three questions of the fallback plans. *)
Definition fallback_questions (query : string) : list string :=
  ["What is " +:+ query +:+ "?";
   "What are the key aspects of " +:+ query +:+ "?";
   "What are recent developments regarding " +:+ query +:+ "?"].

(** Sequencing of computations that return or raise and have no state. *)
Definition and_then {A B} (r : exn + A) (k : A -> exn + B) : exn + B :=
  match r with
  | inl e => inl e
  | inr a => k a
  end.

(** Lines 62-82 of [create_plan]: the validation of the answer of the
    planning model, inside the [try]. *)
Definition structure_plan (slice_error : exn) (query : string)
    (plan_json : json) : exn + created_plan :=
  let fallback := JList (map JStr (fallback_questions query)) in
  and_then (json_get plan_json "sub_questions" (JList []))
    (fun sub_questions =>
  and_then
    (if negb (json_truthy sub_questions) then inr fallback
     else
       and_then (json_len sub_questions)
         (fun n => inr (if n <? 3 then fallback else sub_questions)))
    (fun sub_questions =>
  and_then
    (json_get plan_json "tool_sequence"
       (JList [JStr "web_search"; JStr "scraper"]))
    (fun tool_sequence =>
  let tool_sequence :=
    if negb (json_truthy tool_sequence)
    then JList [JStr "web_search"; JStr "scraper"]
    else tool_sequence in
  and_then (json_get plan_json "reasoning" (JStr "Standard research plan"))
    (fun reasoning =>
  let max_sub_questions := config.MAX_SUB_QUESTIONS in
  and_then (json_slice slice_error sub_questions max_sub_questions)
    (fun sliced =>
  inr {| plan_query := query;
         plan_sub_questions := sliced;
         plan_tool_sequence := tool_sequence;
         plan_reasoning := reasoning;
         plan_success := true;
         plan_error := None |}))))).

Section Planner.

Variable World : Type.
Variable isspace : Ascii.ascii -> bool.

(** The planning collaborator:
    [self.llm.generate_json(prompt, system_prompt)], which returns what
    [json.loads] made of the answer. *)
Variable llm_generate_json : string -> string -> oracle World json.

(** What slicing a dict raises. *)
Variable slice_error : exn.

Notation "x <- m ;; k" := (bind m (fun x => k))
  (at level 100, m at next level, right associativity) : monad_scope.
Local Open Scope monad_scope.

(** A computation that cannot change the state: it returns or raises. *)
Definition lift {A} (r : exn + A) : M World A := fun s => (r, s).

Definition create_plan (query : string) : M World created_plan :=
  query <- lift (sanitize_query isspace query) ;;
  let system_prompt := planner_system_prompt in
  let prompt := planner_prompt query in
  try_except
    (plan_json <- call (llm_generate_json prompt system_prompt) ;;
     lift (structure_plan slice_error query plan_json))
    (fun e =>
       ret {| plan_query := query;
              plan_sub_questions :=
                JList [JStr ("What is " +:+ query +:+ "?");
                       JStr ("What are the key aspects of " +:+ query
                             +:+ "?");
                       JStr ("What are recent developments regarding "
                             +:+ query +:+ "?")];
              plan_tool_sequence :=
                JList [JStr "web_search"; JStr "scraper";
                       JStr "summarizer"];
              plan_reasoning := JStr "Fallback plan due to planning error";
              plan_success := false;
              plan_error := Some (str_exn e) |}).

End Planner.

Arguments lift {World A} r s.
Arguments create_plan {World} isspace llm_generate_json slice_error query s.

(** ** tools/summarizer.py *)

(** The dict [summarize] returns, without its float
    ['compression_ratio']. *)
Record summary := Summary {
  summary_text : string;
  original_length : nat;
  summary_length : nat;
  summary_success : bool;
  summary_error : option string
}.

(** The same dict as the payload the pipeline sees: it reads none of its
    keys. *)
Definition summary_payload (r : summary) : payload :=
  Payload None None None None
    (["summary"; "original_length"; "summary_length"; "compression_ratio";
      "success"]
     ++ match summary_error r with Some _ => ["error"] | None => [] end).

(** [max_length or 100]. *)
Definition or_100 (max_length : option nat) : nat :=
  match max_length with
  | Some (S n) => S n
  | _ => 100
  end.

(** The prompt of [summarize], by style. *)
Definition summarize_prompt (style : string) (max_length : nat)
    (text : string) : string :=
  if String.eqb style "bullet" then
    "Summarize the following text in bullet points (maximum "
    +:+ str_nat max_length +:+ " words):" +:+ blank_line +:+ text
  else if String.eqb style "detailed" then
    "Provide a detailed summary of the following text (maximum "
    +:+ str_nat max_length +:+ " words):" +:+ blank_line +:+ text
  else
    "Provide a concise summary of the following text (maximum "
    +:+ str_nat max_length +:+ " words):" +:+ blank_line +:+ text.

Definition summarize_system_prompt : string :=
  "You are a helpful assistant that creates clear and accurate summaries.".

Section SummarizerTool.

Variable World : Type.
Variable isspace : Ascii.ascii -> bool.

(** [self.llm.generate(prompt, system_prompt, max_tokens, temperature)]. *)
Variable llm_generate : string -> string -> nat -> Q -> oracle World string.

Notation "x <- m ;; k" := (bind m (fun x => k))
  (at level 100, m at next level, right associativity) : monad_scope.
Local Open Scope monad_scope.

(** [SummarizerTool.summarize]. *)
Definition summarize_text (text : string) (max_length : option nat)
    (style : string) : M World summary :=
  if negb (truthy text) || (String.length (strip isspace text) <? 10) then
    ret {| summary_text := text;
           original_length := String.length text;
           summary_length := String.length text;
           summary_success := false;
           summary_error := Some "Text too short to summarize" |}
  else
    let max_length := or_100 max_length in
    let max_input_length := 2000 in
    let text :=
      if max_input_length <? String.length text
      then str_take max_input_length text +:+ "..."
      else text in
    let prompt := summarize_prompt style max_length text in
    let system_prompt := summarize_system_prompt in
    try_except
      (summary <-
         call (llm_generate prompt system_prompt
                 (Nat.min (max_length * 2) 500) (3 # 10)%Q) ;;
       let summary := strip isspace summary in
       ret {| summary_text := summary;
              original_length := String.length text;
              summary_length := String.length summary;
              summary_success := true;
              summary_error := None |})
      (fun e =>
         ret {| summary_text := "";
                original_length := String.length text;
                summary_length := 0;
                summary_success := false;
                summary_error := Some (str_exn e) |}).

(** [summarize] as the collaborator of the executor. *)
Definition summarizer_tool (text : string) (max_length : option nat)
    (style : string) : oracle World payload :=
  fun w =>
    match summarize_text text max_length style (State w []) with
    | (inr r, s') => (inr (summary_payload r), world s')
    | (inl e, s') => (inl e, world s')
    end.

(** The tools of an executor whose summarizer is [SummarizerTool]. *)
Definition with_summarizer (env : Tools World) : Tools World :=
  {| search := search env;
     scrape := scrape env;
     analyze := analyze env;
     calculate := calculate env;
     summarize := summarizer_tool |}.

End SummarizerTool.

Arguments summarize_text {World} isspace llm_generate text max_length style s.
Arguments summarizer_tool {World} isspace llm_generate text max_length
  style w.
Arguments with_summarizer {World} isspace llm_generate env.

(** ** agent/research_agent.py *)

(** An entry of what [VectorStore.search] returns: its ['distance'] is a
    number or [None]. *)
Record similar_result := Similar {
  sim_distance : option Q
}.

Section ResearchAgent.

Variable World : Type.
Variable Pdf : Type.
Variable isspace : Ascii.ascii -> bool.
Variable llm_generate_json : string -> string -> oracle World json.
Variable slice_error : exn.
Variable env : Tools World.
Variable str_items : list search_item -> string.
Variable str_payload : payload -> string.
Variable llm_generate : string -> string -> nat -> Q -> oracle World string.

(** [VectorStore.search] and [Synthesizer.markdown_to_pdf] catch every
    exception themselves: they always return. *)
Variable vector_search : string -> nat -> World -> list similar_result * World.
Variable markdown_to_pdf : string -> World -> Pdf * World.

(** [VectorStore.add(query, results)]. *)
Variable vector_add :
  string -> created_plan -> ExecutionLog -> Report -> oracle World unit.

Notation "x <- m ;; k" := (bind m (fun x => k))
  (at level 100, m at next level, right associativity) : monad_scope.
Local Open Scope monad_scope.

(** A call of a collaborator that always returns. *)
Definition call_total {A} (f : World -> A * World) : M World A :=
  fun s => let (a, w) := f (world s) in (inr a, State w (calls s)).

(** The result dict of [research]. *)
Record research_result := {
  res_query : string;
  res_plan : created_plan;
  res_tool_results : list tool_result;
  res_report : Report;
  res_pdf : option Pdf;
  res_success : bool
}.

(** Lines 46-51: the similarity lookup, whose result is not used;
    comparing a [None] distance with [0.3] raises [TypeError]. *)
Definition check_similar (query : string) (use_cache : bool)
    : M World unit :=
  if use_cache then
    similar <- call_total (vector_search query 1) ;;
    match similar with
    | first :: _ =>
        match sim_distance first with
        | Some _ => ret tt
        | None =>
            raise (Exception
                     "'<' not supported between instances of 'NoneType' and 'float'")
        end
    | [] => ret tt
    end
  else ret tt.

(** Steps 2 to 4 of [research] on a created plan whose ['sub_questions']
    or ['tool_sequence'] is not a list of strings. [execute_plan] is
    embedded on the plans of its signature; what the run does on another
    plan (it may raise [TypeError], or go on) is left open. *)
Variable research_untyped :
  string -> created_plan -> bool -> M World research_result.

(** [ResearchAgent.research]. *)
Definition research (query : string) (use_cache generate_pdf : bool)
    : M World research_result :=
  _ <- check_similar query use_cache ;;
  plan <- create_plan isspace llm_generate_json slice_error query ;;
  match the_plan plan with
  | None => research_untyped query plan generate_pdf
  | Some typed =>
      execution_results <- execute_plan env typed (sub_questions typed) ;;
      report <-
        generate_report str_items str_payload llm_generate query typed
          (tool_results execution_results) ;;
      pdf_result <-
        (if generate_pdf
         then r <- call_total (markdown_to_pdf (markdown report)) ;;
              ret (Some r)
         else ret None) ;;
      _ <- try_except
             (call (vector_add query plan execution_results report))
             (fun _ => ret tt) ;;
      ret {| res_query := query;
             res_plan := plan;
             res_tool_results := tool_results execution_results;
             res_report := report;
             res_pdf := pdf_result;
             res_success := true |}
  end.

End ResearchAgent.

Arguments call_total {World A} f s.
Arguments check_similar {World} vector_search query use_cache s.
Arguments research {World Pdf} isspace llm_generate_json slice_error env
  str_items str_payload llm_generate vector_search markdown_to_pdf
  vector_add research_untyped query use_cache generate_pdf s.
Arguments res_query {Pdf} r.
Arguments res_plan {Pdf} r.
Arguments res_tool_results {Pdf} r.
Arguments res_report {Pdf} r.
Arguments res_pdf {Pdf} r.
Arguments res_success {Pdf} r.

(** ** tools/web_search.py *)

(** An item of the client's response (a dict): the keys [search] reads,
    but for the float ['score']. *)
Record raw_result := RawResult {
  raw_title : option string;
  raw_url : option string;
  raw_content : option string
}.

(** The client's response: the key ['results']. *)
Record search_response := SearchResponse {
  resp_results : option (list raw_result)
}.

(** A formatted result: ['title'], ['url'], ['snippet'] (and the float
    ['score'], left out). *)
Record formatted_result := Formatted {
  f_title : string;
  f_url : string;
  f_snippet : string
}.

(** The dict [search] returns. *)
Record search_output := SearchOutput {
  out_results : list formatted_result;
  out_query : string;
  out_total_results : nat;
  out_error : option string
}.

(** Lines 71-77: one formatted result. *)
Definition format_result (r : raw_result) : formatted_result :=
  {| f_title := default "" (raw_title r);
     f_url := default "" (raw_url r);
     f_snippet := default "" (raw_content r) |}.

(** The output as the payload the pipeline sees. *)
Definition search_payload (o : search_output) : payload :=
  Payload
    (Some (map (fun f => SearchItem (Some (f_url f)) (Some (f_title f)))
               (out_results o)))
    None None None
    (["query"; "total_results"]
     ++ match out_error o with Some _ => ["error"] | None => [] end).

(** config.py: the settings the tools read, at their defaults. *)
Module tool_config.

Definition MAX_SEARCH_RESULTS : Z := 3.

Definition MAX_SCRAPE_LENGTH : Z := 5000.

Definition MAX_RETRIES : nat := 3.

End tool_config.

(** [max_results or config.MAX_SEARCH_RESULTS]: an [int] is falsy when
    it is zero. *)
Definition or_max_results (max_results : option Z) : Z :=
  match max_results with
  | Some n => if Z.eqb n 0 then tool_config.MAX_SEARCH_RESULTS else n
  | None => tool_config.MAX_SEARCH_RESULTS
  end.

Section WebSearchTool.

Variable World : Type.

(** [self.cache.get(key)] and [self.cache.set(key, value)] on search
    outputs, and [self.client.search(query, max_results, "basic")]. *)
Variable cache_get : string -> oracle World (option search_output).
Variable cache_set : string -> search_output -> oracle World unit.
Variable client_search : string -> Z -> oracle World search_response.

(** The exception tenacity raises when it gives up, from the last
    exception of the function. *)
Variable retry_error : exn -> exn.

Notation "x <- m ;; k" := (bind m (fun x => k))
  (at level 100, m at next level, right associativity) : monad_scope.
Local Open Scope monad_scope.

(** tenacity's [retry(stop=stop_after_attempt(n))], without its waits:
    the body is run again after an exception, [n] times at most. *)
Fixpoint retry {A} (attempts : nat) (body : M World A) : M World A :=
  match attempts with
  | S (S n as rest) => try_except body (fun _ => retry rest body)
  | _ => try_except body (fun e => raise (retry_error e))
  end.

(** The body of [WebSearchTool.search]. *)
Definition search_body (query : string) (max_results : option Z)
    (use_cache : bool) : M World search_output :=
  let max_results := or_max_results max_results in
  cached <-
    (if use_cache then call (cache_get ("search:" +:+ query))
     else ret None) ;;
  match cached with
  | Some c => ret c
  | None =>
      try_except
        (response <-
           try_except (call (client_search query max_results))
             (fun _ => call (client_search query max_results)) ;;
         let results :=
           map format_result (default [] (resp_results response)) in
         let output :=
           {| out_results := results;
              out_query := query;
              out_total_results := length results;
              out_error := None |} in
         _ <- (if use_cache
               then call (cache_set ("search:" +:+ query) output)
               else ret tt) ;;
         ret output)
        (fun e =>
           ret {| out_results := [];
                  out_query := query;
                  out_total_results := 0;
                  out_error := Some (str_exn e) |})
  end.

(** [WebSearchTool.search], with its [retry] decorator. *)
Definition web_search (query : string) (max_results : option Z)
    (use_cache : bool) : M World search_output :=
  retry tool_config.MAX_RETRIES (search_body query max_results use_cache).

(** [search] as the collaborator of the executor, which passes the query
    only. *)
Definition web_search_tool (query : string) : oracle World payload :=
  fun w =>
    match web_search query None true (State w []) with
    | (inr o, s') => (inr (search_payload o), world s')
    | (inl e, s') => (inl e, world s')
    end.

(** The tools of an executor whose search tool is [WebSearchTool]. *)
Definition with_search (env : Tools World) : Tools World :=
  {| search := web_search_tool;
     scrape := scrape env;
     analyze := analyze env;
     calculate := calculate env;
     summarize := summarize env |}.

End WebSearchTool.

Arguments retry {World} retry_error {A} attempts body s.
Arguments search_body {World} cache_get cache_set client_search query
  max_results use_cache s.
Arguments web_search {World} cache_get cache_set client_search retry_error
  query max_results use_cache s.
Arguments web_search_tool {World} cache_get cache_set client_search
  retry_error query w.
Arguments with_search {World} cache_get cache_set client_search retry_error
  env.

(** ** utils/validators.py: URLs *)

Section UrlValidators.

Variable isspace : Ascii.ascii -> bool.

(** [urllib.parse.urlparse], taken as given: the scheme and the netloc of
    the parsed URL, or the exception it raises. *)
Variable urlparse : string -> exn + (string * string).

(** [validate_url]. *)
Definition validate_url (url : string) : bool :=
  match urlparse url with
  | inr (scheme, netloc) =>
      if negb (String.eqb scheme "http" || String.eqb scheme "https")
      then false
      else if negb (truthy netloc) then false
      else true
  | inl _ => false
  end.

(** [sanitize_url]. *)
Definition sanitize_url (url : string) : option string :=
  let url := strip isspace url in
  if negb (truthy url) then None
  else
    let url :=
      if negb (String.prefix "http://" url || String.prefix "https://" url)
      then "https://" +:+ url
      else url in
    if validate_url url then Some url else None.

End UrlValidators.

(** ** tools/scraper.py *)

(** The dict [scrape] returns. *)
Record scrape_output := ScrapeOutput {
  sc_url : string;
  sc_title : string;
  sc_text : string;
  sc_length : nat;
  sc_success : bool;
  sc_error : option string
}.

(** The output as the payload the pipeline sees. *)
Definition scrape_payload (o : scrape_output) : payload :=
  Payload None (Some (sc_url o)) (Some (sc_title o)) (Some (sc_text o))
    (["length"; "success"]
     ++ match sc_error o with Some _ => ["error"] | None => [] end).

(** How fetching and parsing a page fails: with a
    [requests.RequestException] or with another exception. *)
Inductive fetch_error :=
  | RequestException (e : exn)
  | OtherException (e : exn).

(** [max_length or config.MAX_SCRAPE_LENGTH]: an [int] is falsy when it
    is zero. *)
Definition or_scrape_length (max_length : option Z) : Z :=
  match max_length with
  | Some n => if Z.eqb n 0 then tool_config.MAX_SCRAPE_LENGTH else n
  | None => tool_config.MAX_SCRAPE_LENGTH
  end.

(** [s[:n]] for an [int] [n]: a negative [n] counts from the end. *)
Definition str_prefix (n : Z) (s : string) : string :=
  if Z.leb 0 n then str_take (Z.to_nat n) s
  else str_take (String.length s - Z.to_nat (Z.opp n)) s.

(** [s.split(sep)] for a separator of one character; [cur] is the piece
    being read. *)
Fixpoint split_on_from (sep : Ascii.ascii) (cur : string) (s : string)
    : list string :=
  match s with
  | EmptyString => [cur]
  | String c rest =>
      if Ascii.eqb c sep then cur :: split_on_from sep EmptyString rest
      else split_on_from sep (cur +:+ String c EmptyString) rest
  end.

Definition split_on (sep : Ascii.ascii) (s : string) : list string :=
  split_on_from sep EmptyString s.

(** The failure dicts of [scrape]. *)
Definition scrape_failure (url msg : string) : scrape_output :=
  {| sc_url := url; sc_title := ""; sc_text := ""; sc_length := 0;
     sc_success := false; sc_error := Some msg |}.

Section WebScraperTool.

Variable World : Type.
Variable isspace : Ascii.ascii -> bool.
Variable urlparse : string -> exn + (string * string).

(** [self.cache.get(key)] and [self.cache.set(key, value)] on scrape
    outputs. *)
Variable cache_get : string -> oracle World (option scrape_output).
Variable cache_set : string -> scrape_output -> oracle World unit.

(** Lines 70-105: fetching the page and extracting its title and its
    text. *)
Variable fetch_page :
  string -> World -> (fetch_error + (string * string)) * World.

Variable retry_error : exn -> exn.

Notation "x <- m ;; k" := (bind m (fun x => k))
  (at level 100, m at next level, right associativity) : monad_scope.
Local Open Scope monad_scope.

(** Lines 107-113: the clean-up and the length limit of the text. *)
Definition clean_text (max_length : Z) (text : string) : string :=
  let lines :=
    map (strip isspace)
      (List.filter (fun line => truthy (strip isspace line))
         (split_on (Ascii.ascii_of_nat 10) text)) in
  let text := String.concat " " lines in
  if Z.ltb max_length (Z.of_nat (String.length text))
  then str_prefix max_length text +:+ "..."
  else text.

(** The [try] block of [scrape], with its two handlers. *)
Definition fetch_and_extract (url : string) (use_cache : bool)
    (max_length : Z) : M World scrape_output :=
  fun s =>
    match fetch_page url (world s) with
    | (inl (RequestException e), w) =>
        (inr (scrape_failure url ("Request error: " +:+ str_exn e)),
         State w (calls s))
    | (inl (OtherException e), w) =>
        (inr (scrape_failure url ("Scraping error: " +:+ str_exn e)),
         State w (calls s))
    | (inr (title_text, text), w) =>
        let text := clean_text max_length text in
        let result :=
          {| sc_url := url; sc_title := title_text; sc_text := text;
             sc_length := String.length text; sc_success := true;
             sc_error := None |} in
        try_except
          (_ <- (if use_cache
                 then call (cache_set ("scrape:" +:+ url) result)
                 else ret tt) ;;
           ret result)
          (fun e =>
             ret (scrape_failure url ("Scraping error: " +:+ str_exn e)))
          (State w (calls s))
    end.

(** The body of [WebScraperTool.scrape]. *)
Definition scrape_body (url : string) (use_cache : bool)
    (max_length : option Z) : M World scrape_output :=
  let max_length := or_scrape_length max_length in
  let url :=
    match sanitize_url isspace urlparse url with
    | Some u => if truthy u then u else url
    | None => url
    end in
  if negb (validate_url urlparse url) then
    ret (scrape_failure url "Invalid URL")
  else
    cached <-
      (if use_cache then call (cache_get ("scrape:" +:+ url))
       else ret None) ;;
    match cached with
    | Some c => ret c
    | None => fetch_and_extract url use_cache max_length
    end.

(** [WebScraperTool.scrape], with its [retry] decorator. *)
Definition scrape_page (url : string) (use_cache : bool)
    (max_length : option Z) : M World scrape_output :=
  retry retry_error tool_config.MAX_RETRIES
    (scrape_body url use_cache max_length).

(** [scrape] as the collaborator of the executor, which passes the URL
    only. *)
Definition scraper_tool (url : string) : oracle World payload :=
  fun w =>
    match scrape_page url true None (State w []) with
    | (inr o, s') => (inr (scrape_payload o), world s')
    | (inl e, s') => (inl e, world s')
    end.

(** The tools of an executor whose scraper is [WebScraperTool]. *)
Definition with_scraper (env : Tools World) : Tools World :=
  {| search := search env;
     scrape := scraper_tool;
     analyze := analyze env;
     calculate := calculate env;
     summarize := summarize env |}.

End WebScraperTool.

Arguments fetch_and_extract {World} isspace cache_set fetch_page url
  use_cache max_length s.
Arguments scrape_body {World} isspace urlparse cache_get cache_set fetch_page
  url use_cache max_length s.
Arguments scrape_page {World} isspace urlparse cache_get cache_set fetch_page
  retry_error url use_cache max_length s.
Arguments scraper_tool {World} isspace urlparse cache_get cache_set
  fetch_page retry_error url w.
Arguments with_scraper {World} isspace urlparse cache_get cache_set
  fetch_page retry_error env.

(** ** Vocabulary of the properties *)

Section Vocabulary.

Context {World : Type} (env : Tools World).

(** The underlying tool of [tool_name], called in world [w] with the
    arguments [execute_tool] extracts from [kw], raises [e] and leaves the
    world [w']. *)
Inductive tool_raises (kw : kwargs) (w : World) (e : exn) (w' : World)
    : string -> Prop :=
  | search_raises :
      search env (default "" (kw_query kw)) w = (inl e, w') ->
      tool_raises kw w e w' "web_search"
  | scrape_raises :
      scrape env (default "" (kw_url kw)) w = (inl e, w') ->
      tool_raises kw w e w' "scraper"
  | analyze_raises :
      analyze env (kw_text kw) (kw_data kw)
        (default false (kw_create_chart kw)) w = (inl e, w') ->
      tool_raises kw w e w' "data_analysis"
  | calculate_raises :
      calculate env (default "" (kw_expression kw)) w = (inl e, w') ->
      tool_raises kw w e w' "calculator"
  | summarize_raises :
      summarize env (default "" (kw_text kw)) (kw_max_length kw)
        (default "concise" (kw_style kw)) w = (inl e, w') ->
      tool_raises kw w e w' "summarizer".

End Vocabulary.

Arguments tool_raises {World} env kw w e w' _.

(** The shape of a ToolInvocationResult of [tool_name]: [result] and no
    [error] on success, [error] and no [result] on failure. *)
Definition well_formed (name : string) (r : tool_result) : Prop :=
  tool r = name /\
  (success r = true -> is_Some (result r) /\ error r = None) /\
  (success r = false -> result r = None /\ is_Some (error r)).

(** A search on [q]: an invocation of web_search whose only keyword is
    [query = q]. *)
Definition search_invocation (q : string) : invocation :=
  {| inv_tool := "web_search";
     inv_args :=
       {| kw_query := Some q; kw_url := None; kw_text := None;
          kw_data := None; kw_create_chart := None; kw_expression := None;
          kw_max_length := None; kw_style := None |} |}.

(** A scrape of [u]: an invocation of scraper whose only keyword is
    [url = u]. *)
Definition scrape_invocation (u : string) : invocation :=
  {| inv_tool := "scraper";
     inv_args :=
       {| kw_query := None; kw_url := Some u; kw_text := None;
          kw_data := None; kw_create_chart := None; kw_expression := None;
          kw_max_length := None; kw_style := None |} |}.

(** The invocations of the web_search stage, from the truncated list. *)
Definition search_invocations (plan : Plan) (limited : list string)
    : list invocation :=
  if 3 <? length limited
  then [search_invocation (default (List.hd "" limited) (query plan))]
  else map search_invocation limited.

(** *** The text buffers of the data_analysis and summarizer stages *)

(** The text an entry carries: the ['text'] of its ['result'], and the
    empty string when it has no result or the result has no text. *)
Definition result_text (r : tool_result) : string :=
  match result r with
  | Some d => match p_text d with Some t => t | None => "" end
  | None => ""
  end.

(** The texts of the prior successful scrape results, in order: of the
    entries whose tool is scraper and whose success flag is set, and of no
    other entry. *)
Definition scraped_texts (rs : list tool_result) : list string :=
  map result_text
    (filter (fun r => tool r = "scraper" /\ success r = true) rs).

(** Plain concatenation of a list of strings. *)
Definition join (l : list string) : string := fold_right String.append "" l.

(** A text followed by one space. *)
Definition spaced (t : string) : string := t +:+ " ".

(** A text cut to 2000 characters and followed by a blank line. *)
Definition chunk (t : string) : string := str_take 2000 t +:+ blank_line.

(** [" ".join(texts)]. *)
Definition space_joined (texts : list string) : string :=
  String.concat " " texts.

(** *** Citations and references *)

(** What one entry of [tool_results] offers as (title, url) pairs, in scan
    order: nothing when it failed, one pair per item of a web_search
    result, the single pair of a scraper result. *)
Definition offered (r : tool_result) : list Citation :=
  if success r then
    let d := default empty_payload (result r) in
    if String.eqb (tool r) "web_search" then
      map (fun item =>
             Cite (default "" (item_title item)) (default "" (item_url item)))
          (default [] (p_results d))
    else if String.eqb (tool r) "scraper" then
      [Cite (default "" (p_title d)) (default "" (p_url d))]
    else []
  else [].

(** A pair as it is cited: the title defaults to the URL. *)
Definition cited (c : Citation) : Citation :=
  Cite (or_str (title c) (url c)) (url c).

(** The candidate citations: the offered pairs with a non-empty URL. *)
Definition candidates (rs : list tool_result) : list Citation :=
  map cited (filter (fun c => url c <> "") (flat_map offered rs)).

(** Deduplication by URL that keeps the first occurrence. *)
Fixpoint first_seen (l : list Citation) : list Citation :=
  match l with
  | [] => []
  | c :: rest => c :: filter (fun d => url d <> url c) (first_seen rest)
  end.

Definition add_offered (acc : list Citation * gset string) (c : Citation)
    : list Citation * gset string :=
  add_citation (url c) (title c) acc.

(** The numbered reference list: line [i] is
    ["<i>. [<title>](<url>)"] followed by a newline, counting from 1. *)
Definition reference_list (cs : list Citation) : string :=
  join (imap (fun i c => reference_line (S i) c) cs).

(** *** Whole runs *)

(** The item URLs of one result: [item['url']] for every item of
    [result['result']['results']] that has the key. *)
Definition item_urls (r : tool_result) : list string :=
  match result r with
  | Some d =>
      match p_results d with
      | Some items => omap item_url items
      | None => []
      end
  | None => []
  end.

(** The item URLs of the successful web_search results of a log, in order,
    duplicates included. *)
Definition found_urls (rs : list tool_result) : list string :=
  flat_map (fun r =>
              if success r && String.eqb (tool r) "web_search"
              then item_urls r else []) rs.

(** A failed result of a tool other than web_search and scraper. *)
Definition is_recorded (r : tool_result) : bool :=
  negb (success r) && negb (String.eqb (tool r) "web_search")
  && negb (String.eqb (tool r) "scraper").

(** The error entries of the recorded results of a log, in order. *)
Definition recorded (rs : list tool_result) : list error_entry :=
  map (fun r => ErrorEntry (tool r) (default "Unknown error" (error r)))
      (List.filter is_recorded rs).

(** An entry the report is built from: a successful result of
    web_search, scraper or data_analysis. *)
Definition relevant (r : tool_result) : bool :=
  success r
  && (String.eqb (tool r) "web_search" || String.eqb (tool r) "scraper"
      || String.eqb (tool r) "data_analysis").

(** *** Strings *)

(** Every character of [s] satisfies [f]. *)
Fixpoint str_all (f : Ascii.ascii -> bool) (s : string) : bool :=
  match s with
  | EmptyString => true
  | String c rest => f c && str_all f rest
  end.

(** [s] is a sequence of words separated by single spaces, possibly
    followed by one space: every whitespace character of [s] is a space
    that follows a non-whitespace character. [after_space] tells whether
    the position before [s] counts as a space. *)
Fixpoint tidy_from (isspace : Ascii.ascii -> bool) (after_space : bool)
    (s : string) : Prop :=
  match s with
  | EmptyString => True
  | String c rest =>
      if isspace c
      then c = Ascii.ascii_of_nat 32 /\ after_space = false
           /\ tidy_from isspace true rest
      else tidy_from isspace false rest
  end.

(** [s] does not begin with a whitespace character. *)
Definition starts_clean (isspace : Ascii.ascii -> bool) (s : string) : Prop :=
  match s with
  | EmptyString => True
  | String c _ => isspace c = false
  end.

(** The characters that are not whitespace. *)
Definition inword (isspace : Ascii.ascii -> bool) (c : Ascii.ascii) : bool :=
  negb (isspace c).

(** An answer of the planning model of the shape the prompt asks for: an
    object whose ['sub_questions'] and ['tool_sequence'], when present,
    are arrays of strings. *)
Definition typed_answer (j : json) : Prop :=
  exists entries,
    j = JDict entries
    /\ (forall v, dict_lookup "sub_questions" entries = Some v ->
                  is_Some (as_strings v))
    /\ (forall v, dict_lookup "tool_sequence" entries = Some v ->
                  is_Some (as_strings v)).

(** An output that [scrape] built itself, fresh or failed: its [length]
    is the length of its text, which the limit bounds, and a failure
    carries no text, no title and an error. *)
Definition sound_output (max_length : Z) (o : scrape_output) : Prop :=
  sc_length o = String.length (sc_text o)
  /\ ((0 <= max_length)%Z ->
      String.length (sc_text o) <= Z.to_nat max_length + 3)
  /\ (sc_success o = false ->
      sc_text o = "" /\ sc_title o = "" /\ sc_error o <> None).

(** The answer of the search client: it is asked once, and once more when
    the first call raises. *)
Definition client_answer {World : Type}
    (client_search : string -> Z -> oracle World search_response)
    (q : string) (n : Z) (w : World) : (exn + search_response) * World :=
  match client_search q n w with
  | (inl _, w') => client_search q n w'
  | (inr response, w') => (inr response, w')
  end.

(** The output of a search that the client answered: one result per item
    of the response, with the empty string for a missing title, URL or
    content, and no error. *)
Definition fresh_output (q : string) (response : search_response)
    : search_output :=
  let items :=
    match resp_results response with
    | Some items => items
    | None => []
    end in
  {| out_results :=
       map (fun r =>
              {| f_title := match raw_title r with Some t => t | None => "" end;
                 f_url := match raw_url r with Some u => u | None => "" end;
                 f_snippet :=
                   match raw_content r with Some c => c | None => "" end |})
           items;
     out_query := q;
     out_total_results := length items;
     out_error := None |}.

(** The output of a search that failed with [e]: no results, and
    [error = str(e)]. *)
Definition failed_search (q : string) (e : exn) : search_output :=
  {| out_results := []; out_query := q; out_total_results := 0;
     out_error := Some (str_exn e) |}.

(** ** Concrete collaborators and runs *)

Module Scenario.

(** Collaborators over a one-point world. *)
Definition returns {A} (a : A) : oracle unit A := fun w => (inr a, w).

Definition fails {A} (msg : string) : oracle unit A :=
  fun w => (inl (Exception msg), w).

(** A search result with one page per query. *)
Definition found (q : string) : payload :=
  Payload (Some [SearchItem (Some ("http://example.org/" +:+ q)) (Some q)])
    None None None ["query"; "total_results"].

(** A scraped page. *)
Definition page (u : string) : payload :=
  Payload None (Some u) (Some "Title") (Some "Some text.")
    ["length"; "success"].

(** What [scrape] returns for a URL it rejects: its own failure report,
    with an empty text. *)
Definition rejected (u : string) : payload :=
  Payload None (Some u) (Some "") (Some "") ["length"; "success"; "error"].

Definition other : payload := Payload None None None None ["success"].

Definition healthy : Tools unit := {|
  search q := returns (found q);
  scrape u := returns (page u);
  analyze _ _ _ := returns other;
  calculate _ := returns other;
  summarize _ _ _ := returns other
|}.

(** The search tool raises. *)
Definition search_down : Tools unit := {|
  search _ := fails "connection refused";
  scrape u := returns (page u);
  analyze _ _ _ := returns other;
  calculate _ := returns other;
  summarize _ _ _ := returns other
|}.

(** The scrape tool rejects every URL, without raising. *)
Definition scrape_rejects : Tools unit := {|
  search q := returns (found q);
  scrape u := returns (rejected u);
  analyze _ _ _ := returns other;
  calculate _ := returns other;
  summarize _ _ _ := returns other
|}.

(** The scrape tool raises. *)
Definition scrape_down : Tools unit := {|
  search q := returns (found q);
  scrape _ := fails "timed out";
  analyze _ _ _ := returns other;
  calculate _ := returns other;
  summarize _ _ _ := returns other
|}.

(** The summarize tool raises. *)
Definition summarize_down : Tools unit := {|
  search q := returns (found q);
  scrape u := returns (page u);
  analyze _ _ _ := returns other;
  calculate _ := returns other;
  summarize _ _ _ := fails "model unavailable"
|}.

Definition start : state unit := State tt [].

(** Two search results that both contain ["http://a"]. *)
Definition items_a : list search_item :=
  [SearchItem (Some "http://a") (Some "First");
   SearchItem (Some "http://b") None].

Definition items_b : list search_item :=
  [SearchItem (Some "http://a") (Some "Second")].

Definition results_of (items : list search_item) : payload :=
  Payload (Some items) None None None ["query"; "total_results"].

Definition plan_of (qs seq : list string) : Plan :=
  {| query := Some "main query"; sub_questions := Some qs;
     tool_sequence := Some seq |}.

Definition empty_log (p : Plan) : ExecutionLog := Log p [] true [].

Definition five_urls : list string :=
  ["http://a"; "http://b"; "http://c"; "http://d"; "http://e"].

(** The plan [create_plan] makes for the query ["AI"] when the model
    returns an empty object. *)
Definition planned : created_plan :=
  {| plan_query := "AI";
     plan_sub_questions := JList (map JStr (fallback_questions "AI"));
     plan_tool_sequence := JList [JStr "web_search"; JStr "scraper"];
     plan_reasoning := JStr "Standard research plan";
     plan_success := true;
     plan_error := None |}.

(** The same plan as [execute_plan] reads it. *)
Definition planned_typed : Plan :=
  {| query := Some "AI";
     sub_questions := Some (fallback_questions "AI");
     tool_sequence := Some ["web_search"; "scraper"] |}.

(** An answer of the planning model with four sub-questions. *)
Definition four_questions : json :=
  JDict [("sub_questions",
          JList [JStr "q1"; JStr "q2"; JStr "q3"; JStr "q4"]);
         ("tool_sequence", JList [JStr "web_search"]);
         ("reasoning", JStr "Search only")].

(** An answer whose tool sequence is a number. *)
Definition odd_answer : json :=
  JDict [("sub_questions", JList [JStr "q1"; JStr "q2"; JStr "q3"]);
         ("tool_sequence", JInt 5)].

(** The whitespace characters of ASCII, as [str.isspace] has them. *)
Definition ascii_space (c : Ascii.ascii) : bool :=
  let n := Ascii.nat_of_ascii c in
  ((9 <=? n) && (n <=? 13)) || ((28 <=? n) && (n <=? 32)).

(** [n] copies of the string [c]. *)
Fixpoint letters (c : string) (n : nat) : string :=
  match n with
  | 0 => ""
  | S n => c +:+ letters c n
  end.

(** A scraped page with a given text. *)
Definition page_with (u text : string) : payload :=
  Payload None (Some u) (Some "Title") (Some text) ["length"; "success"].

(** The results of a run: a search, a scrape that failed, a scrape whose
    failure still carries a text, a summary, and three scraped pages of
    2500, 1500 and 5 characters. *)
Definition long_pages : list tool_result :=
  [ok_result "web_search" (found "q");
   failed_result "scraper" "timed out";
   ToolResult "scraper" false (Some (page_with "http://x" "stale"))
     (Some "gone");
   ok_result "summarizer" (page_with "" "a summary");
   ok_result "scraper" (page_with "http://a" (letters "a" 2500));
   ok_result "scraper" (page_with "http://b" (letters "b" 1500));
   ok_result "scraper" (page_with "http://c" "third")].

(** Results without any successful scrape. *)
Definition no_pages : list tool_result :=
  [ok_result "web_search" (found "q");
   failed_result "scraper" "timed out";
   ToolResult "scraper" false (Some (page_with "http://x" "stale"))
     (Some "gone");
   ok_result "summarizer" (page_with "" "a summary")].

(** A URL parser for the runs: every URL is an https URL of one host. *)
Definition one_host (url : string) : exn + (string * string) :=
  inr ("https", "example.org").

End Scenario.

(** ** Properties of [execute_tool] *)

Section ExecuteTool.

Context {World : Type} (env : Tools World).

Lemma route_cases (name : string) (t : tool_obj) (kw : kwargs)
    (s : state World) :
  (exists p w', route env name t kw s = (inr (ok_result name p), State w' (calls s)))
  \/ (exists msg, route env name t kw s = (inr (failed_result name msg), s))
  \/ (exists e w', route env name t kw s = (inl e, State w' (calls s))).
Proof.
  unfold route.
  repeat case_match; destruct t;
    unfold bind, tool_search, tool_scrape, tool_analyze, tool_calculate,
      tool_summarize, attribute_error, raise, call, ret;
    repeat case_match; simplify_eq; destruct s; simpl in *; eauto 6.
Qed.

(** [execute_tool] returns a well-formed result, logs exactly its own
    invocation and never raises. *)
Lemma execute_tool_returns (name : string) (kw : kwargs) (s : state World) :
  exists r w',
    execute_tool env name kw s
    = (inr r, State w' (calls s ++ [Invocation name kw]))
    /\ well_formed name r.
Proof.
  unfold execute_tool, bind, log_invocation.
  destruct (tools !! name) as [t|].
  - unfold try_except.
    destruct (route_cases name t kw
                (State (world s) (calls s ++ [Invocation name kw])))
      as [(p & w' & ->)|[(msg & ->)|(e & w' & ->)]]; simpl;
      eexists _, _; (split; [reflexivity|]);
      unfold well_formed; simpl; intuition (eauto || discriminate).
  - eexists _, _. split; [reflexivity|].
    unfold well_formed; simpl; intuition (eauto || discriminate).
Qed.

Lemma tools_web_search : tools !! "web_search" = Some WebSearchTool.
Proof. reflexivity. Qed.

Lemma tools_scraper : tools !! "scraper" = Some WebScraperTool.
Proof. reflexivity. Qed.

Lemma tools_data_analysis : tools !! "data_analysis" = Some DataAnalysisTool.
Proof. reflexivity. Qed.

Lemma tools_calculator : tools !! "calculator" = Some CalculatorTool.
Proof. reflexivity. Qed.

Lemma tools_summarizer : tools !! "summarizer" = Some SummarizerTool.
Proof. reflexivity. Qed.

(** The registry holds exactly the five tool names of [__init__]. *)
Lemma tools_unknown (name : string) :
  tools !! name = None <->
  name ∉ ["web_search"; "scraper"; "data_analysis"; "calculator";
          "summarizer"].
Proof.
  unfold tools. rewrite !lookup_insert_None, lookup_empty.
  rewrite !not_elem_of_cons. rewrite elem_of_nil. intuition congruence.
Qed.

(** C6. [execute_tool] never raises: it always returns a result for the
    tool it was asked for; for a name that is not in the registry the
    result has [success = false] and the error ["Unknown tool: <name>"];
    and when the underlying tool raises an exception [e] the result has
    [success = false] and the error [str(e)]. *)
Theorem execute_tool_never_raises (name : string) (kw : kwargs)
    (s : state World) :
  (exists r s', execute_tool env name kw s = (inr r, s') /\ tool r = name)
  /\ (tools !! name = None ->
      execute_tool env name kw s
      = (inr (ToolResult name false None (Some ("Unknown tool: " +:+ name))),
         State (world s) (calls s ++ [Invocation name kw])))
  /\ (forall e w',
        tool_raises env kw (world s) e w' name ->
        execute_tool env name kw s
        = (inr (ToolResult name false None (Some (str_exn e))),
           State w' (calls s ++ [Invocation name kw]))).
Proof.
  split; [|split].
  - destruct (execute_tool_returns name kw s) as (r & w' & H & Hwf & _).
    eauto.
  - intros Hnone. unfold execute_tool, bind, log_invocation.
    rewrite Hnone. reflexivity.
  - intros e w' Hraise. unfold execute_tool, bind, log_invocation.
    destruct Hraise as [H|H|H|H|H];
      [rewrite tools_web_search | rewrite tools_scraper
      | rewrite tools_data_analysis | rewrite tools_calculator
      | rewrite tools_summarizer];
      unfold try_except, route, tool_search, tool_scrape, tool_analyze,
        tool_calculate, tool_summarize, call, bind, ret;
      simpl; rewrite H; reflexivity.
Qed.

End ExecuteTool.

(** ** Properties of the stages of [execute_plan] *)

Section Stages.

Context {World : Type} (env : Tools World).

Lemma successful_all (l : list tool_result) :
  Forall (fun r => success r = true) l -> successful l = length l.
Proof.
  unfold successful. induction 1 as [|r l Hr _ IH]; simpl; [reflexivity|].
  rewrite Hr. simpl. now rewrite IH.
Qed.

(** Running [execute_tool] inside a [bind]. *)
Lemma bind_execute_tool {B} (name : string) (kw : kwargs)
    (k : tool_result -> M World B) (s : state World) :
  exists r w',
    bind (execute_tool env name kw) k s
    = k r (State w' (calls s ++ [Invocation name kw]))
    /\ execute_tool env name kw s
       = (inr r, State w' (calls s ++ [Invocation name kw]))
    /\ well_formed name r.
Proof.
  destruct (execute_tool_returns env name kw s) as (r & w' & H & Hwf).
  exists r, w'. unfold bind. rewrite H. auto.
Qed.

(** The search loop issues one invocation per question, in order. *)
Lemma search_each_returns (questions : list string)
    (search_results : list tool_result) (urls : list string)
    (s : state World) :
  exists new urls' w',
    search_each env questions search_results urls s
    = (inr (search_results ++ new, urls'),
       State w' (calls s ++ map search_invocation questions))
    /\ length new = length questions
    /\ Forall (well_formed "web_search") new.
Proof.
  revert search_results urls s.
  induction questions as [|q qs IH]; intros rs urls s; simpl.
  - exists [], urls, (world s). rewrite !app_nil_r. destruct s; auto.
  - destruct (bind_execute_tool "web_search" (kw_of_query q)
                (fun r => search_each env qs (rs ++ [r]) (collect_urls r urls))
                s) as (r & w' & -> & _ & Hwf).
    destruct (IH (rs ++ [r]) (collect_urls r urls)
                (State w' (calls s ++ [Invocation "web_search" (kw_of_query q)])))
      as (new & urls' & w'' & -> & Hlen & Hall).
    exists (r :: new), urls', w''. simpl.
    rewrite <- !app_assoc. simpl. rewrite Hlen. auto.
Qed.

(** The scrape loop: it invokes the scraper on a prefix of its URLs, in
    order, and stops at the first point where two results of the stage
    have succeeded. [P] is any property of the results of scraper
    invocations. *)
Lemma scrape_each_returns (P : tool_result -> Prop)
    (HP : forall u s r s',
        execute_tool env "scraper" (kw_of_url u) s = (inr r, s') -> P r)
    (urls : list string) (scrape_results : list tool_result)
    (s : state World) :
  exists k new w',
    scrape_each env urls scrape_results s
    = (inr (scrape_results ++ new),
       State w' (calls s ++ map scrape_invocation (take k urls)))
    /\ length new = k /\ k <= length urls
    /\ Forall P new
    /\ (k = length urls \/ 2 <= successful (scrape_results ++ new))
    /\ (forall j, 0 < j -> j < k ->
                  successful (scrape_results ++ take j new) < 2).
Proof.
  revert scrape_results s.
  induction urls as [|u rest IH]; intros rs s.
  - exists 0, [], (world s). simpl. rewrite !app_nil_r. destruct s; simpl.
    repeat split; auto; lia.
  - destruct (execute_tool_returns env "scraper" (kw_of_url u) s)
      as (r & w' & Hex & _).
    cbn [scrape_each]. unfold bind at 1. rewrite Hex. cbv zeta.
    apply HP in Hex.
    destruct (2 <=? successful (rs ++ [r])) eqn:Hstop.
    + apply Nat.leb_le in Hstop.
      exists 1, [r], w'. cbn [length take firstn map].
      repeat split; auto with lia.
    + apply Nat.leb_gt in Hstop.
      destruct (IH (rs ++ [r])
                  (State w' (calls s ++ [Invocation "scraper" (kw_of_url u)])))
        as (k & new & w'' & -> & Hlen & Hk & Hall & Hend & Hbefore).
      exists (S k), (r :: new), w''. cbn [length take firstn map calls].
      rewrite <- !app_assoc in *. cbn [app] in *.
      repeat split; auto with lia.
      intros j Hj0 Hj. destruct j as [|j]; [lia|]. cbn [take firstn].
      destruct j as [|j]; [rewrite take_0; exact Hstop|].
      specialize (Hbefore (S j)). rewrite <- app_assoc in Hbefore.
      apply Hbefore; lia.
Qed.

Lemma successful_le_length (l : list tool_result) :
  successful l <= length l.
Proof. unfold successful. apply List.filter_length_le. Qed.

Lemma web_search_stage_returns (plan : Plan) (limited urls : list string)
    (s : state World) :
  exists rs urls' w',
    web_search_stage env plan limited urls s
    = (inr (rs, urls'),
       State w' (calls s ++ search_invocations plan limited))
    /\ length rs = length (search_invocations plan limited).
Proof.
  unfold web_search_stage, search_invocations.
  destruct (3 <? length limited) eqn:Hlen.
  - destruct limited as [|q0 rest]; [discriminate|].
    unfold bind at 1. cbn [index0 ret List.hd].
    destruct (execute_tool_returns env "web_search"
                (kw_of_query (default q0 (query plan))) s)
      as (r & w' & Hex & _).
    unfold bind, ret. rewrite Hex. eexists _, _, _. split; reflexivity.
  - destruct (search_each_returns limited [] urls s)
      as (new & urls' & w' & -> & Hnew & _).
    exists new, urls', w'. rewrite length_map. auto.
Qed.

Lemma scraper_stage_returns (P : tool_result -> Prop)
    (HP : forall u s r s',
        execute_tool env "scraper" (kw_of_url u) s = (inr r, s') -> P r)
    (urls : list string) (s : state World) :
  exists k new w',
    scraper_stage env urls s
    = (inr new, State w' (calls s ++ map scrape_invocation (take k urls)))
    /\ length new = k /\ k <= 3 /\ k <= length urls
    /\ Forall P new
    /\ (k = Nat.min 3 (length urls) \/ 2 <= successful new)
    /\ (forall j, 0 < j -> j < k -> successful (take j new) < 2).
Proof.
  unfold scraper_stage.
  destruct (scrape_each_returns P HP (take config.MAX_URLS_TO_SCRAPE urls)
              [] s)
    as (k & new & w' & -> & Hlen & Hk & Hall & Hend & Hbefore).
  rewrite length_take in Hk, Hend. unfold config.MAX_URLS_TO_SCRAPE in *.
  exists k, new, w'. cbn [app] in *.
  rewrite take_take. replace (k `min` 3) with k by lia.
  repeat split; auto with lia.
Qed.

(** Every stage returns, keeps the plan and the success flag of the log,
    and only appends to [tool_results]. *)
Lemma stage_returns (plan : Plan) (limited : list string) (name : string)
    (log : ExecutionLog) (urls : list string) (s : state World) :
  exists log' urls' s',
    stage env plan limited name log urls s = (inr (log', urls'), s')
    /\ log_success log' = log_success log
    /\ log_plan log' = log_plan log
    /\ exists new, tool_results log' = tool_results log ++ new.
Proof.
  unfold stage.
  destruct (String.eqb name "web_search").
  { destruct (web_search_stage_returns plan limited urls s)
      as (rs & urls' & w' & H & _).
    unfold bind, ret. rewrite H. simpl. eauto 10. }
  destruct (String.eqb name "scraper").
  { destruct (scraper_stage_returns (fun _ => True) (fun _ _ _ _ _ => I)
                urls s) as (k & new & w' & H & _).
    unfold bind, ret. rewrite H. simpl. eauto 10. }
  destruct (String.eqb name "data_analysis").
  { destruct (truthy _).
    - destruct (execute_tool_returns env "data_analysis"
                  (kw_analysis (analysis_buffer (tool_results log) "")) s)
        as (r & w' & H & _).
      unfold bind, ret. rewrite H. unfold check_errors.
      destruct (negb (success r)); simpl; eauto 10.
    - unfold ret. simpl. eexists _, _, _. repeat split.
      exists []. now rewrite app_nil_r. }
  destruct (String.eqb name "summarizer").
  { destruct (truthy _).
    - destruct (execute_tool_returns env "summarizer"
                  (kw_summary
                     (str_take 3000 (summary_buffer (tool_results log) "")))
                  s) as (r & w' & H & _).
      unfold bind, ret. rewrite H. unfold check_errors.
      destruct (negb (success r)); simpl; eauto 10.
    - unfold ret. simpl. eexists _, _, _. repeat split.
      exists []. now rewrite app_nil_r. }
  destruct (execute_tool_returns env name no_kwargs s) as (r & w' & H & _).
  unfold bind, ret. rewrite H. unfold check_errors.
  destruct (negb (success r)); simpl; eauto 10.
Qed.

Lemma run_stages_returns (plan : Plan) (limited sequence : list string)
    (log : ExecutionLog) (urls : list string) (s : state World) :
  exists log' urls' s',
    run_stages env plan limited sequence log urls s = (inr (log', urls'), s')
    /\ log_success log' = log_success log
    /\ log_plan log' = log_plan log.
Proof.
  revert log urls s.
  induction sequence as [|name rest IH]; intros log urls s; simpl.
  - unfold ret. eauto 10.
  - destruct (stage_returns plan limited name log urls s)
      as (log1 & urls1 & s1 & H & Hs & Hp & _).
    unfold bind. rewrite H. simpl.
    destruct (IH log1 urls1 s1) as (log2 & urls2 & s2 & -> & Hs2 & Hp2).
    exists log2, urls2, s2. repeat split; congruence.
Qed.

(** C4. For every plan [execute_plan] returns an ExecutionLog, and its
    [success] flag is [true] whatever the individual invocations did. *)
Theorem execute_plan_success_always_true (plan : Plan)
    (sub_questions_arg : option (list string)) (s : state World) :
  exists log s',
    execute_plan env plan sub_questions_arg s = (inr log, s')
    /\ log_success log = true
    /\ log_plan log = plan.
Proof.
  unfold execute_plan.
  destruct (run_stages_returns plan
              (take config.MAX_SUB_QUESTIONS
                 (or_list sub_questions_arg (default [] (sub_questions plan))))
              (default [] (tool_sequence plan)) (Log plan [] true []) [] s)
    as (log & urls & s' & H & Hs & Hp).
  unfold bind, ret. rewrite H. eauto.
Qed.

(** C2. The web_search stage, on the sub-question list truncated to
    [MAX_SUB_QUESTIONS = 5]: with more than 3 entries it issues exactly one
    search invocation, on the plan's main query; otherwise exactly one
    search invocation per sub-question, in order. Four sub-questions give
    1 invocation and three give 3. A search invocation on [q] is a call of
    web_search whose only keyword is [query = q]. *)
Theorem web_search_stage_invocations (plan : Plan)
    (sub_questions : list string) (log : ExecutionLog) (urls : list string)
    (s : state World) :
  let limited := take config.MAX_SUB_QUESTIONS sub_questions in
  exists rs urls' w' invs,
    stage env plan limited "web_search" log urls s
    = (inr (extend_results rs log, urls'), State w' (calls s ++ invs))
    /\ length rs = length invs
    /\ length limited <= 5
    /\ (3 < length limited ->
        invs = [search_invocation
                  (default (List.hd "" limited) (query plan))]
        /\ forall main, query plan = Some main ->
                        invs = [search_invocation main])
    /\ (length limited <= 3 -> invs = map search_invocation limited)
    /\ (length sub_questions = 4 -> length invs = 1)
    /\ (length sub_questions = 3 -> length invs = 3).
Proof.
  intros limited.
  destruct (web_search_stage_returns plan limited urls s)
    as (rs & urls' & w' & H & Hlen).
  exists rs, urls', w', (search_invocations plan limited).
  assert (Hlim : length limited = Nat.min 5 (length sub_questions))
    by (unfold limited; now rewrite length_take).
  split; [|split; [exact Hlen|split; [lia|]]].
  - unfold stage. cbn [String.eqb Ascii.eqb Bool.eqb].
    unfold bind, ret. rewrite H. reflexivity.
  - unfold search_invocations. repeat split.
    + destruct (Nat.ltb_spec 3 (length limited)); [reflexivity|lia].
    + intros main Hq. rewrite Hq.
      destruct (Nat.ltb_spec 3 (length limited)); [reflexivity|lia].
    + intros Hle.
      destruct (Nat.ltb_spec 3 (length limited)); [lia|reflexivity].
    + intros H4.
      destruct (Nat.ltb_spec 3 (length limited)); [reflexivity|lia].
    + intros H3.
      destruct (Nat.ltb_spec 3 (length limited)); [lia|].
      rewrite length_map. lia.
Qed.


(** A scraper invocation whose collaborator returns a value is a success
    at the level of [execute_tool], whatever the value says. *)
Lemma execute_tool_scraper_ok (kw : kwargs) (s : state World) p w' :
  scrape env (default "" (kw_url kw)) (world s) = (inr p, w') ->
  execute_tool env "scraper" kw s
  = (inr (ok_result "scraper" p),
     State w' (calls s ++ [Invocation "scraper" kw])).
Proof.
  intros H. unfold execute_tool, bind, log_invocation.
  rewrite tools_scraper.
  unfold try_except, route, tool_scrape, call, bind, ret. simpl.
  rewrite H. reflexivity.
Qed.

(** C10. When the scrape collaborator always returns a value (it reports
    its own failures inside the value), every scraper result of
    [execute_tool] has [success = true]; the scraper stage then performs
    exactly [min 2 (min (length urls) 3)] invocations, all counted as
    successes, and leaves [errors] unchanged. *)
Theorem scraper_stage_counts_inner_failures
    (Hreturns : forall u w, exists p w', scrape env u w = (inr p, w'))
    (plan : Plan) (limited : list string) (log : ExecutionLog)
    (urls : list string) (s : state World) :
  (forall kw s0, exists p s1,
      execute_tool env "scraper" kw s0 = (inr (ok_result "scraper" p), s1))
  /\ exists new w',
      let n := Nat.min 2 (Nat.min (length urls) 3) in
      stage env plan limited "scraper" log urls s
      = (inr (extend_results new log, urls),
         State w' (calls s ++ map scrape_invocation (take n urls)))
      /\ length new = n
      /\ Forall (fun r => success r = true) new
      /\ successful new = n
      /\ errors (extend_results new log) = errors log.
Proof.
  assert (Hok : forall kw s0, exists p s1,
             execute_tool env "scraper" kw s0
             = (inr (ok_result "scraper" p), s1)).
  { intros kw s0.
    destruct (Hreturns (default "" (kw_url kw)) (world s0)) as (p & w' & H).
    rewrite (execute_tool_scraper_ok kw s0 p w' H). eauto. }
  split; [exact Hok|].
  destruct (scraper_stage_returns (fun r => success r = true)) with
      (urls := urls) (s := s)
    as (k & new & w' & H & Hlen & Hk3 & Hk & Hall & Hend & Hbefore).
  { intros u s0 r s1 Hex. destruct (Hok (kw_of_url u) s0) as (p & s2 & Hp).
    rewrite Hp in Hex. injection Hex as <- _. reflexivity. }
  assert (Hsucc : forall j, successful (take j new) = Nat.min j k).
  { intros j. rewrite successful_all by (apply Forall_take, Hall).
    rewrite length_take. lia. }
  assert (Hn : k = Nat.min 2 (Nat.min (length urls) 3)).
  { destruct Hend as [->|Hend]; [|].
    - destruct (decide (3 `min` length urls <= 2)) as [|Hgt]; [lia|].
      specialize (Hbefore 2 ltac:(lia) ltac:(lia)).
      rewrite Hsucc in Hbefore. lia.
    - rewrite (successful_all _ Hall) in Hend.
      destruct (decide (k = 2)) as [|Hne]; [lia|].
      specialize (Hbefore 2 ltac:(lia) ltac:(lia)).
      rewrite Hsucc in Hbefore. lia. }
  exists new, w'. cbv zeta. rewrite <- Hn.
  split; [|repeat split; auto].
  - unfold stage. cbn [String.eqb Ascii.eqb Bool.eqb].
    unfold bind, ret. rewrite H. reflexivity.
  - rewrite (successful_all _ Hall). exact Hlen.
Qed.

End Stages.

(** ** The text buffers of the data_analysis and summarizer stages *)

Lemma join_nil : join [] = "".
Proof. reflexivity. Qed.

Lemma join_cons (x : string) (l : list string) : join (x :: l) = x +:+ join l.
Proof. reflexivity. Qed.

Lemma str_app_cons (x : Ascii.ascii) (a b : string) :
  String x a +:+ b = String x (a +:+ b).
Proof. reflexivity. Qed.

Lemma str_app_assoc (a b c : string) : (a +:+ b) +:+ c = a +:+ b +:+ c.
Proof.
  induction a as [|x a IH]; [reflexivity|].
  rewrite !str_app_cons. now rewrite IH.
Qed.

Lemma str_app_nil_r (a : string) : a +:+ "" = a.
Proof.
  induction a as [|x a IH]; [reflexivity|].
  rewrite str_app_cons. now rewrite IH.
Qed.

Lemma str_length_app (a b : string) :
  String.length (a +:+ b) = String.length a + String.length b.
Proof.
  induction a as [|x a IH]; [reflexivity|].
  rewrite str_app_cons. simpl. now rewrite IH.
Qed.

Lemma str_take_length (n : nat) (s : string) :
  String.length (str_take n s) <= n.
Proof.
  unfold str_take. revert s.
  induction n as [|n IH]; intros [|c s]; simpl; try lia.
  specialize (IH s). lia.
Qed.

Lemma truthy_false (s : string) : truthy s = false <-> s = "".
Proof.
  unfold truthy. rewrite negb_false_iff. apply String.eqb_eq.
Qed.

Lemma truthy_true (s : string) : truthy s = true <-> s <> "".
Proof.
  unfold truthy. rewrite negb_true_iff. apply String.eqb_neq.
Qed.

Lemma scraped_texts_cons (r : tool_result) (rs : list tool_result) :
  scraped_texts (r :: rs)
  = if is_scraped r then scraped_text r :: scraped_texts rs
    else scraped_texts rs.
Proof.
  assert (Htext : scraped_text r = result_text r).
  { unfold scraped_text, result_text.
    destruct (result r) as [d|]; [|reflexivity].
    simpl. now destruct (p_text d). }
  unfold scraped_texts, is_scraped.
  destruct (String.eqb (tool r) "scraper") eqn:Htool.
  - apply String.eqb_eq in Htool. destruct (success r) eqn:Hsucc.
    + rewrite (filter_cons_True
                 (fun r => tool r = "scraper" /\ success r = true));
        [|now split].
      cbn [andb map]. now rewrite Htext.
    + rewrite (filter_cons_False
                 (fun r => tool r = "scraper" /\ success r = true));
        [reflexivity|].
      intros [_ H]. congruence.
  - apply String.eqb_neq in Htool.
    rewrite (filter_cons_False
               (fun r => tool r = "scraper" /\ success r = true));
      [reflexivity|].
    intros [H _]. contradiction.
Qed.

(** The data_analysis buffer is every prior successful scrape text
    followed by a space. *)
Lemma analysis_buffer_join (rs : list tool_result) (acc : string) :
  analysis_buffer rs acc = acc +:+ join (map spaced (scraped_texts rs)).
Proof.
  revert acc. induction rs as [|r rs IH]; intros acc.
  - simpl. now rewrite str_app_nil_r.
  - rewrite scraped_texts_cons. cbn [analysis_buffer].
    destruct (is_scraped r); [|apply IH].
    rewrite IH. cbn [map join fold_right]. unfold spaced.
    now rewrite !str_app_assoc.
Qed.

(** The summarizer buffer is a prefix of the chunks: the shortest one whose
    concatenation exceeds 3000 characters, or all of them. *)
Lemma summary_buffer_join (rs : list tool_result) (acc : string) :
  let chunks := map chunk (scraped_texts rs) in
  exists k,
    k <= length chunks
    /\ summary_buffer rs acc = acc +:+ join (take k chunks)
    /\ (k = length chunks
        \/ 3000 < String.length (acc +:+ join (take k chunks)))
    /\ (forall j, 0 < j -> j < k ->
                  String.length (acc +:+ join (take j chunks)) <= 3000).
Proof.
  cbv zeta. revert acc. induction rs as [|r rs IH]; intros acc.
  - exists 0. simpl. rewrite str_app_nil_r. repeat split; auto; lia.
  - rewrite scraped_texts_cons. cbn [summary_buffer].
    destruct (is_scraped r); [|apply IH]. cbv zeta.
    fold (chunk (scraped_text r)). rewrite map_cons.
    destruct (3000 <? String.length (acc +:+ chunk (scraped_text r)))
      eqn:Hfull.
    + apply Nat.ltb_lt in Hfull. exists 1.
      rewrite firstn_cons, take_0, join_cons, join_nil, str_app_nil_r.
      cbn [length]. repeat split; auto with lia.
    + apply Nat.ltb_ge in Hfull.
      destruct (IH (acc +:+ chunk (scraped_text r)))
        as (k & Hk & -> & Hend & Hbefore).
      exists (S k). rewrite firstn_cons, join_cons.
      rewrite <- !str_app_assoc. cbn [length].
      repeat split; auto with lia.
      intros j Hj0 Hj. destruct j as [|j]; [lia|].
      rewrite firstn_cons, join_cons, <- str_app_assoc.
      destruct j as [|j].
      * now rewrite take_0, join_nil, str_app_nil_r.
      * apply Hbefore; lia.
Qed.

Section Buffers.

Context {World : Type} (env : Tools World).

Lemma join_spaced_empty (texts : list string) :
  join (map spaced texts) = "" <-> texts = [].
Proof.
  destruct texts as [|t l]; [tauto|].
  split; [|discriminate]. intros H.
  apply (f_equal String.length) in H.
  rewrite map_cons, join_cons in H. unfold spaced in H.
  rewrite !str_length_app in H. simpl in H. lia.
Qed.

(** C7. The summarizer stage builds its buffer from the prior successful
    scrape texts (the texts of the results whose tool is scraper and whose
    success flag is set, and of no other), each cut to 2000 characters and followed by a blank
    line, and stops accumulating once the buffer is longer than 3000
    characters; the text it passes on is the buffer cut to 3000
    characters, with [max_length = 150] and [style = 'concise']; with an
    empty buffer the stage does nothing. *)
Theorem summarizer_stage_buffer (plan : Plan) (limited : list string)
    (log : ExecutionLog) (urls : list string) (s : state World) :
  let chunks := map chunk (scraped_texts (tool_results log)) in
  let buffer := summary_buffer (tool_results log) "" in
  (exists k,
      k <= length chunks
      /\ buffer = join (take k chunks)
      /\ (k = length chunks \/ 3000 < String.length buffer)
      /\ (forall j, j < k -> String.length (join (take j chunks)) <= 3000))
  /\ String.length (str_take 3000 buffer) <= 3000
  /\ (buffer = "" ->
      stage env plan limited "summarizer" log urls s = (inr (log, urls), s))
  /\ (buffer <> "" ->
      exists r w',
        stage env plan limited "summarizer" log urls s
        = (inr (check_errors "summarizer" (Some r)
                  (extend_results [r] log), urls),
           State w'
             (calls s ++
                [Invocation "summarizer"
                   (Kwargs None None (Some (str_take 3000 buffer)) None None
                      None (Some 150) (Some "concise"))]))
        /\ well_formed "summarizer" r).
Proof.
  intros chunks buffer. split; [|split; [|split]].
  - destruct (summary_buffer_join (tool_results log) "")
      as (k & Hk & Hbuf & Hend & Hbefore).
    exists k. fold chunks in Hk, Hbuf, Hend, Hbefore. fold buffer in Hbuf.
    change ("" +:+ join (take k chunks)) with (join (take k chunks))
      in Hbuf, Hend.
    rewrite <- Hbuf in Hend. repeat split; auto.
    intros j Hj. destruct j as [|j]; [simpl; lia|].
    apply (Hbefore (S j)); lia.
  - apply str_take_length.
  - intros Hempty. unfold stage. cbn [String.eqb Ascii.eqb Bool.eqb].
    fold buffer. rewrite Hempty. reflexivity.
  - intros Hne. unfold stage. cbn [String.eqb Ascii.eqb Bool.eqb].
    fold buffer. apply truthy_true in Hne. rewrite Hne.
    destruct (execute_tool_returns env "summarizer"
                (kw_summary (str_take 3000 buffer)) s)
      as (r & w' & H & Hwf).
    exists r, w'. unfold bind, ret. rewrite H. auto.
Qed.

(** C8, as the code has it. The data_analysis stage appends every prior
    successful scrape text (the text of every result whose tool is scraper
    and whose success flag is set, and of no other) followed by one space
    to its buffer. The buffer
    is empty exactly when there is no prior successful scrape result; then
    the stage does nothing. Otherwise data_analysis is invoked once, on the
    buffer, with [create_chart = true]. *)
Theorem data_analysis_stage_buffer (plan : Plan) (limited : list string)
    (log : ExecutionLog) (urls : list string) (s : state World) :
  let texts := scraped_texts (tool_results log) in
  let buffer := analysis_buffer (tool_results log) "" in
  buffer = join (map spaced texts)
  /\ (buffer = "" <-> texts = [])
  /\ (texts = [] ->
      stage env plan limited "data_analysis" log urls s
      = (inr (log, urls), s))
  /\ (texts <> [] ->
      exists r w',
        stage env plan limited "data_analysis" log urls s
        = (inr (check_errors "data_analysis" (Some r)
                  (extend_results [r] log), urls),
           State w'
             (calls s ++
                [Invocation "data_analysis"
                   (Kwargs None None (Some buffer) None (Some true) None
                      None None)]))
        /\ well_formed "data_analysis" r).
Proof.
  intros texts buffer.
  assert (Hbuf : buffer = join (map spaced texts)).
  { unfold buffer. now rewrite analysis_buffer_join. }
  assert (Hempty : buffer = "" <-> texts = []).
  { rewrite Hbuf. apply join_spaced_empty. }
  split; [exact Hbuf|split; [exact Hempty|split]].
  - intros Hnil. apply Hempty in Hnil.
    unfold stage. cbn [String.eqb Ascii.eqb Bool.eqb].
    fold buffer. rewrite Hnil. reflexivity.
  - intros Hne. unfold stage. cbn [String.eqb Ascii.eqb Bool.eqb].
    fold buffer.
    assert (Htruthy : truthy buffer = true) by (apply truthy_true; tauto).
    rewrite Htruthy.
    destruct (execute_tool_returns env "data_analysis"
                (kw_analysis buffer) s) as (r & w' & H & Hwf).
    exists r, w'. unfold bind, ret. rewrite H. auto.
Qed.

End Buffers.

(** ** Citation extraction *)

Lemma citation_step_offered (acc : list Citation * gset string)
    (r : tool_result) :
  citation_step acc r = fold_left add_offered (offered r) acc.
Proof.
  unfold citation_step, offered.
  destruct (success r); [|reflexivity]. cbn [negb].
  destruct (String.eqb (tool r) "web_search").
  - generalize (default [] (p_results (default empty_payload (result r)))).
    intros items. revert acc.
    induction items as [|i items IH]; intros acc; [reflexivity|].
    simpl. apply IH.
  - destruct (String.eqb (tool r) "scraper"); reflexivity.
Qed.

Lemma fold_citation_step (rs : list tool_result)
    (acc : list Citation * gset string) :
  fold_left citation_step rs acc
  = fold_left add_offered (flat_map offered rs) acc.
Proof.
  revert acc. induction rs as [|r rs IH]; intros acc; [reflexivity|].
  simpl. rewrite fold_left_app, IH, citation_step_offered. reflexivity.
Qed.

Lemma filter_all_id {A} (P : A -> Prop) `{forall x, Decision (P x)}
    (l : list A) :
  (forall x, P x) -> filter P l = l.
Proof.
  intros HP. induction l as [|x l IH]; [reflexivity|].
  rewrite filter_cons_True by apply HP. now rewrite IH.
Qed.

Lemma url_cited (c : Citation) : url (cited c) = url c.
Proof. reflexivity. Qed.

Lemma fold_add_offered (raws : list Citation) (cits : list Citation)
    (seen : gset string) :
  (forall u, u ∈ seen <-> u ∈ map url cits) ->
  fst (fold_left add_offered raws (cits, seen))
  = cits ++ filter (fun d => url d ∉ map url cits)
              (first_seen (map cited (filter (fun c => url c <> "") raws))).
Proof.
  revert cits seen.
  induction raws as [|c raws IH]; intros cits seen Hseen.
  - simpl. now rewrite app_nil_r.
  - cbn [fold_left]. unfold add_offered at 2, add_citation.
    destruct (truthy (url c)) eqn:Hu.
    + apply truthy_true in Hu.
      rewrite (filter_cons_True (fun c => url c <> "")) by exact Hu.
      cbn [map first_seen]. rewrite url_cited.
      destruct (decide (url c ∈ seen)) as [Hin|Hnin].
      * rewrite (bool_decide_eq_true_2 _ Hin). cbn [negb andb].
        rewrite (IH cits seen Hseen). f_equal.
        apply Hseen in Hin.
        rewrite filter_cons_False by (rewrite url_cited; tauto).
        rewrite list_filter_filter. apply list_filter_iff.
        intros d. cbv beta.
        split; [|tauto]. intros Hd. split; [exact Hd|].
        intros Heq. apply Hd. now rewrite Heq.
      * rewrite (bool_decide_eq_false_2 _ Hnin). cbn [negb andb].
        rewrite (IH (cits ++ [Cite (or_str (title c) (url c)) (url c)])
                    ({[url c]} ∪ seen)).
        -- rewrite <- app_assoc. f_equal.
           rewrite filter_cons_True
             by (rewrite url_cited; intros Hin; apply Hnin, Hseen, Hin).
           cbn [app]. f_equal.
           rewrite list_filter_filter. apply list_filter_iff.
           intros d. cbv beta. rewrite map_app. cbn [map url].
           rewrite elem_of_app, list_elem_of_singleton. tauto.
        -- intros u. rewrite map_app. cbn [map url].
           rewrite elem_of_union, elem_of_singleton, elem_of_app,
             list_elem_of_singleton, Hseen. tauto.
    + apply truthy_false in Hu.
      rewrite (filter_cons_False (fun c => url c <> "")) by tauto.
      cbn [andb]. apply IH, Hseen.
Qed.

(** The code computes the first-seen deduplication of the candidates. *)
Lemma extract_citations_first_seen (rs : list tool_result) :
  extract_citations rs = first_seen (candidates rs).
Proof.
  unfold extract_citations, candidates.
  rewrite fold_citation_step, fold_add_offered.
  - cbn [app map]. apply filter_all_id. intros d. apply not_elem_of_nil.
  - intros u. cbn [map]. rewrite elem_of_nil. set_solver.
Qed.

Lemma filter_none {A} (P : A -> Prop) `{forall x, Decision (P x)}
    (l : list A) :
  (forall x, ~ P x) -> filter P l = [].
Proof.
  intros HP. induction l as [|x l IH]; [reflexivity|].
  now rewrite filter_cons_False by apply HP.
Qed.

Lemma NoDup_map_filter {A B} (f : A -> B) (P : A -> Prop)
    `{forall x, Decision (P x)} (l : list A) :
  NoDup (map f l) -> NoDup (map f (filter P l)).
Proof.
  induction l as [|x l IH]; [easy|]. cbn [map].
  intros Hnd. apply NoDup_cons in Hnd as [Hx Hl].
  destruct (decide (P x)) as [Hp|Hp].
  - rewrite filter_cons_True by exact Hp. cbn [map].
    apply NoDup_cons. split; [|auto].
    intros Hin. apply Hx.
    apply list_elem_of_fmap in Hin as (d & -> & Hin).
    apply list_elem_of_filter in Hin as [_ Hin].
    apply list_elem_of_fmap. eauto.
  - rewrite filter_cons_False by exact Hp. auto.
Qed.

Lemma first_seen_subset (l : list Citation) (c : Citation) :
  c ∈ first_seen l -> c ∈ l.
Proof.
  induction l as [|x l IH]; [easy|]. cbn [first_seen].
  rewrite !elem_of_cons, list_elem_of_filter. tauto.
Qed.

Lemma first_seen_NoDup (l : list Citation) : NoDup (map url (first_seen l)).
Proof.
  induction l as [|x l IH]; cbn [first_seen map]; constructor.
  - intros Hin. apply list_elem_of_fmap in Hin as (d & Hd & Hin).
    apply list_elem_of_filter in Hin as [Hne _]. congruence.
  - apply NoDup_map_filter, IH.
Qed.

(** Of the citations for one URL only the first candidate remains. *)
Lemma first_seen_filter_url (l : list Citation) (u : string) :
  filter (fun d => url d = u) (first_seen l)
  = option_list (head (filter (fun d => url d = u) l)).
Proof.
  induction l as [|x l IH]; [reflexivity|]. cbn [first_seen].
  destruct (decide (url x = u)) as [Hx|Hx].
  - rewrite !(filter_cons_True (fun d => url d = u)) by exact Hx.
    rewrite list_filter_filter, filter_none; [reflexivity|].
    intros d. cbv beta. intuition congruence.
  - rewrite !(filter_cons_False (fun d => url d = u)) by exact Hx.
    rewrite <- IH, list_filter_filter. apply list_filter_iff.
    intros d. cbv beta. intuition congruence.
Qed.

Lemma offered_failed (rs : list tool_result) :
  flat_map offered rs = flat_map offered (List.filter success rs).
Proof.
  induction rs as [|r rs IH]; [reflexivity|]. simpl.
  destruct (success r) eqn:Hs; simpl; [now rewrite IH|].
  unfold offered at 1. now rewrite Hs.
Qed.

Lemma candidates_nonempty (rs : list tool_result) (c : Citation) :
  c ∈ candidates rs -> url c <> "" /\ title c <> "".
Proof.
  unfold candidates. intros Hin.
  apply list_elem_of_fmap in Hin as (d & -> & Hin).
  apply list_elem_of_filter in Hin as [Hne _].
  split; [exact Hne|]. unfold cited, or_str. cbn [title].
  destruct (truthy (title d)) eqn:Ht; [now apply truthy_true|exact Hne].
Qed.

(** The first offered pair with a given non-empty URL is the first
    candidate with that URL. *)
Lemma first_candidate (l1 l2 : list Citation) (c : Citation) (u : string) :
  url c = u -> u <> "" -> (forall d, d ∈ l1 -> url d <> u) ->
  head (filter (fun d => url d = u)
          (map cited (filter (fun c => url c <> "") (l1 ++ c :: l2))))
  = Some (cited c).
Proof.
  intros Hc Hu. induction l1 as [|d l1 IH]; intros Hl1.
  - cbn [app].
    rewrite (filter_cons_True (fun c => url c <> "")) by congruence.
    rewrite map_cons.
    rewrite (filter_cons_True (fun d => url d = u)) by exact Hc.
    reflexivity.
  - cbn [app]. assert (Hd : url d <> u) by (apply Hl1; left).
    assert (IH' := IH (fun x Hx => Hl1 x (list_elem_of_further _ _ _ Hx))).
    destruct (decide (url d = "")) as [He|He].
    + now rewrite (filter_cons_False (fun c => url c <> "")) by tauto.
    + rewrite (filter_cons_True (fun c => url c <> "")) by exact He.
      rewrite map_cons.
      now rewrite (filter_cons_False (fun d => url d = u)) by exact Hd.
Qed.

Lemma offered_web_search (p : payload) (items : list search_item) :
  p_results p = Some items ->
  offered (ok_result "web_search" p)
  = map (fun item =>
           Cite (default "" (item_title item)) (default "" (item_url item)))
        items.
Proof. intros H. unfold offered. simpl. now rewrite H. Qed.


(** ** Report generation *)

Lemma append_references_join (i : nat) (cs : list Citation) (md : string) :
  append_references i cs md
  = md +:+ join (imap (fun k c => reference_line (i + k) c) cs).
Proof.
  revert i md. induction cs as [|c cs IH]; intros i md.
  - simpl. now rewrite str_app_nil_r.
  - cbn [append_references imap]. rewrite IH, join_cons, str_app_assoc.
    rewrite Nat.add_0_r. do 3 f_equal.
    apply imap_ext. intros k d _. cbv beta.
    now replace (S i + k) with (i + S k) by lia.
Qed.

Section Report.

Context {World : Type}.
Variable str_items : list search_item -> string.
Variable str_payload : payload -> string.
Variable llm_generate : string -> string -> nat -> Q -> oracle World string.


End Report.

(** C1. Two runs with a raising tool. With a search tool that raises,
    the failed web_search invocation is in [tool_results] and [errors]
    stays empty; with a scrape tool that raises, the failed scraper
    invocations are in [tool_results] and [errors] stays empty. *)
Theorem search_and_scrape_failures_not_recorded :
  (let plan := Scenario.plan_of ["q1"] ["web_search"] in
   execute_plan Scenario.search_down plan None Scenario.start
   = (inr (Log plan
             [ToolResult "web_search" false None (Some "connection refused")]
             true []),
      State tt [Invocation "web_search" (kw_of_query "q1")]))
  /\ (let plan := Scenario.plan_of ["q1"] ["web_search"; "scraper"] in
      exists log s',
        execute_plan Scenario.scrape_down plan None Scenario.start
        = (inr log, s')
        /\ tool_results log
           = [ok_result "web_search" (Scenario.found "q1");
              ToolResult "scraper" false None (Some "timed out")]
        /\ errors log = []).
Proof.
  split.
  - vm_compute. reflexivity.
  - eexists _, _. split; [vm_compute; reflexivity|]. split; reflexivity.
Qed.

(** The summarizer stage, by contrast, records the failure of its
    invocation in [errors]. *)
Example summarizer_failure_recorded :
  let plan := Scenario.plan_of ["q1"] ["web_search"; "scraper"; "summarizer"] in
  exists log s',
    execute_plan Scenario.summarize_down plan None Scenario.start
    = (inr log, s')
    /\ errors log = [ErrorEntry "summarizer" "model unavailable"].
Proof.
  eexists _, _. split; [vm_compute; reflexivity|]. reflexivity.
Qed.

(** An empty tool sequence gives an empty log. *)
Example empty_sequence_empty_log :
  let plan := Scenario.plan_of ["q1"; "q2"; "q3"] [] in
  execute_plan Scenario.healthy plan None Scenario.start
  = (inr (Log plan [] true []), Scenario.start).
Proof. reflexivity. Qed.

(** Ten sub-questions: the web_search stage searches the main query only. *)
Example ten_sub_questions_one_search :
  let qs := ["q1"; "q2"; "q3"; "q4"; "q5"; "q6"; "q7"; "q8"; "q9"; "q10"] in
  let plan := Scenario.plan_of qs ["web_search"] in
  calls (snd (execute_plan Scenario.healthy plan (Some qs) Scenario.start))
  = [search_invocation "main query"].
Proof. vm_compute. reflexivity. Qed.

(** Search, scrape, summarize: three searches, two scrapes (the stage stops
    after two successes), one summary of the two scraped texts. *)
Example search_scrape_summarize_run :
  let plan :=
    Scenario.plan_of ["q1"; "q2"; "q3"] ["web_search"; "scraper"; "summarizer"]
  in
  calls (snd (execute_plan Scenario.healthy plan None Scenario.start))
  = [search_invocation "q1"; search_invocation "q2"; search_invocation "q3";
     scrape_invocation "http://example.org/q1";
     scrape_invocation "http://example.org/q2";
     Invocation "summarizer"
       (kw_summary ("Some text." +:+ blank_line +:+ "Some text."
                    +:+ blank_line))].
Proof. vm_compute. reflexivity. Qed.

(** ** Instances of the theorems on concrete runs *)

Lemma web_search_stage_invocations_witness :
  (exists rs urls' w',
      stage Scenario.healthy (Scenario.plan_of [] [])
        (take config.MAX_SUB_QUESTIONS ["q1"; "q2"; "q3"; "q4"])
        "web_search" (Scenario.empty_log (Scenario.plan_of [] [])) []
        Scenario.start
      = (inr (extend_results rs
                (Scenario.empty_log (Scenario.plan_of [] [])), urls'),
         State w'
           [Invocation "web_search"
              (Kwargs (Some "main query") None None None None None None
                 None)]))
  /\ (exists rs urls' w',
        stage Scenario.healthy (Scenario.plan_of [] [])
          (take config.MAX_SUB_QUESTIONS ["q1"; "q2"; "q3"])
          "web_search" (Scenario.empty_log (Scenario.plan_of [] [])) []
          Scenario.start
        = (inr (extend_results rs
                  (Scenario.empty_log (Scenario.plan_of [] [])), urls'),
           State w'
             [Invocation "web_search"
                (Kwargs (Some "q1") None None None None None None None);
              Invocation "web_search"
                (Kwargs (Some "q2") None None None None None None None);
              Invocation "web_search"
                (Kwargs (Some "q3") None None None None None None None)])).
Proof.
  split.
  - destruct (web_search_stage_invocations Scenario.healthy
                (Scenario.plan_of [] []) ["q1"; "q2"; "q3"; "q4"]
                (Scenario.empty_log (Scenario.plan_of [] [])) []
                Scenario.start)
      as (rs & urls' & w' & invs & H & _ & _ & Hmain & _).
    destruct Hmain as [_ Hmain]; [simpl; lia|].
    rewrite (Hmain "main query" eq_refl) in H.
    exists rs, urls', w'. exact H.
  - destruct (web_search_stage_invocations Scenario.healthy
                (Scenario.plan_of [] []) ["q1"; "q2"; "q3"]
                (Scenario.empty_log (Scenario.plan_of [] [])) []
                Scenario.start)
      as (rs & urls' & w' & invs & H & _ & _ & _ & Heach & _).
    rewrite Heach in H by (simpl; lia).
    exists rs, urls', w'. exact H.
Defined.


Lemma scraper_stage_counts_inner_failures_witness :
  exists new w',
    stage Scenario.scrape_rejects (Scenario.plan_of [] []) [] "scraper"
      (Scenario.empty_log (Scenario.plan_of [] [])) Scenario.five_urls
      Scenario.start
    = (inr (extend_results new
              (Scenario.empty_log (Scenario.plan_of [] [])),
            Scenario.five_urls),
       State w'
         (calls Scenario.start
          ++ map scrape_invocation ["http://a"; "http://b"]))
    /\ length new = 2
    /\ errors
         (extend_results new (Scenario.empty_log (Scenario.plan_of [] [])))
       = [].
Proof.
  assert (Hreturns : forall u w, exists p w',
             scrape Scenario.scrape_rejects u w = (inr p, w')).
  { intros u w. exists (Scenario.rejected u), w. reflexivity. }
  destruct (scraper_stage_counts_inner_failures Scenario.scrape_rejects
              Hreturns (Scenario.plan_of [] []) []
              (Scenario.empty_log (Scenario.plan_of [] []))
              Scenario.five_urls Scenario.start)
    as (_ & new & w' & H & Hlen & _ & _ & Herr).
  exists new, w'. split; [exact H|]. split; [exact Hlen|exact Herr].
Defined.

Lemma execute_tool_never_raises_witness :
  execute_tool Scenario.healthy "unknown_tool" no_kwargs Scenario.start
  = (inr (ToolResult "unknown_tool" false None
            (Some "Unknown tool: unknown_tool")),
     State tt [Invocation "unknown_tool" no_kwargs])
  /\ execute_tool Scenario.search_down "web_search" (kw_of_query "q")
       Scenario.start
     = (inr (ToolResult "web_search" false None (Some "connection refused")),
        State tt [Invocation "web_search" (kw_of_query "q")]).
Proof.
  split.
  - apply (execute_tool_never_raises Scenario.healthy "unknown_tool"
             no_kwargs Scenario.start).
    reflexivity.
  - destruct (execute_tool_never_raises Scenario.search_down "web_search"
                (kw_of_query "q") Scenario.start) as (_ & _ & Hraise).
    apply (Hraise (Exception "connection refused") tt).
    apply search_raises. reflexivity.
Defined.


Lemma summarizer_stage_buffer_witness :
  scraped_texts Scenario.long_pages
  = [Scenario.letters "a" 2500; Scenario.letters "b" 1500; "third"]
  /\ (exists k,
        k = 2
        /\ summary_buffer Scenario.long_pages ""
           = join (take k (map chunk (scraped_texts Scenario.long_pages))))
  /\ stage Scenario.healthy (Scenario.plan_of [] []) [] "summarizer"
       (Log (Scenario.plan_of [] []) Scenario.no_pages true []) []
       Scenario.start
     = (inr (Log (Scenario.plan_of [] []) Scenario.no_pages true [], []),
        Scenario.start)
  /\ exists r w',
      stage Scenario.healthy (Scenario.plan_of [] []) [] "summarizer"
        (Log (Scenario.plan_of [] []) Scenario.long_pages true [])
        [] Scenario.start
      = (inr (check_errors "summarizer" (Some r)
                (extend_results [r]
                   (Log (Scenario.plan_of [] []) Scenario.long_pages
                      true [])), []),
         State w'
           [Invocation "summarizer"
              (Kwargs None None
                 (Some (Scenario.letters "a" 2000 +:+ blank_line
                        +:+ Scenario.letters "b" 998))
                 None None None (Some 150) (Some "concise"))]).
Proof.
  split; [vm_compute; reflexivity|]. split; [|split].
  - destruct (summarizer_stage_buffer Scenario.healthy
                (Scenario.plan_of [] []) []
                (Log (Scenario.plan_of [] []) Scenario.long_pages true [])
                [] Scenario.start)
      as ((k & Hk & Hbuf & Hend & _) & _).
    cbn [tool_results] in Hk, Hbuf, Hend.
    exists k. split; [|exact Hbuf].
    assert (Hlen := f_equal String.length Hbuf).
    destruct k as [|[|[|[|k]]]].
    + vm_compute in Hlen. discriminate.
    + vm_compute in Hlen. discriminate.
    + reflexivity.
    + vm_compute in Hlen. discriminate.
    + vm_compute in Hk. lia.
  - apply (summarizer_stage_buffer Scenario.healthy). reflexivity.
  - destruct (summarizer_stage_buffer Scenario.healthy
                (Scenario.plan_of [] []) []
                (Log (Scenario.plan_of [] []) Scenario.long_pages true [])
                [] Scenario.start) as (_ & _ & _ & Hrun).
    destruct Hrun as (r & w' & H & _); [vm_compute; discriminate|].
    exists r, w'.
    assert (Hcut :
              str_take 3000 (summary_buffer Scenario.long_pages "")
              = Scenario.letters "a" 2000 +:+ blank_line
                +:+ Scenario.letters "b" 998)
      by (vm_compute; reflexivity).
    cbn [tool_results] in H. rewrite Hcut in H. exact H.
Defined.

Lemma data_analysis_stage_buffer_witness :
  scraped_texts Scenario.no_pages = []
  /\ stage Scenario.healthy (Scenario.plan_of [] []) [] "data_analysis"
       (Log (Scenario.plan_of [] []) Scenario.no_pages true []) []
       Scenario.start
     = (inr (Log (Scenario.plan_of [] []) Scenario.no_pages true [], []),
        Scenario.start)
  /\ exists r w',
      stage Scenario.healthy (Scenario.plan_of [] []) [] "data_analysis"
        (Log (Scenario.plan_of [] []) Scenario.long_pages true [])
        [] Scenario.start
      = (inr (check_errors "data_analysis" (Some r)
                (extend_results [r]
                   (Log (Scenario.plan_of [] []) Scenario.long_pages
                      true [])), []),
         State w'
           [Invocation "data_analysis"
              (Kwargs None None
                 (Some (Scenario.letters "a" 2500 +:+ " "
                        +:+ Scenario.letters "b" 1500 +:+ " third "))
                 None (Some true) None None None)]).
Proof.
  split; [vm_compute; reflexivity|]. split.
  - apply (data_analysis_stage_buffer Scenario.healthy).
    vm_compute. reflexivity.
  - destruct (data_analysis_stage_buffer Scenario.healthy
                (Scenario.plan_of [] []) []
                (Log (Scenario.plan_of [] []) Scenario.long_pages true [])
                [] Scenario.start) as (_ & _ & _ & Hrun).
    destruct Hrun as (r & w' & H & _); [vm_compute; discriminate|].
    exists r, w'.
    assert (Hbuf :
              analysis_buffer Scenario.long_pages ""
              = Scenario.letters "a" 2500 +:+ " "
                +:+ Scenario.letters "b" 1500 +:+ " third ")
      by (vm_compute; reflexivity).
    cbn [tool_results] in H. rewrite Hbuf in H. exact H.
Defined.

(** C8, as stated, fails: after one successful scraper result whose text
    is empty, the space-joined concatenation of the prior scrape texts is
    empty, and yet the stage invokes data_analysis (on a single space). *)
Lemma data_analysis_invoked_on_empty_join :
  let log :=
    Log (Scenario.plan_of [] [])
      [ok_result "scraper" (Scenario.rejected "not a url")] true [] in
  space_joined (scraped_texts (tool_results log)) = ""
  /\ stage Scenario.scrape_rejects (Scenario.plan_of [] []) []
       "data_analysis" log [] Scenario.start
     = (inr (extend_results [ok_result "data_analysis" Scenario.other] log,
             []),
        State tt
          [Invocation "data_analysis"
             (Kwargs None None (Some " ") None (Some true) None None
                None)]).
Proof. split; vm_compute; reflexivity. Qed.



(** ** The effect of a stage and of a run *)

Section Runs.

Context {World : Type} (env : Tools World).

Lemma found_urls_app (l1 l2 : list tool_result) :
  found_urls (l1 ++ l2) = found_urls l1 ++ found_urls l2.
Proof. unfold found_urls. apply flat_map_app. Qed.

Lemma recorded_app (l1 l2 : list tool_result) :
  recorded (l1 ++ l2) = recorded l1 ++ recorded l2.
Proof. unfold recorded. now rewrite List.filter_app, map_app. Qed.

Lemma collect_urls_found (r : tool_result) (urls : list string) :
  tool r = "web_search" -> collect_urls r urls = urls ++ found_urls [r].
Proof.
  intros Ht. unfold collect_urls, found_urls, item_urls. cbn [flat_map].
  rewrite Ht, app_nil_r. cbn [String.eqb Ascii.eqb Bool.eqb].
  rewrite andb_true_r.
  destruct (success r); [|now rewrite app_nil_r].
  destruct (result r) as [d|]; [|now rewrite app_nil_r].
  destruct (p_results d); [reflexivity|now rewrite app_nil_r].
Qed.

Lemma found_urls_other (rs : list tool_result) :
  Forall (fun r => tool r <> "web_search") rs -> found_urls rs = [].
Proof.
  induction 1 as [|r rs Hr _ IH]; [reflexivity|].
  unfold found_urls in *. cbn [flat_map]. rewrite IH, app_nil_r.
  apply String.eqb_neq in Hr. now rewrite Hr, andb_false_r.
Qed.

Lemma recorded_search_scrape (rs : list tool_result) :
  Forall (fun r => tool r = "web_search" \/ tool r = "scraper") rs ->
  recorded rs = [].
Proof.
  induction 1 as [|r rs Hr _ IH]; [reflexivity|].
  unfold recorded, is_recorded in *. cbn [List.filter].
  destruct Hr as [-> | ->]; cbn [String.eqb Ascii.eqb Bool.eqb negb];
    rewrite ?andb_false_r; exact IH.
Qed.

(** The result of a stage other than web_search and scraper, with its
    error entry. *)
Lemma recorded_single (name : string) (r : tool_result)
    (log : ExecutionLog) :
  name <> "web_search" -> name <> "scraper" -> tool r = name ->
  check_errors name (Some r) (extend_results [r] log)
  = Log (log_plan log) (tool_results log ++ [r]) (log_success log)
      (errors log ++ recorded [r]).
Proof.
  intros Hw Hs Ht. subst name. unfold check_errors, recorded, is_recorded.
  cbn [List.filter].
  apply String.eqb_neq in Hw, Hs. rewrite Hw, Hs. cbn [negb].
  rewrite !andb_true_r.
  destruct (success r); cbn [negb map extend_results errors tool_results
                               log_plan log_success];
    [now rewrite app_nil_r|reflexivity].
Qed.

Lemma search_each_effect (questions : list string)
    (search_results : list tool_result) (urls : list string)
    (s : state World) :
  exists new w',
    search_each env questions search_results urls s
    = (inr (search_results ++ new, urls ++ found_urls new),
       State w' (calls s ++ map search_invocation questions))
    /\ length new = length questions
    /\ Forall (fun r => tool r = "web_search") new.
Proof.
  revert search_results urls s.
  induction questions as [|q qs IH]; intros rs urls s.
  - exists [], (world s). simpl. rewrite !app_nil_r. destruct s; auto.
  - destruct (execute_tool_returns env "web_search" (kw_of_query q) s)
      as (r & w' & Hex & Ht & _).
    cbn [search_each]. unfold bind at 1. rewrite Hex.
    destruct (IH (rs ++ [r]) (collect_urls r urls)
                (State w' (calls s ++ [Invocation "web_search" (kw_of_query q)])))
      as (new & w'' & -> & Hlen & Hall).
    exists (r :: new), w''. cbn [length map calls].
    rewrite (collect_urls_found r urls Ht).
    change (r :: new) with ([r] ++ new). rewrite found_urls_app.
    rewrite <- !app_assoc. cbn [app]. rewrite Hlen.
    repeat split; auto.
Qed.

Lemma map_const_eq {A B C} (f : A -> C) (g : B -> C) (c : C)
    (l1 : list A) (l2 : list B) :
  Forall (fun x => f x = c) l1 -> Forall (fun y => g y = c) l2 ->
  length l1 = length l2 -> map f l1 = map g l2.
Proof.
  intros H1. revert l2. induction H1 as [|x l1 Hx _ IH]; intros l2 H2 Hlen.
  - destruct l2; [reflexivity|discriminate].
  - destruct H2 as [|y l2 Hy H2]; [discriminate|].
    cbn [map]. rewrite Hx, Hy. f_equal. apply IH; [exact H2|].
    simpl in Hlen. lia.
Qed.

(** A stage only appends: results to [tool_results], the error entries of
    its recorded results to [errors], the item URLs it found to
    [urls_to_scrape], and its invocations to the log of calls. *)
Lemma stage_effect (plan : Plan) (limited : list string) (name : string)
    (log : ExecutionLog) (urls : list string) (s : state World) :
  exists new newcalls w',
    stage env plan limited name log urls s
    = (inr (Log (log_plan log) (tool_results log ++ new) (log_success log)
              (errors log ++ recorded new),
            urls ++ found_urls new),
       State w' (calls s ++ newcalls))
    /\ map tool new = map inv_tool newcalls
    /\ length newcalls <= 3
    /\ (forall c, c ∈ newcalls -> inv_tool c = "scraper" ->
                  exists u, u ∈ urls /\ c = scrape_invocation u).
Proof.
  unfold stage.
  destruct (String.eqb name "web_search") eqn:Hws.
  { unfold web_search_stage.
    destruct (3 <? length limited) eqn:Hlen.
    - destruct limited as [|q0 rest]; [discriminate|].
      destruct (execute_tool_returns env "web_search"
                  (kw_of_query (default q0 (query plan))) s)
        as (r & w' & Hex & Ht & _).
      exists [r], [Invocation "web_search"
                     (kw_of_query (default q0 (query plan)))], w'.
      unfold bind, ret. cbn [index0 ret]. unfold ret. rewrite Hex.
      cbn [fst snd check_errors extend_results errors tool_results
             log_plan log_success].
      rewrite (collect_urls_found r urls Ht).
      rewrite recorded_search_scrape by (repeat constructor; auto).
      rewrite app_nil_r. cbn [map inv_tool length]. rewrite Ht.
      repeat split; auto with lia.
      intros c Hc Hs. apply list_elem_of_singleton in Hc. subst c.
      discriminate Hs.
    - apply Nat.ltb_ge in Hlen.
      destruct (search_each_effect limited [] urls s)
        as (new & w' & Hrun & Hnew & Hall).
      exists new, (map search_invocation limited), w'.
      unfold bind, ret. rewrite Hrun.
      cbn [fst snd check_errors extend_results errors tool_results
             log_plan log_success app].
      rewrite recorded_search_scrape
        by (eapply Forall_impl; [exact Hall|]; cbv beta; auto).
      rewrite app_nil_r, length_map.
      repeat split; auto.
      + apply (map_const_eq _ _ "web_search"); [exact Hall| |].
        * apply Forall_forall. intros c Hc.
          apply list_elem_of_fmap in Hc as (q & -> & _). reflexivity.
        * now rewrite length_map.
      + intros c Hc Hs. apply list_elem_of_fmap in Hc as (q & -> & _).
        discriminate Hs. }
  destruct (String.eqb name "scraper") eqn:Hsc.
  { destruct (scraper_stage_returns env (fun r => tool r = "scraper"))
      with (urls := urls) (s := s)
      as (k & new & w' & Hrun & Hlen & Hk3 & Hk & Hall & _).
    { intros u s0 r s1 Hex.
      destruct (execute_tool_returns env "scraper" (kw_of_url u) s0)
        as (r' & w1 & Hex' & Ht & _).
      rewrite Hex' in Hex. now injection Hex as <- _. }
    exists new, (map scrape_invocation (take k urls)), w'.
    unfold bind, ret. rewrite Hrun.
    cbn [fst snd check_errors extend_results errors tool_results
           log_plan log_success].
    rewrite recorded_search_scrape
      by (eapply Forall_impl; [exact Hall|]; cbv beta; auto).
    rewrite found_urls_other
      by (eapply Forall_impl; [exact Hall|]; cbv beta; congruence).
    rewrite !app_nil_r, length_map, length_take.
    repeat split; auto with lia.
    - apply (map_const_eq _ _ "scraper"); [exact Hall| |].
      + apply Forall_forall. intros c Hc.
        apply list_elem_of_fmap in Hc as (u & -> & _). reflexivity.
      + rewrite length_map, length_take. lia.
    - intros c Hc _. apply list_elem_of_fmap in Hc as (u & -> & Hu).
      exists u. split; [|reflexivity].
      exact (subseteq_take k urls u Hu). }
  assert (Hnw : name <> "web_search") by now apply String.eqb_neq.
  assert (Hns : name <> "scraper") by now apply String.eqb_neq.
  assert (Hone : forall kw,
             exists new newcalls w',
               bind (execute_tool env name kw)
                 (fun r => ret (check_errors name (Some r)
                                  (extend_results [r] log), urls)) s
               = (inr (Log (log_plan log) (tool_results log ++ new)
                         (log_success log) (errors log ++ recorded new),
                       urls ++ found_urls new),
                  State w' (calls s ++ newcalls))
               /\ map tool new = map inv_tool newcalls
               /\ length newcalls <= 3
               /\ (forall c, c ∈ newcalls -> inv_tool c = "scraper" ->
                             exists u, u ∈ urls /\ c = scrape_invocation u)).
  { intros kw.
    destruct (execute_tool_returns env name kw s)
      as (r & w' & Hex & Ht & _).
    exists [r], [Invocation name kw], w'.
    unfold bind, ret. rewrite Hex.
    rewrite (recorded_single name r log Hnw Hns Ht).
    rewrite found_urls_other by (repeat constructor; congruence).
    rewrite app_nil_r. cbn [map inv_tool length]. rewrite Ht.
    repeat split; auto with lia.
    intros c Hc Hs. apply list_elem_of_singleton in Hc. subst c.
    cbn [inv_tool] in Hs. congruence. }
  assert (Hskip :
            exists new newcalls w',
              ret (check_errors name None log, urls) s
              = (inr (Log (log_plan log) (tool_results log ++ new)
                        (log_success log) (errors log ++ recorded new),
                      urls ++ found_urls new),
                 State w' (calls s ++ newcalls))
              /\ map tool new = map inv_tool newcalls
              /\ length newcalls <= 3
              /\ (forall c, c ∈ newcalls -> inv_tool c = "scraper" ->
                            exists u, u ∈ urls /\ c = scrape_invocation u)).
  { exists [], [], (world s). unfold ret. cbn [check_errors].
    unfold recorded, found_urls. cbn [List.filter map flat_map length].
    rewrite !app_nil_r. destruct s, log. cbn.
    repeat split; auto with lia.
    intros c Hc. inversion Hc. }
  destruct (String.eqb name "data_analysis") eqn:Hda.
  { apply String.eqb_eq in Hda. subst name.
    destruct (truthy _); [apply Hone|apply Hskip]. }
  destruct (String.eqb name "summarizer") eqn:Hsu.
  { apply String.eqb_eq in Hsu. subst name.
    destruct (truthy _); [apply Hone|apply Hskip]. }
  apply Hone.
Qed.

Lemma run_effect (plan : Plan) (limited sequence : list string)
    (log : ExecutionLog) (urls : list string) (s : state World) :
  exists new newcalls w',
    run_stages env plan limited sequence log urls s
    = (inr (Log (log_plan log) (tool_results log ++ new) (log_success log)
              (errors log ++ recorded new),
            urls ++ found_urls new),
       State w' (calls s ++ newcalls))
    /\ map tool new = map inv_tool newcalls
    /\ length newcalls <= 3 * length sequence
    /\ (forall c, c ∈ newcalls -> inv_tool c = "scraper" ->
                  exists u, u ∈ urls ++ found_urls new
                            /\ c = scrape_invocation u).
Proof.
  revert log urls s.
  induction sequence as [|name rest IH]; intros log urls s.
  - exists [], [], (world s). cbn [run_stages]. unfold ret, recorded.
    cbn [found_urls flat_map List.filter map length].
    rewrite !app_nil_r. destruct s, log. cbn.
    repeat split; auto with lia. intros c Hc. inversion Hc.
  - destruct (stage_effect plan limited name log urls s)
      as (new1 & calls1 & w1 & Hst & Hmap1 & Hlen1 & Hprov1).
    cbn [run_stages]. unfold bind at 1. rewrite Hst. cbn [fst snd].
    destruct (IH (Log (log_plan log) (tool_results log ++ new1)
                    (log_success log) (errors log ++ recorded new1))
                (urls ++ found_urls new1)
                (State w1 (calls s ++ calls1)))
      as (new2 & calls2 & w2 & -> & Hmap2 & Hlen2 & Hprov2).
    exists (new1 ++ new2), (calls1 ++ calls2), w2.
    cbn [log_plan tool_results log_success errors calls].
    rewrite found_urls_app, recorded_app, !app_assoc, !map_app, length_app.
    rewrite Hmap1, Hmap2. cbn [length].
    repeat split; auto with lia.
    intros c Hc Hs. apply elem_of_app in Hc as [Hc|Hc].
    + destruct (Hprov1 c Hc Hs) as (u & Hu & ->).
      exists u. split; [|reflexivity]. rewrite !elem_of_app. auto.
    + destruct (Hprov2 c Hc Hs) as (u & Hu & ->).
      exists u. split; [exact Hu|reflexivity].
Qed.

(** [execute_plan] as a run of [run_stages] from the empty log. *)
Lemma execute_plan_effect (plan : Plan)
    (sub_questions_arg : option (list string)) (s : state World) :
  exists new newcalls w',
    execute_plan env plan sub_questions_arg s
    = (inr (Log plan new true (recorded new)),
       State w' (calls s ++ newcalls))
    /\ map tool new = map inv_tool newcalls
    /\ length newcalls <= 3 * length (default [] (tool_sequence plan))
    /\ (forall c, c ∈ newcalls -> inv_tool c = "scraper" ->
                  exists u, u ∈ found_urls new /\ c = scrape_invocation u).
Proof.
  unfold execute_plan.
  destruct (run_effect plan
              (take config.MAX_SUB_QUESTIONS
                 (or_list sub_questions_arg (default [] (sub_questions plan))))
              (default [] (tool_sequence plan)) (Log plan [] true []) [] s)
    as (new & newcalls & w' & Hrun & Hmap & Hlen & Hprov).
  exists new, newcalls, w'. unfold bind, ret. rewrite Hrun.
  cbn [fst log_plan tool_results log_success errors app]. auto.
Qed.

End Runs.

(** ** Further properties of [execute_plan] *)

Section RunProperties.

Context {World : Type} (env : Tools World).

(** Every invocation of a run yields exactly one entry of [tool_results],
    for the same tool and in the same order, and a run makes at most three
    invocations per stage of its tool sequence. *)
Theorem execute_plan_one_result_per_invocation (plan : Plan)
    (sub_questions_arg : option (list string)) (s : state World) :
  exists log newcalls w',
    execute_plan env plan sub_questions_arg s
    = (inr log, State w' (calls s ++ newcalls))
    /\ map tool (tool_results log) = map inv_tool newcalls
    /\ length (tool_results log) = length newcalls
    /\ length newcalls <= 3 * length (default [] (tool_sequence plan)).
Proof.
  destruct (execute_plan_effect env plan sub_questions_arg s)
    as (new & newcalls & w' & Hrun & Hmap & Hlen & _).
  exists (Log plan new true (recorded new)), newcalls, w'.
  cbn [tool_results]. repeat split; auto.
  apply (f_equal length) in Hmap. now rewrite !length_map in Hmap.
Qed.

(** The [errors] of a run are exactly the entries, in order, of the failed
    results of [tool_results] whose tool is neither web_search nor
    scraper. *)
Theorem execute_plan_errors_recorded (plan : Plan)
    (sub_questions_arg : option (list string)) (s : state World) :
  exists log s',
    execute_plan env plan sub_questions_arg s = (inr log, s')
    /\ errors log = recorded (tool_results log)
    /\ length (errors log) <= length (tool_results log).
Proof.
  destruct (execute_plan_effect env plan sub_questions_arg s)
    as (new & newcalls & w' & Hrun & _).
  eexists _, _. split; [exact Hrun|]. cbn [errors tool_results].
  split; [reflexivity|]. unfold recorded. rewrite length_map.
  apply List.filter_length_le.
Qed.

(** Every URL a run scrapes is an item URL of a successful web_search
    result of the same run: each scraper invocation carries, as its only
    keyword [url], such a URL. *)
Theorem execute_plan_scrapes_found_urls (plan : Plan)
    (sub_questions_arg : option (list string)) (s : state World) :
  exists log newcalls w',
    execute_plan env plan sub_questions_arg s
    = (inr log, State w' (calls s ++ newcalls))
    /\ (forall c, c ∈ newcalls -> inv_tool c = "scraper" ->
                  exists u, u ∈ found_urls (tool_results log)
                            /\ kw_url (inv_args c) = Some u
                            /\ c = scrape_invocation u).
Proof.
  destruct (execute_plan_effect env plan sub_questions_arg s)
    as (new & newcalls & w' & Hrun & _ & _ & Hprov).
  exists (Log plan new true (recorded new)), newcalls, w'.
  split; [exact Hrun|].
  intros c Hc Htool. destruct (Hprov c Hc Htool) as (u & Hu & ->).
  exists u. repeat split. exact Hu.
Qed.

(** The URL accumulator of a run is the list of the item URLs of the
    successful web_search results so far, in order and with duplicates:
    the stages keep this, whatever their order. *)
Theorem run_stages_keeps_found_urls (plan : Plan)
    (limited sequence : list string) (log : ExecutionLog)
    (urls : list string) (s : state World) :
  urls = found_urls (tool_results log) ->
  exists log' s',
    run_stages env plan limited sequence log urls s
    = (inr (log', found_urls (tool_results log')), s').
Proof.
  intros ->.
  destruct (run_effect env plan limited sequence log
              (found_urls (tool_results log)) s)
    as (new & newcalls & w' & Hrun & _).
  exists (Log (log_plan log) (tool_results log ++ new) (log_success log)
            (errors log ++ recorded new)),
    (State w' (calls s ++ newcalls)).
  rewrite Hrun. cbn [tool_results]. now rewrite found_urls_app.
Qed.

(** A stage whose name is not in the registry calls no collaborator: it
    appends the failed result ["Unknown tool: <name>"] and the matching
    error entry, and the run goes on. *)
Theorem unknown_stage_recorded (plan : Plan) (limited : list string)
    (name : string) (log : ExecutionLog) (urls : list string)
    (s : state World) :
  tools !! name = None ->
  stage env plan limited name log urls s
  = (inr (Log (log_plan log)
            (tool_results log
             ++ [ToolResult name false None
                   (Some ("Unknown tool: " +:+ name))])
            (log_success log)
            (errors log ++ [ErrorEntry name ("Unknown tool: " +:+ name)]),
          urls),
     State (world s) (calls s ++ [Invocation name no_kwargs])).
Proof.
  intros Hnone. assert (Hnot := proj1 (tools_unknown name) Hnone).
  rewrite !not_elem_of_cons in Hnot.
  destruct Hnot as (Hws & Hsc & Hda & _ & Hsu & _).
  apply String.eqb_neq in Hws, Hsc, Hda, Hsu.
  unfold stage. rewrite Hws, Hsc, Hda, Hsu.
  unfold bind, execute_tool, bind, log_invocation. rewrite Hnone.
  reflexivity.
Qed.

(** A calculator stage evaluates the empty expression, whatever the plan
    and the earlier results are: the stage passes no arguments. *)
Theorem calculator_stage_empty_expression (plan : Plan)
    (limited : list string) (log : ExecutionLog) (urls : list string)
    (s : state World) :
  stage env plan limited "calculator" log urls s
  = match calculate env "" (world s) with
    | (inr p, w') =>
        (inr (Log (log_plan log)
                (tool_results log ++ [ok_result "calculator" p])
                (log_success log) (errors log), urls),
         State w' (calls s ++ [Invocation "calculator" no_kwargs]))
    | (inl e, w') =>
        (inr (Log (log_plan log)
                (tool_results log
                 ++ [failed_result "calculator" (str_exn e)])
                (log_success log)
                (errors log ++ [ErrorEntry "calculator" (str_exn e)]),
              urls),
         State w' (calls s ++ [Invocation "calculator" no_kwargs]))
    end.
Proof.
  unfold stage. cbn [String.eqb Ascii.eqb Bool.eqb].
  unfold bind, execute_tool, bind, log_invocation.
  rewrite tools_calculator.
  unfold try_except, route, tool_calculate, call, bind, ret.
  cbn [String.eqb Ascii.eqb Bool.eqb world calls].
  change (default "" (kw_expression no_kwargs)) with "".
  destruct (calculate env "" (world s)) as [[e|p] w']; reflexivity.
Qed.

End RunProperties.

Lemma run_stages_keeps_found_urls_witness :
  exists log' s',
    run_stages Scenario.healthy (Scenario.plan_of [] []) ["q1"; "q2"]
      ["web_search"; "scraper"; "web_search"]
      (Scenario.empty_log (Scenario.plan_of [] [])) [] Scenario.start
    = (inr (log', found_urls (tool_results log')), s').
Proof.
  apply (run_stages_keeps_found_urls Scenario.healthy). reflexivity.
Defined.

Lemma unknown_stage_recorded_witness :
  stage Scenario.healthy (Scenario.plan_of [] []) [] "translator"
    (Scenario.empty_log (Scenario.plan_of [] [])) [] Scenario.start
  = (inr (Log (Scenario.plan_of [] [])
            [ToolResult "translator" false None
               (Some "Unknown tool: translator")]
            true [ErrorEntry "translator" "Unknown tool: translator"], []),
     State tt [Invocation "translator" no_kwargs]).
Proof.
  apply (unknown_stage_recorded Scenario.healthy (Scenario.plan_of [] []) []
           "translator" (Scenario.empty_log (Scenario.plan_of [] [])) []
           Scenario.start).
  reflexivity.
Defined.

(** ** Further properties of the synthesizer *)

Lemma contains_unfold (needle hay : string) :
  contains needle hay
  = String.prefix needle hay
    || match hay with
       | EmptyString => false
       | String _ rest => contains needle rest
       end.
Proof. destruct hay; reflexivity. Qed.

Lemma prefix_app (n b : string) : String.prefix n (n +:+ b) = true.
Proof.
  induction n as [|a n IH]; [destruct b; reflexivity|].
  rewrite str_app_cons. cbn [String.prefix].
  destruct (Ascii.ascii_dec a a); [exact IH|contradiction].
Qed.

Lemma contains_app (n a b : string) : contains n (a +:+ n +:+ b) = true.
Proof.
  induction a as [|c a IH].
  - change ("" +:+ n +:+ b) with (n +:+ b).
    now rewrite contains_unfold, prefix_app.
  - rewrite str_app_cons, contains_unfold, IH. apply orb_true_r.
Qed.

Lemma first_seen_urls (l : list Citation) (u : string) :
  u ∈ map url (first_seen l) <-> u ∈ map url l.
Proof.
  induction l as [|c l IH]; [reflexivity|]. cbn [first_seen map].
  rewrite !elem_of_cons, <- IH. split; intros [H|H]; auto.
  - right. apply list_elem_of_fmap in H as (d & -> & Hd).
    apply list_elem_of_filter in Hd as [_ Hd].
    apply list_elem_of_fmap. eauto.
  - destruct (decide (u = url c)) as [|Hne]; [auto|right].
    apply list_elem_of_fmap in H as (d & -> & Hd).
    apply list_elem_of_fmap. exists d. split; [reflexivity|].
    apply list_elem_of_filter. auto.
Qed.

Lemma first_seen_app (l1 l2 : list Citation) :
  first_seen (l1 ++ l2)
  = first_seen l1
    ++ filter (fun d => url d ∉ map url (first_seen l1)) (first_seen l2).
Proof.
  induction l1 as [|c l1 IH].
  - cbn [app first_seen map]. symmetry. apply filter_all_id.
    intros d. apply not_elem_of_nil.
  - cbn [app first_seen map]. rewrite IH, filter_app. f_equal. f_equal.
    rewrite list_filter_filter. apply list_filter_iff. intros d. cbv beta.
    rewrite not_elem_of_cons. split.
    + intros [Hne Hnin]. split; [exact Hne|].
      intros Hin. apply Hnin.
      apply list_elem_of_fmap in Hin as (x & Hx & Hin).
      apply list_elem_of_filter in Hin as [_ Hin].
      apply list_elem_of_fmap. eauto.
    + intros [Hne Hnin]. split; [exact Hne|].
      intros Hin. apply Hnin.
      apply list_elem_of_fmap in Hin as (x & Hx & Hin).
      apply list_elem_of_fmap. exists x. split; [exact Hx|].
      apply list_elem_of_filter. split; [congruence|exact Hin].
Qed.

Lemma candidates_app (rs1 rs2 : list tool_result) :
  candidates (rs1 ++ rs2) = candidates rs1 ++ candidates rs2.
Proof.
  unfold candidates. now rewrite flat_map_app, filter_app, map_app.
Qed.

(** The citations of a longer log extend those of a shorter one: they are
    followed by the citations of the added entries whose URL was not
    cited yet. *)
Theorem extract_citations_app (rs1 rs2 : list tool_result) :
  extract_citations (rs1 ++ rs2)
  = extract_citations rs1
    ++ filter (fun d => url d ∉ map url (extract_citations rs1))
         (extract_citations rs2).
Proof.
  rewrite !extract_citations_first_seen, candidates_app.
  apply first_seen_app.
Qed.

Lemma offered_irrelevant (rs : list tool_result) :
  flat_map offered rs = flat_map offered (List.filter relevant rs).
Proof.
  induction rs as [|r rs IH]; [reflexivity|]. cbn [flat_map List.filter].
  destruct (relevant r) eqn:Hr; cbn [flat_map]; [now rewrite IH|].
  rewrite <- IH. unfold offered, relevant in *.
  destruct (success r); [|reflexivity]. cbn [andb] in Hr.
  apply orb_false_elim in Hr as [Hr _].
  apply orb_false_elim in Hr as [-> ->]. reflexivity.
Qed.

Lemma extract_citations_relevant (rs : list tool_result) :
  extract_citations rs = extract_citations (List.filter relevant rs).
Proof.
  rewrite !extract_citations_first_seen. unfold candidates.
  now rewrite <- offered_irrelevant.
Qed.

(** The accumulators of [collect] that the context is built from. *)
Lemma collect_relevant (rs : list tool_result) (c c' : collected) :
  search_info c = search_info c' ->
  scraped_content c = scraped_content c' ->
  data_analysis c = data_analysis c' ->
  let a := fold_left collect_step rs c in
  let b := fold_left collect_step (List.filter relevant rs) c' in
  search_info a = search_info b
  /\ scraped_content a = scraped_content b
  /\ data_analysis a = data_analysis b.
Proof.
  cbv zeta. revert c c'.
  induction rs as [|r rs IH]; intros c c' H1 H2 H3; [auto|].
  cbn [fold_left List.filter].
  destruct (relevant r) eqn:Hr; cbn [fold_left]; apply IH;
    unfold collect_step, relevant in *;
    destruct (success r); cbn [negb andb] in *; try discriminate; auto;
    destruct (String.eqb (tool r) "web_search");
    cbn [orb search_info scraped_content data_analysis] in *;
    try discriminate; try congruence;
    destruct (String.eqb (tool r) "scraper");
    cbn [orb search_info scraped_content data_analysis] in *;
    try discriminate; try congruence;
    destruct (String.eqb (tool r) "data_analysis");
    cbn [orb search_info scraped_content data_analysis] in *;
    try discriminate; try congruence;
    destruct (String.eqb (tool r) "summarizer");
    cbn [search_info scraped_content data_analysis]; auto.
Qed.

Section ReportMore.

Context {World : Type}.
Variable str_items : list search_item -> string.
Variable str_payload : payload -> string.
Variable llm_generate : string -> string -> nat -> Q -> oracle World string.

Lemma build_context_relevant (rs : list tool_result) :
  build_context str_items str_payload rs
  = build_context str_items str_payload (List.filter relevant rs).
Proof.
  unfold build_context, collect.
  destruct (collect_relevant rs (Collected [] [] None [])
              (Collected [] [] None []) eq_refl eq_refl eq_refl)
    as (-> & -> & ->).
  reflexivity.
Qed.

(** The report depends only on the successful results of web_search,
    scraper and data_analysis: failed entries, summarizer results and the
    results of any other tool change neither the prompt nor the citations
    nor the report. *)
Theorem generate_report_ignores_summaries (query : string) (plan : Plan)
    (rs : list tool_result) (s : state World) :
  generate_report str_items str_payload llm_generate query plan rs s
  = generate_report str_items str_payload llm_generate query plan
      (List.filter relevant rs) s.
Proof.
  unfold generate_report.
  now rewrite <- extract_citations_relevant, <- build_context_relevant.
Qed.

(** When the generation collaborator returns a text, the report has
    [success = true] and no error; the text is kept as it is when it
    contains ["## References"] or there are no citations, and is
    otherwise followed by a references section with the numbered
    citations. With citations the report always contains
    ["## References"]. *)
Theorem generate_report_success (query : string) (plan : Plan)
    (rs : list tool_result) (s : state World) (md : string) (w' : World) :
  let cs := extract_citations rs in
  llm_generate (prompt_of query (build_context str_items str_payload rs))
    system_prompt 3000 (7 # 10)%Q (world s) = (inr md, w') ->
  exists out,
    generate_report str_items str_payload llm_generate query plan rs s
    = (inr {| report_query := query; markdown := out; citations := cs;
              report_success := true; report_error := None |},
       State w' (calls s))
    /\ (contains "## References" md = true \/ cs = [] -> out = md)
    /\ (contains "## References" md = false -> cs <> [] ->
        out = md +:+ blank_line +:+ "## References" +:+ blank_line
              +:+ reference_list cs)
    /\ (cs <> [] -> contains "## References" out = true).
Proof.
  intros cs Hgen.
  unfold generate_report, try_except, bind, call, ret.
  change (Nat.min (config.MAX_RESPONSE_TOKENS * 2) 3000) with 3000.
  fold cs. rewrite Hgen.
  destruct (contains "## References" md) eqn:Hc; cbn [negb andb].
  - exists md. split; [reflexivity|]. repeat split; auto. discriminate.
  - destruct (decide (cs = [])) as [Hnil|Hne].
    + rewrite (bool_decide_eq_true_2 _ Hnil). cbn [negb].
      exists md. split; [reflexivity|]. repeat split; auto; tauto.
    + rewrite (bool_decide_eq_false_2 _ Hne). cbn [negb].
      eexists. split; [reflexivity|].
      rewrite append_references_join. fold (reference_list cs).
      rewrite !str_app_assoc.
      repeat split; auto.
      * intros [Habs|Habs]; [discriminate|contradiction].
      * intros _.
        change (blank_line +:+ "## References" +:+ blank_line
                +:+ reference_list cs)
          with (blank_line +:+ "## References"
                +:+ (blank_line +:+ reference_list cs)).
        rewrite <- (str_app_assoc md blank_line). apply contains_app.
Qed.

End ReportMore.

Lemma generate_report_success_witness :
  exists out,
    generate_report (fun _ => "[]") (fun _ => "{}")
      (fun _ _ _ _ => Scenario.returns "# Report")
      "AI and jobs" (Scenario.plan_of [] [])
      [ok_result "web_search" (Scenario.results_of Scenario.items_b)]
      Scenario.start
    = (inr {| report_query := "AI and jobs"; markdown := out;
              citations := [Cite "Second" "http://a"];
              report_success := true; report_error := None |},
       Scenario.start)
    /\ out = "# Report" +:+ blank_line +:+ "## References" +:+ blank_line
             +:+ "1. [Second](http://a)" +:+ nl
    /\ contains "## References" out = true.
Proof.
  destruct (generate_report_success (fun _ => "[]") (fun _ => "{}")
              (fun _ _ _ _ => Scenario.returns "# Report")
              "AI and jobs" (Scenario.plan_of [] [])
              [ok_result "web_search" (Scenario.results_of Scenario.items_b)]
              Scenario.start "# Report" tt eq_refl)
    as (out & Hrun & _ & Hadd & Hcont).
  exists out. split; [exact Hrun|]. split.
  - apply Hadd; [reflexivity|discriminate].
  - apply Hcont. discriminate.
Defined.

(** ** Properties of the validators *)

Section ValidatorProperties.

Variable isspace : Ascii.ascii -> bool.

Lemma lstrip_length (s : string) :
  String.length (lstrip isspace s) <= String.length s.
Proof.
  induction s as [|c s IH]; [reflexivity|]. cbn [lstrip].
  destruct (isspace c); simpl; lia.
Qed.

Lemma rstrip_length (s : string) :
  String.length (rstrip isspace s) <= String.length s.
Proof.
  induction s as [|c s IH]; [reflexivity|]. cbn [rstrip].
  destruct (rstrip isspace s); [destruct (isspace c)|]; simpl in *; lia.
Qed.

Lemma strip_length (s : string) :
  String.length (strip isspace s) <= String.length s.
Proof.
  unfold strip. etransitivity; [apply rstrip_length|apply lstrip_length].
Qed.

Lemma lstrip_clean (s : string) :
  starts_clean isspace (lstrip isspace s).
Proof.
  induction s as [|c s IH]; [exact I|]. cbn [lstrip].
  destruct (isspace c) eqn:Hc; [exact IH|exact Hc].
Qed.

Lemma lstrip_id (s : string) :
  starts_clean isspace s -> lstrip isspace s = s.
Proof. destruct s as [|c s]; [reflexivity|]. simpl. now intros ->. Qed.

Lemma rstrip_clean (s : string) :
  starts_clean isspace s -> starts_clean isspace (rstrip isspace s).
Proof.
  destruct s as [|c s]; [auto|]. cbn [rstrip starts_clean]. intros Hc.
  destruct (rstrip isspace s); [rewrite Hc|]; exact Hc.
Qed.

Lemma rstrip_rstrip (s : string) :
  rstrip isspace (rstrip isspace s) = rstrip isspace s.
Proof.
  induction s as [|c s IH]; [reflexivity|]. cbn [rstrip].
  destruct (rstrip isspace s) as [|d r] eqn:Hr.
  - destruct (isspace c) eqn:Hc; [reflexivity|]. cbn [rstrip]. now rewrite Hc.
  - cbn [rstrip]. cbn [rstrip] in IH. now rewrite IH.
Qed.

Lemma strip_strip (s : string) :
  strip isspace (strip isspace s) = strip isspace s.
Proof.
  unfold strip.
  rewrite (lstrip_id (rstrip isspace (lstrip isspace s)))
    by apply rstrip_clean, lstrip_clean.
  apply rstrip_rstrip.
Qed.

Lemma split_from_blank (cur s : string) :
  str_all isspace s = true ->
  split_from isspace cur s = if truthy cur then [cur] else [].
Proof.
  revert cur. induction s as [|c s IH]; intros cur; [reflexivity|].
  cbn [str_all split_from]. intros H. apply andb_true_iff in H as [-> Hs].
  rewrite (IH "" Hs). now destruct (truthy cur).
Qed.

(** [sanitize_query] rejects exactly the empty query. Any other query
    gives a result of at most 500 characters that has no leading or
    trailing whitespace; a query of whitespace only is accepted and gives
    the empty string. *)
Theorem sanitize_query_bounds (q : string) :
  (q = "" ->
   sanitize_query isspace q
   = inl (Exception "Query must be a non-empty string"))
  /\ (q <> "" ->
      exists r,
        sanitize_query isspace q = inr r
        /\ String.length r <= 500
        /\ strip isspace r = r
        /\ (str_all isspace q = true -> r = "")).
Proof.
  split; [now intros ->|].
  intros Hq. unfold sanitize_query.
  apply truthy_true in Hq. rewrite Hq. cbn [negb].
  eexists. split; [reflexivity|]. split; [|split].
  - etransitivity; [apply strip_length|].
    destruct (500 <? String.length (String.concat " " (split isspace q)))
      eqn:Hlen.
    + apply str_take_length.
    + now apply Nat.ltb_ge in Hlen.
  - apply strip_strip.
  - intros Hblank. unfold split. rewrite (split_from_blank "" q Hblank).
    reflexivity.
Qed.

End ValidatorProperties.

Lemma sanitize_query_bounds_witness :
  sanitize_query Scenario.ascii_space ""
  = inl (Exception "Query must be a non-empty string")
  /\ sanitize_query Scenario.ascii_space "   " = inr "".
Proof.
  split.
  - apply (sanitize_query_bounds Scenario.ascii_space ""). reflexivity.
  - destruct (sanitize_query_bounds Scenario.ascii_space "   ")
      as (_ & Hok).
    destruct Hok as (r & Hr & _ & _ & Hblank); [discriminate|].
    rewrite Hr. f_equal. apply Hblank. reflexivity.
Defined.

Section SanitizeTwice.

Variable isspace : Ascii.ascii -> bool.

Local Abbreviation nonspace := (inword isspace).

Lemma str_all_app (f : Ascii.ascii -> bool) (a b : string) :
  str_all f (a +:+ b) = str_all f a && str_all f b.
Proof.
  induction a as [|c a IH]; [reflexivity|].
  rewrite str_app_cons. cbn [str_all]. now rewrite IH, andb_assoc.
Qed.

Lemma truthy_app_char (a : string) (c : Ascii.ascii) :
  truthy (a +:+ String c "") = true.
Proof. destruct a; reflexivity. Qed.

Lemma split_from_words (cur s : string) :
  str_all nonspace cur = true ->
  Forall (fun w => truthy w = true /\ str_all nonspace w = true)
         (split_from isspace cur s).
Proof.
  revert cur. induction s as [|c s IH]; intros cur Hcur; cbn [split_from].
  - destruct (truthy cur) eqn:Ht; repeat constructor; auto.
  - destruct (isspace c) eqn:Hc.
    + destruct (truthy cur) eqn:Ht; [constructor; [auto|]|]; now apply IH.
    + apply IH. rewrite str_all_app, Hcur. cbn [str_all andb].
      unfold inword. now rewrite Hc.
Qed.

Lemma tidy_word_app (w t : string) :
  str_all nonspace w = true ->
  tidy_from isspace false t -> tidy_from isspace false (w +:+ t).
Proof.
  induction w as [|c w IH]; intros Hw Ht; [exact Ht|].
  cbn [str_all] in Hw. apply andb_true_iff in Hw as [Hc Hw].
  rewrite str_app_cons. cbn [tidy_from].
  unfold inword in Hc.
  destruct (isspace c); [discriminate|]. auto.
Qed.

Lemma tidy_word_first (b : bool) (w t : string) :
  truthy w = true -> str_all nonspace w = true ->
  tidy_from isspace false t -> tidy_from isspace b (w +:+ t).
Proof.
  destruct w as [|c w]; [discriminate|]. intros _ Hw Ht.
  cbn [str_all] in Hw. apply andb_true_iff in Hw as [Hc Hw].
  rewrite str_app_cons. cbn [tidy_from].
  unfold inword in Hc.
  destruct (isspace c); [discriminate|]. now apply tidy_word_app.
Qed.

Lemma concat_cons2 (sep x y : string) (l : list string) :
  String.concat sep (x :: y :: l)
  = x +:+ sep +:+ String.concat sep (y :: l).
Proof. reflexivity. Qed.

Lemma tidy_concat (ws : list string) :
  isspace (Ascii.ascii_of_nat 32) = true ->
  Forall (fun w => truthy w = true /\ str_all nonspace w = true) ws ->
  tidy_from isspace true (String.concat " " ws).
Proof.
  intros space_isspace.
  induction 1 as [|w ws [Ht Hw] Hws IH]; [exact I|].
  destruct ws as [|w2 ws].
  - cbn [String.concat]. rewrite <- (str_app_nil_r w).
    now apply tidy_word_first.
  - rewrite concat_cons2. apply tidy_word_first; auto.
    change (" " +:+ String.concat " " (w2 :: ws))
      with (String (Ascii.ascii_of_nat 32) (String.concat " " (w2 :: ws))).
    cbn [tidy_from]. rewrite space_isspace. auto.
Qed.

Lemma tidy_take (n : nat) (b : bool) (s : string) :
  tidy_from isspace b s -> tidy_from isspace b (str_take n s).
Proof.
  unfold str_take. revert b s.
  induction n as [|n IH]; intros b [|c s]; cbn [String.substring];
    try exact (fun _ => I).
  cbn [tidy_from]. destruct (isspace c); [|apply IH].
  intros (? & ? & ?). auto.
Qed.

Lemma tidy_rstrip (b : bool) (s : string) :
  tidy_from isspace b s -> tidy_from isspace b (rstrip isspace s).
Proof.
  revert b. induction s as [|c s IH]; intros b; [auto|].
  cbn [rstrip tidy_from].
  destruct (rstrip isspace s) as [|d r] eqn:Hr.
  - destruct (isspace c) eqn:Hc; [intros; exact I|].
    cbn [tidy_from]. now rewrite Hc.
  - cbn [tidy_from] in *. destruct (isspace c).
    + intros (? & ? & Hs). repeat split; auto. now apply IH in Hs.
    + intros Hs. now apply IH in Hs.
Qed.

Lemma tidy_clean (s : string) :
  tidy_from isspace true s -> starts_clean isspace s.
Proof.
  destruct s as [|c s]; [auto|]. cbn [tidy_from starts_clean].
  destruct (isspace c); [|reflexivity]. now intros (_ & ? & _).
Qed.

Lemma rstrip_tail (c : Ascii.ascii) (s : string) :
  rstrip isspace (String c s) = String c s ->
  rstrip isspace s = s /\ (isspace c = true -> s <> "").
Proof.
  cbn [rstrip]. destruct (rstrip isspace s) as [|d r] eqn:Hr.
  - destruct (isspace c); [discriminate|].
    intros H. injection H as <-. auto.
  - intros H. injection H as <-. split; [reflexivity|discriminate].
Qed.

(** On a tidy string without trailing whitespace, joining the words with
    single spaces gives the string back. *)
Lemma split_join (cur s : string) :
  str_all nonspace cur = true ->
  tidy_from isspace (negb (truthy cur)) s ->
  rstrip isspace s = s ->
  String.concat " " (split_from isspace cur s) = cur +:+ s.
Proof.
  revert cur. induction s as [|c s IH]; intros cur Hcur Htidy Hend.
  - cbn [split_from]. rewrite str_app_nil_r.
    destruct (truthy cur) eqn:Ht; [reflexivity|].
    now apply truthy_false in Ht.
  - apply rstrip_tail in Hend as [Hend Hrest].
    cbn [split_from tidy_from] in *.
    destruct (isspace c) eqn:Hc.
    + destruct Htidy as (-> & Ht & Hs).
      apply negb_false_iff in Ht. rewrite Ht.
      assert (IH' := IH "" eq_refl Hs Hend).
      change ("" +:+ s) with s in IH'.
      destruct (split_from isspace "" s) as [|x l].
      * cbn [String.concat] in IH'. symmetry in IH'.
        now apply Hrest in IH'.
      * rewrite concat_cons2, IH'. reflexivity.
    + rewrite IH; auto.
      * now rewrite str_app_assoc.
      * rewrite str_all_app, Hcur. cbn [str_all andb].
        unfold inword. now rewrite Hc.
      * now rewrite truthy_app_char.
Qed.

(** What [sanitize_query] returns is tidy and has no trailing
    whitespace. *)
Lemma sanitize_query_tidy (q r : string) :
  isspace (Ascii.ascii_of_nat 32) = true ->
  sanitize_query isspace q = inr r ->
  tidy_from isspace true r /\ rstrip isspace r = r
  /\ String.length r <= 500.
Proof.
  intros space_isspace.
  unfold sanitize_query. destruct (negb (truthy q)); [discriminate|].
  intros H. injection H as <-.
  set (joined := String.concat " " (split isspace q)).
  assert (Hj : tidy_from isspace true joined).
  { apply tidy_concat; [exact space_isspace|].
    apply split_from_words. reflexivity. }
  set (cut := if 500 <? String.length joined
              then str_take 500 joined else joined).
  assert (Hcut : tidy_from isspace true cut).
  { unfold cut. destruct (500 <? _); [now apply tidy_take|exact Hj]. }
  assert (Hlen : String.length cut <= 500).
  { unfold cut. destruct (500 <? String.length joined) eqn:Hl.
    - apply str_take_length.
    - now apply Nat.ltb_ge in Hl. }
  unfold strip. rewrite (lstrip_id isspace cut) by now apply tidy_clean.
  split; [now apply tidy_rstrip|]. split; [apply rstrip_rstrip|].
  etransitivity; [apply rstrip_length|exact Hlen].
Qed.

(** [sanitize_query] is idempotent on what it accepts: a non-empty result
    is a sequence of words separated by single spaces, and sanitizing it
    again returns it unchanged. *)
Theorem sanitize_query_idempotent (q r : string) :
  isspace (Ascii.ascii_of_nat 32) = true ->
  sanitize_query isspace q = inr r -> r <> "" ->
  String.concat " " (split isspace r) = r
  /\ sanitize_query isspace r = inr r.
Proof.
  intros Hsp Hq Hr.
  apply (sanitize_query_tidy q r Hsp) in Hq as (Htidy & Hend & Hlen).
  assert (Hjoin : String.concat " " (split isspace r) = r).
  { unfold split. now rewrite split_join. }
  split; [exact Hjoin|].
  unfold sanitize_query. apply truthy_true in Hr. rewrite Hr. cbn [negb].
  rewrite Hjoin.
  replace (500 <? String.length r) with false
    by (symmetry; apply Nat.ltb_ge; exact Hlen).
  unfold strip. rewrite (lstrip_id isspace r) by now apply tidy_clean.
  now rewrite Hend.
Qed.

End SanitizeTwice.

Lemma sanitize_query_idempotent_witness :
  sanitize_query Scenario.ascii_space "hello world" = inr "hello world".
Proof.
  apply (sanitize_query_idempotent Scenario.ascii_space
           "  hello   world  " "hello world").
  - reflexivity.
  - reflexivity.
  - discriminate.
Defined.

(** ** Properties of the planner *)

Lemma as_strings_names (l : list string) :
  as_strings (JList (map JStr l)) = Some l.
Proof.
  cbn [as_strings]. apply mapM_Some_2.
  induction l; constructor; auto.
Qed.

Lemma as_strings_list (j : json) (l : list string) :
  as_strings j = Some l ->
  exists items, j = JList items /\ length items = length l
                /\ json_len j = inr (length l)
                /\ json_truthy j = negb (Nat.eqb (length l) 0).
Proof.
  destruct j; try discriminate. cbn [as_strings]. intros H.
  apply mapM_Some_1, Forall2_length in H.
  eexists. split; [reflexivity|]. cbn [json_len json_truthy].
  now rewrite H.
Qed.

Lemma as_strings_take (j : json) (l : list string) (n : nat)
    (slice_error : exn) :
  as_strings j = Some l ->
  exists sliced,
    json_slice slice_error j n = inr sliced
    /\ as_strings sliced = Some (take n l).
Proof.
  destruct j; try discriminate. cbn [as_strings json_slice]. intros H.
  eexists. split; [reflexivity|]. cbn [as_strings].
  apply mapM_Some_2, Forall2_take. now apply mapM_Some_1.
Qed.

(** What the validation lets through. *)
Lemma structure_plan_shape (slice_error : exn) (query : string)
    (j : json) (pr : created_plan) :
  structure_plan slice_error query j = inr pr ->
  plan_query pr = query
  /\ plan_success pr = true
  /\ json_truthy (plan_tool_sequence pr) = true
  /\ exists n, json_len (plan_sub_questions pr) = inr n /\ 3 <= n <= 5.
Proof.
  unfold structure_plan.
  destruct (json_get j "sub_questions" (JList [])) as [e|subq];
    [discriminate|]. cbn [and_then].
  destruct (json_get j "tool_sequence" _) as [e|tseq] eqn:Htseq.
  { destruct (if negb (json_truthy subq) then _ else _); discriminate. }
  destruct (json_get j "reasoning" _) as [e|reasoning].
  { destruct (if negb (json_truthy subq) then _ else _); discriminate. }
  assert (Htruthy :
            json_truthy
              (if negb (json_truthy tseq)
               then JList [JStr "web_search"; JStr "scraper"]
               else tseq) = true).
  { destruct (json_truthy tseq) eqn:Ht; [exact Ht|reflexivity]. }
  assert (Hfallback : forall pr,
             and_then
               (json_slice slice_error
                  (JList (map JStr (fallback_questions query)))
                  config.MAX_SUB_QUESTIONS)
               (fun sliced =>
                  inr {| plan_query := query;
                         plan_sub_questions := sliced;
                         plan_tool_sequence :=
                           if negb (json_truthy tseq)
                           then JList [JStr "web_search"; JStr "scraper"]
                           else tseq;
                         plan_reasoning := reasoning;
                         plan_success := true;
                         plan_error := None |}) = inr pr ->
             plan_query pr = query
             /\ plan_success pr = true
             /\ json_truthy (plan_tool_sequence pr) = true
             /\ exists n, json_len (plan_sub_questions pr) = inr n
                          /\ 3 <= n <= 5).
  { intros pr' H. cbn in H. injection H as <-.
    cbn [plan_query plan_success plan_tool_sequence plan_sub_questions].
    repeat split; auto. exists 3. split; [reflexivity|lia]. }
  destruct (json_truthy subq) eqn:Hsub; cbn [negb and_then];
    [|apply Hfallback].
  destruct (json_len subq) as [e|n] eqn:Hlen; [discriminate|].
  cbn [and_then]. destruct (n <? 3) eqn:Hn; [apply Hfallback|].
  apply Nat.ltb_ge in Hn.
  destruct subq; try discriminate; cbn [json_slice and_then];
    try discriminate; intros H; injection H as <-;
    cbn [plan_query plan_success plan_tool_sequence plan_sub_questions
           json_len];
    injection Hlen as <-; repeat split; auto.
  - eexists. split; [reflexivity|].
    assert (H := str_take_length config.MAX_SUB_QUESTIONS s).
    unfold config.MAX_SUB_QUESTIONS in *. split; [|exact H].
    unfold str_take. revert Hn. clear.
    destruct s as [|a [|b [|c s]]]; simpl; lia.
  - eexists. split; [reflexivity|]. rewrite length_take.
    unfold config.MAX_SUB_QUESTIONS. lia.
Qed.

(** An answer of the expected shape is let through, and the plan keeps
    lists of strings. *)
Lemma structure_plan_typed (slice_error : exn) (query : string) (j : json) :
  typed_answer j ->
  exists pr qs seq,
    structure_plan slice_error query j = inr pr
    /\ as_strings (plan_sub_questions pr) = Some qs
    /\ as_strings (plan_tool_sequence pr) = Some seq.
Proof.
  intros (entries & -> & Hsub & Hseq). unfold structure_plan.
  cbn [json_get and_then].
  set (tseq := if negb (json_truthy
                          (default (JList [JStr "web_search"; JStr "scraper"])
                             (dict_lookup "tool_sequence" entries)))
               then JList [JStr "web_search"; JStr "scraper"]
               else default (JList [JStr "web_search"; JStr "scraper"])
                      (dict_lookup "tool_sequence" entries)).
  assert (Htseq : exists seq, as_strings tseq = Some seq).
  { unfold tseq. destruct (negb _); [eexists; reflexivity|].
    destruct (dict_lookup "tool_sequence" entries) as [v|] eqn:Hv;
      [|eexists; reflexivity].
    destruct (Hseq v eq_refl) as [seq Hs]. now exists seq. }
  destruct Htseq as (seq & Htseq).
  assert (Hfallback :
            exists sliced,
              json_slice slice_error
                (JList (map JStr (fallback_questions query)))
                config.MAX_SUB_QUESTIONS = inr sliced
              /\ as_strings sliced
                 = Some (take config.MAX_SUB_QUESTIONS
                           (fallback_questions query))).
  { apply as_strings_take, as_strings_names. }
  destruct Hfallback as (fb & Hfb & Hfbs).
  assert (Hsubq : exists qs,
             as_strings (default (JList []) (dict_lookup "sub_questions" entries))
             = Some qs).
  { destruct (dict_lookup "sub_questions" entries) as [v|] eqn:Hv;
      [|eexists; reflexivity].
    destruct (Hsub v eq_refl) as [qs Hs]. now exists qs. }
  destruct Hsubq as (qs & Hqs).
  destruct (as_strings_list _ _ Hqs) as (items & _ & _ & Hlen & _).
  destruct (as_strings_take _ _ config.MAX_SUB_QUESTIONS slice_error Hqs)
    as (sl & Hsl & Hsls).
  destruct (negb (json_truthy
                    (default (JList []) (dict_lookup "sub_questions" entries))));
    cbn [and_then].
  - rewrite Hfb. cbn [and_then]. eexists _, _, seq.
    split; [reflexivity|]. split; [exact Hfbs|exact Htseq].
  - rewrite Hlen. cbn [and_then].
    destruct (length qs <? 3).
    + rewrite Hfb. cbn [and_then]. eexists _, _, seq.
      split; [reflexivity|]. split; [exact Hfbs|exact Htseq].
    + rewrite Hsl. cbn [and_then]. eexists _, _, seq.
      split; [reflexivity|]. split; [exact Hsls|exact Htseq].
Qed.

Section PlannerProperties.

Context {World : Type}.
Variable isspace : Ascii.ascii -> bool.
Variable llm_generate_json : string -> string -> oracle World json.
Variable slice_error : exn.

Lemma sanitize_query_accepts (q : string) :
  q <> "" -> exists sq, sanitize_query isspace q = inr sq.
Proof.
  intros Hq. unfold sanitize_query. apply truthy_true in Hq. rewrite Hq.
  eexists. reflexivity.
Qed.

(** The plans [create_plan] builds. *)
Lemma create_plan_returns (q sq : string) (s : state World) :
  sanitize_query isspace q = inr sq ->
  exists pr w' n,
    create_plan isspace llm_generate_json slice_error q s
    = (inr pr, State w' (calls s))
    /\ plan_query pr = sq
    /\ json_truthy (plan_tool_sequence pr) = true
    /\ json_len (plan_sub_questions pr) = inr n
    /\ 3 <= n <= 5
    /\ ((forall j w1,
            llm_generate_json (planner_prompt sq) planner_system_prompt
              (world s) = (inr j, w1) -> typed_answer j) ->
        exists qs seq,
          the_plan pr
          = Some {| query := Some sq; sub_questions := Some qs;
                    tool_sequence := Some seq |}
          /\ length qs = n /\ seq <> []).
Proof.
  intros Hsq. unfold create_plan, bind, lift. rewrite Hsq.
  unfold try_except, bind, call, ret.
  assert (Hview : forall pr n,
             plan_query pr = sq ->
             json_truthy (plan_tool_sequence pr) = true ->
             json_len (plan_sub_questions pr) = inr n ->
             (exists qs seq,
                 as_strings (plan_sub_questions pr) = Some qs
                 /\ as_strings (plan_tool_sequence pr) = Some seq) ->
             exists qs seq,
               the_plan pr
               = Some {| query := Some sq; sub_questions := Some qs;
                         tool_sequence := Some seq |}
               /\ length qs = n /\ seq <> []).
  { intros pr n Hq Ht Hn (qs & seq & Hqs & Hseq).
    exists qs, seq. unfold the_plan. rewrite Hqs, Hseq, Hq.
    split; [reflexivity|].
    destruct (as_strings_list _ _ Hqs) as (_ & _ & _ & Hlen & _).
    destruct (as_strings_list _ _ Hseq) as (_ & _ & _ & _ & Htr).
    split; [congruence|]. intros ->. rewrite Ht in Htr. discriminate. }
  destruct (llm_generate_json _ _ (world s)) as [[e|j] w'] eqn:Hcall.
  - eexists _, w', 3. split; [reflexivity|].
    cbn [plan_query plan_tool_sequence plan_sub_questions].
    repeat split; auto. intros _.
    apply Hview; try reflexivity.
    exists (fallback_questions sq), ["web_search"; "scraper"; "summarizer"].
    split; reflexivity.
  - cbn [world calls].
    destruct (structure_plan slice_error sq j) as [e|pr] eqn:Hstruct.
    + eexists _, w', 3. split; [reflexivity|].
      cbn [plan_query plan_tool_sequence plan_sub_questions].
      repeat split; auto. intros _.
      apply Hview; try reflexivity.
      exists (fallback_questions sq),
        ["web_search"; "scraper"; "summarizer"].
      split; reflexivity.
    + destruct (structure_plan_shape _ _ _ _ Hstruct)
        as (Hq & _ & Ht & n & Hn & Hbound).
      exists pr, w', n. split; [reflexivity|].
      repeat split; auto; try lia.
      intros Htyped. apply Hview; auto.
      destruct (structure_plan_typed slice_error sq j
                  (Htyped j w' eq_refl))
        as (pr' & qs & seq & Hpr' & Hqs & Hseq).
      rewrite Hstruct in Hpr'. injection Hpr' as <-. eauto.
Qed.

(** [create_plan] raises [ValueError] on the empty query, without calling
    the model: the query is sanitized before the [try]. On any other
    query it returns, whatever the model returns or raises: a plan for the
    sanitized query whose tool sequence is truthy and whose sub-questions
    have a length between 3 and 5. When the answer of the model, if it
    answers, has the expected shape, the plan is one [execute_plan] reads:
    between 3 and 5 sub-questions and a non-empty tool sequence, all
    strings. *)
Theorem create_plan_shape (q : string) (s : state World) :
  (q = "" ->
   create_plan isspace llm_generate_json slice_error q s
   = (inl (Exception "Query must be a non-empty string"), s))
  /\ (q <> "" ->
      exists sq pr w' n,
        sanitize_query isspace q = inr sq
        /\ create_plan isspace llm_generate_json slice_error q s
           = (inr pr, State w' (calls s))
        /\ plan_query pr = sq
        /\ json_truthy (plan_tool_sequence pr) = true
        /\ json_len (plan_sub_questions pr) = inr n
        /\ 3 <= n <= 5
        /\ ((forall j w1,
                llm_generate_json (planner_prompt sq) planner_system_prompt
                  (world s) = (inr j, w1) -> typed_answer j) ->
            exists qs seq,
              the_plan pr
              = Some {| query := Some sq; sub_questions := Some qs;
                        tool_sequence := Some seq |}
              /\ 3 <= length qs <= 5 /\ seq <> [])).
Proof.
  split; [now intros ->|].
  intros Hq. destruct (sanitize_query_accepts q Hq) as (sq & Hsq).
  destruct (create_plan_returns q sq s Hsq)
    as (pr & w' & n & Hrun & Hquery & Ht & Hn & Hbound & Htyped).
  exists sq, pr, w', n. repeat split; auto; try lia.
  intros Hans. destruct (Htyped Hans) as (qs & seq & Hplan & Hlen & Hne).
  exists qs, seq. repeat split; auto; lia.
Qed.

(** When the planning model raises [e], [create_plan] returns the
    fallback plan: three fixed questions about the sanitized query, the
    tool sequence web_search, scraper, summarizer, [success = false] and
    [error = str(e)]. *)
Theorem create_plan_fallback (q sq : string) (s : state World) (e : exn)
    (w' : World) :
  sanitize_query isspace q = inr sq ->
  llm_generate_json (planner_prompt sq) planner_system_prompt (world s)
  = (inl e, w') ->
  create_plan isspace llm_generate_json slice_error q s
  = (inr {| plan_query := sq;
            plan_sub_questions :=
              JList [JStr ("What is " +:+ sq +:+ "?");
                     JStr ("What are the key aspects of " +:+ sq +:+ "?");
                     JStr ("What are recent developments regarding " +:+ sq
                           +:+ "?")];
            plan_tool_sequence :=
              JList [JStr "web_search"; JStr "scraper"; JStr "summarizer"];
            plan_reasoning := JStr "Fallback plan due to planning error";
            plan_success := false;
            plan_error := Some (str_exn e) |},
     State w' (calls s)).
Proof.
  intros Hsq Hraise. unfold create_plan, bind, lift. rewrite Hsq.
  unfold try_except, bind, call, ret. rewrite Hraise. reflexivity.
Qed.

(** For a plan made by [create_plan] for the query [q] that
    [execute_plan] reads, run with its own sub-questions: its query is
    the sanitized [q], it has between 3 and 5 sub-questions, and the
    web_search stage issues exactly three searches, one per sub-question
    and in order (when the plan has three), or a single search on the
    sanitized query (when it has four or five). *)
Theorem planned_search_invocations (env : Tools World) (q : string)
    (s0 s1 : state World) (pr : created_plan) (p : Plan)
    (log : ExecutionLog) (urls : list string) (s : state World) :
  create_plan isspace llm_generate_json slice_error q s0 = (inr pr, s1) ->
  the_plan pr = Some p ->
  let limited :=
    take config.MAX_SUB_QUESTIONS
      (or_list (sub_questions p) (default [] (sub_questions p))) in
  exists sq qs rs urls' w' invs,
    sanitize_query isspace q = inr sq
    /\ query p = Some sq /\ sub_questions p = Some qs
    /\ 3 <= length qs <= 5
    /\ stage env p limited "web_search" log urls s
       = (inr (extend_results rs log, urls'), State w' (calls s ++ invs))
    /\ ((length qs = 3
         /\ invs
            = map (fun question =>
                     Invocation "web_search"
                       (Kwargs (Some question) None None None None None
                          None None)) qs)
        \/ (3 < length qs
            /\ invs
               = [Invocation "web_search"
                    (Kwargs (Some sq) None None None None None None
                       None)])).
Proof.
  intros Hplan Hp limited.
  destruct (sanitize_query isspace q) as [e|sq] eqn:Hsq.
  { unfold create_plan, bind, lift in Hplan. rewrite Hsq in Hplan.
    discriminate. }
  destruct (create_plan_returns q sq s0 Hsq)
    as (pr' & w0 & n & Hrun & Hquery & _ & Hn & Hbound & _).
  rewrite Hrun in Hplan. injection Hplan as -> _.
  unfold the_plan in Hp.
  destruct (as_strings (plan_sub_questions pr)) as [qs|] eqn:Hqs;
    [|discriminate].
  destruct (as_strings (plan_tool_sequence pr)) as [seq|]; [|discriminate].
  injection Hp as <-. rewrite Hquery in *.
  destruct (as_strings_list _ _ Hqs) as (_ & _ & _ & Hlen & _).
  assert (Hqn : length qs = n) by congruence.
  cbn [sub_questions query] in limited.
  assert (Hlim : limited = qs).
  { unfold limited. cbn [default from_option id].
    destruct qs as [|x l]; [simpl in Hqn; lia|]. cbn [or_list].
    apply firstn_all2. unfold config.MAX_SUB_QUESTIONS. lia. }
  set (p := {| query := Some sq; sub_questions := Some qs;
               tool_sequence := Some seq |}).
  destruct (web_search_stage_returns env p limited urls s)
    as (rs & urls' & w' & Hst & _).
  exists sq, qs, rs, urls', w', (search_invocations p limited).
  split; [reflexivity|]. split; [reflexivity|]. split; [reflexivity|].
  split; [lia|]. split.
  - unfold stage. cbn [String.eqb Ascii.eqb Bool.eqb].
    unfold bind, ret. rewrite Hst. reflexivity.
  - unfold search_invocations. rewrite Hlim. cbn [query p].
    destruct (Nat.ltb_spec 3 (length qs)); [right|left]; split; auto; lia.
Qed.

End PlannerProperties.

Lemma create_plan_shape_witness :
  create_plan Scenario.ascii_space
    (fun _ _ => Scenario.returns Scenario.four_questions)
    (Exception "unhashable type: 'slice'") "" Scenario.start
  = (inl (Exception "Query must be a non-empty string"), Scenario.start)
  /\ (exists pr,
        create_plan Scenario.ascii_space
          (fun _ _ => Scenario.returns Scenario.four_questions)
          (Exception "unhashable type: 'slice'") " AI  and jobs "
          Scenario.start
        = (inr pr, Scenario.start)
        /\ the_plan pr
           = Some {| query := Some "AI and jobs";
                     sub_questions := Some ["q1"; "q2"; "q3"; "q4"];
                     tool_sequence := Some ["web_search"] |})
  /\ (exists pr,
        create_plan Scenario.ascii_space
          (fun _ _ => Scenario.returns Scenario.odd_answer)
          (Exception "unhashable type: 'slice'") " AI  and jobs "
          Scenario.start
        = (inr pr, Scenario.start)
        /\ plan_tool_sequence pr = JInt 5
        /\ json_truthy (plan_tool_sequence pr) = true
        /\ the_plan pr = None).
Proof.
  split; [|split].
  - apply (create_plan_shape Scenario.ascii_space
             (fun _ _ => Scenario.returns Scenario.four_questions)
             (Exception "unhashable type: 'slice'") "" Scenario.start).
    reflexivity.
  - destruct (create_plan_shape Scenario.ascii_space
                (fun _ _ => Scenario.returns Scenario.four_questions)
                (Exception "unhashable type: 'slice'")
                " AI  and jobs " Scenario.start) as (_ & Hok).
    destruct Hok as (sq & pr & w' & n & Hsq & Hrun & _ & _ & _ & _ & Htyped);
      [discriminate|].
    exists pr. destruct w'. split; [exact Hrun|].
    destruct Htyped as (qs & seq & Hplan & _).
    { intros j w1 Hj. injection Hj as <- _.
      exists [("sub_questions",
               JList [JStr "q1"; JStr "q2"; JStr "q3"; JStr "q4"]);
              ("tool_sequence", JList [JStr "web_search"]);
              ("reasoning", JStr "Search only")].
      split; [reflexivity|].
      split; intros v Hv; injection Hv as <-; eexists; reflexivity. }
    vm_compute in Hrun. injection Hrun as <-. reflexivity.
  - destruct (create_plan_shape Scenario.ascii_space
                (fun _ _ => Scenario.returns Scenario.odd_answer)
                (Exception "unhashable type: 'slice'")
                " AI  and jobs " Scenario.start) as (_ & Hok).
    destruct Hok as (sq & pr & w' & n & Hsq & Hrun & _ & Ht & _);
      [discriminate|].
    exists pr. destruct w'. split; [exact Hrun|].
    split; [|split; [exact Ht|]];
      vm_compute in Hrun; injection Hrun as <-; reflexivity.
Defined.

Lemma create_plan_fallback_witness :
  exists pr,
    create_plan Scenario.ascii_space
      (fun _ _ => Scenario.fails "Could not parse JSON from response")
      (Exception "unhashable type: 'slice'") "AI and jobs" Scenario.start
    = (inr pr, Scenario.start)
    /\ plan_success pr = false
    /\ plan_error pr = Some "Could not parse JSON from response"
    /\ plan_tool_sequence pr
       = JList [JStr "web_search"; JStr "scraper"; JStr "summarizer"].
Proof.
  eexists. split.
  - apply (create_plan_fallback Scenario.ascii_space
             (fun _ _ => Scenario.fails "Could not parse JSON from response")
             (Exception "unhashable type: 'slice'")
             "AI and jobs" "AI and jobs" Scenario.start
             (Exception "Could not parse JSON from response") tt);
      reflexivity.
  - repeat split; reflexivity.
Defined.

Lemma planned_search_invocations_witness :
  (exists rs urls' w',
      stage Scenario.healthy Scenario.planned_typed
        (take config.MAX_SUB_QUESTIONS (fallback_questions "AI"))
        "web_search" (Scenario.empty_log Scenario.planned_typed) []
        Scenario.start
      = (inr (extend_results rs
                (Scenario.empty_log Scenario.planned_typed), urls'),
         State w'
           [Invocation "web_search"
              (Kwargs (Some "What is AI?") None None None None None None
                 None);
            Invocation "web_search"
              (Kwargs (Some "What are the key aspects of AI?") None None
                 None None None None None);
            Invocation "web_search"
              (Kwargs (Some "What are recent developments regarding AI?")
                 None None None None None None None)])).
Proof.
  destruct (planned_search_invocations Scenario.ascii_space
              (fun _ _ => Scenario.returns (JDict []))
              (Exception "unhashable type: 'slice'")
              Scenario.healthy "AI" Scenario.start Scenario.start
              Scenario.planned Scenario.planned_typed
              (Scenario.empty_log Scenario.planned_typed) []
              Scenario.start eq_refl eq_refl)
    as (sq & qs & rs & urls' & w' & invs & _ & _ & Hqs & _ & Hst & Hinv).
  exists rs, urls', w'.
  injection Hqs as <-.
  destruct Hinv as [[_ H]|[H _]]; [|simpl in H; lia].
  rewrite H in Hst. exact Hst.
Defined.

(** ** Properties of the summarizer tool *)

Section SummarizerProperties.

Context {World : Type}.
Variable isspace : Ascii.ascii -> bool.
Variable llm_generate : string -> string -> nat -> Q -> oracle World string.

(** [summarize] never raises and leaves the log of calls alone. *)
Lemma summarize_text_returns (text : string) (max_length : option nat)
    (style : string) (s : state World) :
  exists r w',
    summarize_text isspace llm_generate text max_length style s
    = (inr r, State w' (calls s)).
Proof.
  unfold summarize_text.
  destruct (negb (truthy text) || _).
  - unfold ret. eexists _, (world s). destruct s. reflexivity.
  - unfold try_except, bind, call, ret.
    destruct (llm_generate _ _ _ _ (world s)) as [[e|out] w'];
      eexists _, _; reflexivity.
Qed.

(** A text that is empty, or shorter than 10 characters once stripped, is
    not summarized: the model is not called, and the result is a failure
    that carries the text itself as its summary. *)
Theorem summarize_short_text (text : string) (max_length : option nat)
    (style : string) (s : state World) :
  text = "" \/ String.length (strip isspace text) < 10 ->
  summarize_text isspace llm_generate text max_length style s
  = (inr {| summary_text := text;
            original_length := String.length text;
            summary_length := String.length text;
            summary_success := false;
            summary_error := Some "Text too short to summarize" |}, s).
Proof.
  intros Hshort. unfold summarize_text.
  replace (negb (truthy text)
           || (String.length (strip isspace text) <? 10)) with true;
    [reflexivity|].
  symmetry. apply orb_true_iff. destruct Hshort as [->|Hlen].
  - now left.
  - right. now apply Nat.ltb_lt.
Qed.

(** A longer text is summarized with one call of the model: on at most
    2003 characters of the text and for at most 500 tokens. The answer is
    stripped; an exception of the model becomes a failure result, so
    [summarize] never raises. *)
Theorem summarize_one_bounded_call (text : string)
    (max_length : option nat) (style : string) (s : state World) :
  text <> "" -> 10 <= String.length (strip isspace text) ->
  let sent :=
    if 2000 <? String.length text then str_take 2000 text +:+ "..."
    else text in
  let tokens := Nat.min (or_100 max_length * 2) 500 in
  String.length sent <= 2003 /\ tokens <= 500
  /\ summarize_text isspace llm_generate text max_length style s
     = match llm_generate
               (summarize_prompt style (or_100 max_length) sent)
               summarize_system_prompt tokens (3 # 10)%Q (world s) with
       | (inr out, w') =>
           (inr {| summary_text := strip isspace out;
                   original_length := String.length sent;
                   summary_length := String.length (strip isspace out);
                   summary_success := true;
                   summary_error := None |},
            State w' (calls s))
       | (inl e, w') =>
           (inr {| summary_text := "";
                   original_length := String.length sent;
                   summary_length := 0;
                   summary_success := false;
                   summary_error := Some (str_exn e) |},
            State w' (calls s))
       end.
Proof.
  intros Hne Hlen sent tokens. split; [|split].
  - unfold sent. destruct (2000 <? String.length text) eqn:Hlong.
    + rewrite str_length_app. assert (H := str_take_length 2000 text).
      simpl. lia.
    + apply Nat.ltb_ge in Hlong. lia.
  - unfold tokens. lia.
  - unfold summarize_text.
    apply truthy_true in Hne. rewrite Hne.
    apply Nat.ltb_ge in Hlen. rewrite Hlen. cbn [negb orb].
    unfold try_except, bind, call, ret. fold sent. fold tokens.
    destruct (llm_generate _ _ _ _ (world s)) as [[e|out] w'];
      reflexivity.
Qed.

(** With [SummarizerTool] as the summarizer, the summarizer stage never
    records an error: whatever the model does, the stage appends at most
    one result, which is a success for the pipeline, and leaves [errors]
    as it was. *)
Theorem summarizer_stage_swallows_failures (env : Tools World)
    (plan : Plan) (limited : list string) (log : ExecutionLog)
    (urls : list string) (s : state World) :
  exists new w' newcalls,
    stage (with_summarizer isspace llm_generate env) plan limited
      "summarizer" log urls s
    = (inr (Log (log_plan log) (tool_results log ++ new) (log_success log)
              (errors log), urls),
       State w' (calls s ++ newcalls))
    /\ length new <= 1
    /\ Forall (fun r => tool r = "summarizer" /\ success r = true) new.
Proof.
  unfold stage. cbn [String.eqb Ascii.eqb Bool.eqb].
  destruct (truthy _).
  - set (kw := kw_summary _).
    destruct (summarize_text_returns (default "" (kw_text kw))
                (kw_max_length kw) (default "concise" (kw_style kw))
                (State (world s) [])) as (r & w' & Hsum).
    exists [ok_result "summarizer" (summary_payload r)], w',
      [Invocation "summarizer" kw].
    unfold bind, execute_tool, bind, log_invocation.
    rewrite tools_summarizer.
    unfold try_except, route, tool_summarize, call, bind, ret.
    cbn [String.eqb Ascii.eqb Bool.eqb world calls summarize
           with_summarizer].
    unfold summarizer_tool. rewrite Hsum.
    split; [reflexivity|]. split; [simpl; lia|]. repeat constructor.
  - exists [], (world s), []. unfold ret. rewrite !app_nil_r.
    destruct s, log. repeat split; simpl; auto.
Qed.

End SummarizerProperties.

Lemma summarize_short_text_witness :
  summarize_text Scenario.ascii_space
    (fun _ _ _ _ => Scenario.returns "unused") ("short" +:+ blank_line)
    (Some 150) "concise" Scenario.start
  = (inr {| summary_text := "short" +:+ blank_line;
            original_length := 7;
            summary_length := 7;
            summary_success := false;
            summary_error := Some "Text too short to summarize" |},
     Scenario.start).
Proof.
  apply (summarize_short_text Scenario.ascii_space
           (fun _ _ _ _ => Scenario.returns "unused")
           ("short" +:+ blank_line) (Some 150) "concise" Scenario.start).
  right. vm_compute. lia.
Defined.

Lemma summarize_one_bounded_call_witness :
  summarize_text Scenario.ascii_space
    (fun _ _ _ _ => Scenario.fails "Groq API error: rate limit")
    "A text of some length." (Some 150) "concise" Scenario.start
  = (inr {| summary_text := "";
            original_length := 22;
            summary_length := 0;
            summary_success := false;
            summary_error := Some "Groq API error: rate limit" |},
     Scenario.start).
Proof.
  destruct (summarize_one_bounded_call Scenario.ascii_space
              (fun _ _ _ _ => Scenario.fails "Groq API error: rate limit")
              "A text of some length." (Some 150) "concise" Scenario.start)
    as (_ & _ & Hrun).
  - discriminate.
  - vm_compute. lia.
  - exact Hrun.
Defined.

(** ** Properties of the research agent *)

Section ResearchProperties.

Context {World Pdf : Type}.
Variable isspace : Ascii.ascii -> bool.
Variable llm_generate_json : string -> string -> oracle World json.
Variable slice_error : exn.
Variable env : Tools World.
Variable str_items : list search_item -> string.
Variable str_payload : payload -> string.
Variable llm_generate : string -> string -> nat -> Q -> oracle World string.
Variable vector_search : string -> nat -> World -> list similar_result * World.
Variable markdown_to_pdf : string -> World -> Pdf * World.
Variable vector_add :
  string -> created_plan -> ExecutionLog -> Report -> oracle World unit.
Variable research_untyped :
  string -> created_plan -> bool -> M World (@research_result Pdf).

Lemma generate_report_returns (query : string) (plan : Plan)
    (rs : list tool_result) (s : state World) :
  exists report w',
    generate_report str_items str_payload llm_generate query plan rs s
    = (inr report, State w' (calls s))
    /\ report_query report = query
    /\ citations report = extract_citations rs.
Proof.
  unfold generate_report, try_except, bind, call, ret.
  destruct (llm_generate _ _ _ _ (world s)) as [[e|md] w'];
    eexists _, _; (split; [reflexivity|]); split; reflexivity.
Qed.


End ResearchProperties.


(** ** Properties of the search tool *)

Section SearchProperties.

Context {World : Type}.
Variable cache_get : string -> oracle World (option search_output).
Variable cache_set : string -> search_output -> oracle World unit.
Variable client_search : string -> Z -> oracle World search_response.
Variable retry_error : exn -> exn.

(** A body that returns is not retried. *)
Lemma retry_returns {A} (n : nat) (body : M World A) (s : state World)
    (a : A) (s' : state World) :
  body s = (inr a, s') -> retry retry_error n body s = (inr a, s').
Proof.
  intros H. destruct n as [|[|n]]; cbn [retry]; unfold try_except;
    now rewrite H.
Qed.

Lemma fresh_output_eq (q : string) (response : search_response) :
  {| out_results := map format_result (default [] (resp_results response));
     out_query := q;
     out_total_results :=
       length (map format_result (default [] (resp_results response)));
     out_error := None |}
  = fresh_output q response.
Proof.
  unfold fresh_output. rewrite length_map.
  destruct (resp_results response) as [items|]; [|reflexivity].
  reflexivity.
Qed.

Lemma web_search_outcome (q : string)
    (max_results : option Z) (use_cache : bool) (s : state World)
    (c : option search_output) (w1 : World) :
  (if use_cache then cache_get ("search:" +:+ q) (world s)
   else (inr None, world s)) = (inr c, w1) ->
  exists out w',
    search_body cache_get cache_set client_search q max_results use_cache s
    = (inr out, State w' (calls s))
    /\ web_search cache_get cache_set client_search retry_error q
         max_results use_cache s
       = (inr out, State w' (calls s))
    /\ match c with
       | Some cached => out = cached /\ w' = w1
       | None =>
           out_query out = q
           /\ out_total_results out = length (out_results out)
           /\ (out_error out <> None -> out_results out = [])
           /\ forall answer w2,
               client_answer client_search q (or_max_results max_results) w1
               = (answer, w2) ->
               match answer with
               | inl e => out = failed_search q e /\ w' = w2
               | inr response =>
                   forall written w3,
                     (if use_cache
                      then cache_set ("search:" +:+ q)
                             (fresh_output q response) w2
                      else (inr tt, w2)) = (written, w3) ->
                     w' = w3
                     /\ out = match written with
                              | inl e => failed_search q e
                              | inr _ => fresh_output q response
                              end
               end
       end.
Proof.
  intros Hcache.
  assert (Hbody : exists out w',
             search_body cache_get cache_set client_search q max_results
               use_cache s = (inr out, State w' (calls s))
             /\ match c with
                | Some cached => out = cached /\ w' = w1
                | None =>
                    out_query out = q
                    /\ out_total_results out = length (out_results out)
                    /\ (out_error out <> None -> out_results out = [])
                    /\ forall answer w2,
                        client_answer client_search q
                          (or_max_results max_results) w1 = (answer, w2) ->
                        match answer with
                        | inl e => out = failed_search q e /\ w' = w2
                        | inr response =>
                            forall written w3,
                              (if use_cache
                               then cache_set ("search:" +:+ q)
                                      (fresh_output q response) w2
                               else (inr tt, w2)) = (written, w3) ->
                              w' = w3
                              /\ out = match written with
                                       | inl e => failed_search q e
                                       | inr _ => fresh_output q response
                                       end
                        end
                end).
  { unfold search_body. unfold bind at 1.
    assert (Hlook :
              (if use_cache
               then call (cache_get ("search:" +:+ q))
               else ret None) s = (inr c, State w1 (calls s))).
    { destruct use_cache.
      - unfold call. now rewrite Hcache.
      - unfold ret. injection Hcache as <- <-. now destruct s. }
    rewrite Hlook. destruct c as [cached|].
    - exists cached, w1. unfold ret. auto.
    - unfold try_except, bind, call, ret, client_answer.
      cbn [world calls].
      destruct (client_search q (or_max_results max_results) w1)
        as [[e1|resp] w2]; cbn [world calls];
        [destruct (client_search q (or_max_results max_results) w2)
           as [[e2|resp] w3]; cbn [world calls]|].
      + eexists _, _. split; [reflexivity|].
        cbn [out_query out_total_results out_results out_error length].
        repeat split; auto.
        all: intros answer w4 H; injection H as <- <-.
        all: split; reflexivity.
      + rewrite fresh_output_eq. destruct use_cache; cbn [world calls].
        * destruct (cache_set ("search:" +:+ q) (fresh_output q resp) w3)
            as [[e3|[]] w4] eqn:Hset;
            eexists _, _; (split; [reflexivity|]);
            cbn [fresh_output out_query out_total_results out_results
                   out_error length];
            rewrite ?length_map; repeat split; auto; try congruence.
          all: intros answer w5 H; injection H as <- <-.
          all: intros written w6 Hw; rewrite Hset in Hw.
          all: injection Hw as <- <-; split; reflexivity.
        * eexists _, _. split; [reflexivity|].
          cbn [fresh_output out_query out_total_results out_results
                 out_error length].
          rewrite ?length_map. repeat split; auto; try congruence.
          all: intros answer w5 H; injection H as <- <-.
          all: intros written w6 Hw; injection Hw as <- <-.
          all: split; reflexivity.
      + rewrite fresh_output_eq. destruct use_cache; cbn [world calls].
        * destruct (cache_set ("search:" +:+ q) (fresh_output q resp) w2)
            as [[e3|[]] w4] eqn:Hset;
            eexists _, _; (split; [reflexivity|]);
            cbn [fresh_output out_query out_total_results out_results
                   out_error length];
            rewrite ?length_map; repeat split; auto; try congruence.
          all: intros answer w5 H; injection H as <- <-.
          all: intros written w6 Hw; rewrite Hset in Hw.
          all: injection Hw as <- <-; split; reflexivity.
        * eexists _, _. split; [reflexivity|].
          cbn [fresh_output out_query out_total_results out_results
                 out_error length].
          rewrite ?length_map. repeat split; auto; try congruence.
          all: intros answer w5 H; injection H as <- <-.
          all: intros written w6 Hw; injection Hw as <- <-.
          all: split; reflexivity. }
  destruct Hbody as (out & w' & Hrun & Hout).
  exists out, w'. split; [exact Hrun|]. split; [|exact Hout].
  unfold web_search. now apply retry_returns.
Qed.

(** The search tool returns whenever its cache lookup does, and is then
    not retried: the decorated function returns what its body returns. A
    cached output is returned as it is, without any further call.
    Otherwise the output is for the query asked and counts its results,
    and it is determined by the client and the cache write: when the
    client raises [e] (twice), or answers and the cache write raises [e],
    the output has no results and [error = str(e)]; when the client
    answers and the output is written (or the cache is not used) it is
    the formatted response, without an error. *)
Theorem search_returns_unless_cache_raises (q : string)
    (max_results : option Z) (use_cache : bool) (s : state World)
    (c : option search_output) (w1 : World) :
  (if use_cache then cache_get ("search:" +:+ q) (world s)
   else (inr None, world s)) = (inr c, w1) ->
  exists out w',
    search_body cache_get cache_set client_search q max_results use_cache s
    = (inr out, State w' (calls s))
    /\ web_search cache_get cache_set client_search retry_error q
         max_results use_cache s
       = (inr out, State w' (calls s))
    /\ match c with
       | Some cached => out = cached /\ w' = w1
       | None =>
           out_query out = q
           /\ out_total_results out = length (out_results out)
           /\ (out_error out <> None -> out_results out = [])
           /\ forall answer w2,
               client_answer client_search q (or_max_results max_results) w1
               = (answer, w2) ->
               match answer with
               | inl e => out = failed_search q e /\ w' = w2
               | inr response =>
                   forall written w3,
                     (if use_cache
                      then cache_set ("search:" +:+ q)
                             (fresh_output q response) w2
                      else (inr tt, w2)) = (written, w3) ->
                     w' = w3
                     /\ out = match written with
                              | inl e => failed_search q e
                              | inr _ => fresh_output q response
                              end
               end
       end.
Proof. apply web_search_outcome. Qed.

Lemma search_payload_urls (o : search_output) :
  item_urls (ok_result "web_search" (search_payload o))
  = map f_url (out_results o).
Proof.
  unfold item_urls, search_payload, ok_result. cbn [result p_results].
  induction (out_results o) as [|f l IH]; [reflexivity|].
  change (f_url f
          :: omap item_url
               (map (fun f => SearchItem (Some (f_url f)) (Some (f_title f)))
                  l)
          = f_url f :: map f_url l).
  now rewrite IH.
Qed.

Lemma collect_urls_output (o : search_output) (urls : list string) :
  collect_urls (ok_result "web_search" (search_payload o)) urls
  = urls ++ map f_url (out_results o).
Proof.
  rewrite collect_urls_found by reflexivity.
  unfold found_urls. cbn [flat_map]. rewrite app_nil_r.
  cbn [ok_result success tool andb String.eqb Ascii.eqb Bool.eqb].
  now rewrite search_payload_urls.
Qed.

(** A sequence of searches that all return an output. *)
Lemma search_each_outputs (env : Tools World)
    (Hout : forall q s, exists o w',
        execute_tool env "web_search" (kw_of_query q) s
        = (inr (ok_result "web_search" (search_payload o)),
           State w' (calls s ++ [Invocation "web_search" (kw_of_query q)])))
    (questions : list string) (search_results : list tool_result)
    (urls : list string) (s : state World) :
  exists outs s',
    search_each env questions search_results urls s
    = (inr (search_results
            ++ map (fun o => ok_result "web_search" (search_payload o)) outs,
            urls ++ concat (map (fun o => map f_url (out_results o)) outs)),
       s')
    /\ length outs = length questions.
Proof.
  revert search_results urls s.
  induction questions as [|q qs IH]; intros rs urls s.
  - exists [], s. cbn [search_each map concat]. unfold ret.
    now rewrite !app_nil_r.
  - destruct (Hout q s) as (o & w' & Hex).
    cbn [search_each]. unfold bind at 1. rewrite Hex.
    rewrite collect_urls_output.
    destruct (IH (rs ++ [ok_result "web_search" (search_payload o)])
                (urls ++ map f_url (out_results o))
                (State w'
                   (calls s ++ [Invocation "web_search" (kw_of_query q)])))
      as (outs & s' & -> & Hlen).
    exists (o :: outs), s'. cbn [map concat length].
    rewrite <- !app_assoc. split; [reflexivity|]. now rewrite Hlen.
Qed.

(** With [WebSearchTool] as the search tool and a cache lookup that always
    returns, no result of a web_search stage is a failure for the
    pipeline: the stage appends one successful result per search, with
    the output of the search as its result (a failing search shows only
    as an ['error'] inside it), and it adds to the URLs to scrape the
    ['url'] of every result of every output, in order. *)
Theorem web_search_stage_never_fails (env : Tools World) (plan : Plan)
    (limited : list string) (log : ExecutionLog) (urls : list string)
    (s : state World) :
  (forall key w, exists c w', cache_get key w = (inr c, w')) ->
  exists outs s',
    stage (with_search cache_get cache_set client_search retry_error env)
      plan limited "web_search" log urls s
    = (inr (Log (log_plan log)
              (tool_results log
               ++ map (fun o =>
                         ToolResult "web_search" true
                           (Some (search_payload o)) None) outs)
              (log_success log) (errors log),
            urls ++ concat (map (fun o => map f_url (out_results o)) outs)),
       s')
    /\ length outs = (if 3 <? length limited then 1 else length limited).
Proof.
  intros Hcache.
  set (env' := with_search cache_get cache_set client_search retry_error env).
  assert (Hout : forall q s0, exists o w',
             execute_tool env' "web_search" (kw_of_query q) s0
             = (inr (ok_result "web_search" (search_payload o)),
                State w'
                  (calls s0 ++ [Invocation "web_search" (kw_of_query q)]))).
  { intros q s0.
    unfold execute_tool, bind, log_invocation. rewrite tools_web_search.
    unfold try_except, route, tool_search, call, bind, ret.
    cbn [String.eqb Ascii.eqb Bool.eqb world calls search env'
           with_search].
    change (default "" (kw_query (kw_of_query q))) with q.
    unfold web_search_tool.
    destruct (Hcache ("search:" +:+ q) (world s0)) as (c & w1 & Hc).
    destruct (web_search_outcome q None true (State (world s0) []) c w1 Hc)
      as (out & w' & _ & -> & _).
    exists out, w'. reflexivity. }
  unfold stage. cbn [String.eqb Ascii.eqb Bool.eqb].
  unfold web_search_stage.
  destruct (3 <? length limited) eqn:Hlen.
  - destruct limited as [|q0 rest]; [discriminate|].
    destruct (Hout (default q0 (query plan)) s) as (o & w' & Hex).
    unfold bind, ret. cbn [index0 ret]. unfold ret. rewrite Hex.
    exists [o]. eexists. split; [|reflexivity].
    cbn [fst snd map concat]. rewrite collect_urls_output, app_nil_r.
    reflexivity.
  - destruct (search_each_outputs env' Hout limited [] urls s)
      as (outs & s' & Hrun & Hlength).
    unfold bind, ret. rewrite Hrun.
    exists outs, s'. split; [reflexivity|exact Hlength].
Qed.

End SearchProperties.

Lemma search_returns_unless_cache_raises_witness :
  web_search (fun _ => Scenario.returns None)
    (fun _ _ => Scenario.returns tt)
    (fun _ _ => Scenario.fails "service unavailable")
    (fun e => e) "AI and jobs" None true Scenario.start
  = (inr {| out_results := []; out_query := "AI and jobs";
            out_total_results := 0;
            out_error := Some "service unavailable" |},
     Scenario.start)
  /\ web_search (fun _ => Scenario.returns None)
       (fun _ _ => Scenario.fails "disk full")
       (fun _ _ =>
          Scenario.returns
            (SearchResponse
               (Some [RawResult (Some "Jobs") (Some "http://a") None])))
       (fun e => e) "AI and jobs" (Some (-1)%Z) true Scenario.start
     = (inr {| out_results := []; out_query := "AI and jobs";
               out_total_results := 0;
               out_error := Some "disk full" |},
        Scenario.start).
Proof.
  split.
  - destruct (search_returns_unless_cache_raises
                (fun _ => Scenario.returns None)
                (fun _ _ => Scenario.returns tt)
                (fun _ _ => Scenario.fails "service unavailable")
                (fun e => e) "AI and jobs" None true Scenario.start None tt
                eq_refl)
      as (out & w' & _ & Hrun & _ & _ & _ & Hanswer).
    destruct (Hanswer (inl (Exception "service unavailable")) tt eq_refl)
      as [-> ->].
    exact Hrun.
  - destruct (search_returns_unless_cache_raises
                (fun _ => Scenario.returns None)
                (fun _ _ => Scenario.fails "disk full")
                (fun _ _ =>
                   Scenario.returns
                     (SearchResponse
                        (Some [RawResult (Some "Jobs") (Some "http://a")
                                 None])))
                (fun e => e) "AI and jobs" (Some (-1)%Z) true Scenario.start
                None tt eq_refl)
      as (out & w' & _ & Hrun & _ & _ & _ & Hanswer).
    destruct (Hanswer
                (inr (SearchResponse
                        (Some [RawResult (Some "Jobs") (Some "http://a")
                                 None]))) tt eq_refl
                (inl (Exception "disk full")) tt eq_refl)
      as [-> ->].
    exact Hrun.
Defined.

Lemma web_search_stage_never_fails_witness :
  exists s',
    stage
      (with_search (fun _ => Scenario.returns None)
         (fun _ _ => Scenario.returns tt)
         (fun q _ =>
            Scenario.returns
              (SearchResponse
                 (Some [RawResult (Some "Jobs") (Some ("http://a/" +:+ q))
                          None])))
         (fun e => e) Scenario.healthy)
      (Scenario.plan_of [] []) ["q1"; "q2"] "web_search"
      (Scenario.empty_log (Scenario.plan_of [] [])) ["http://old"]
      Scenario.start
    = (inr (Log (Scenario.plan_of [] [])
              [ToolResult "web_search" true
                 (Some (Payload
                          (Some [SearchItem (Some "http://a/q1")
                                   (Some "Jobs")])
                          None None None ["query"; "total_results"]))
                 None;
               ToolResult "web_search" true
                 (Some (Payload
                          (Some [SearchItem (Some "http://a/q2")
                                   (Some "Jobs")])
                          None None None ["query"; "total_results"]))
                 None]
              true [],
            ["http://old"; "http://a/q1"; "http://a/q2"]), s').
Proof.
  destruct (web_search_stage_never_fails (fun _ => Scenario.returns None)
              (fun _ _ => Scenario.returns tt)
              (fun q _ =>
                 Scenario.returns
                   (SearchResponse
                      (Some [RawResult (Some "Jobs")
                               (Some ("http://a/" +:+ q)) None])))
              (fun e => e) Scenario.healthy (Scenario.plan_of [] [])
              ["q1"; "q2"] (Scenario.empty_log (Scenario.plan_of [] []))
              ["http://old"] Scenario.start)
    as (outs & s' & Hrun & _).
  - intros key w. exists None, w. reflexivity.
  - exists s'.
    assert (Hc :
              fst (stage
                     (with_search (fun _ => Scenario.returns None)
                        (fun _ _ => Scenario.returns tt)
                        (fun q _ =>
                           Scenario.returns
                             (SearchResponse
                                (Some [RawResult (Some "Jobs")
                                         (Some ("http://a/" +:+ q)) None])))
                        (fun e => e) Scenario.healthy)
                     (Scenario.plan_of [] []) ["q1"; "q2"] "web_search"
                     (Scenario.empty_log (Scenario.plan_of [] []))
                     ["http://old"] Scenario.start)
              = inr (Log (Scenario.plan_of [] [])
                       [ToolResult "web_search" true
                          (Some (Payload
                                   (Some [SearchItem (Some "http://a/q1")
                                            (Some "Jobs")])
                                   None None None
                                   ["query"; "total_results"]))
                          None;
                        ToolResult "web_search" true
                          (Some (Payload
                                   (Some [SearchItem (Some "http://a/q2")
                                            (Some "Jobs")])
                                   None None None
                                   ["query"; "total_results"]))
                          None]
                       true [],
                     ["http://old"; "http://a/q1"; "http://a/q2"]))
      by (vm_compute; reflexivity).
    rewrite Hrun in Hc |- *. cbn [fst] in Hc. now rewrite Hc.
Defined.

(** ** Properties of the URL validators and of the scraper *)

Section ScraperProperties.

Context {World : Type}.
Variable isspace : Ascii.ascii -> bool.
Variable urlparse : string -> exn + (string * string).
Variable cache_get : string -> oracle World (option scrape_output).
Variable cache_set : string -> scrape_output -> oracle World unit.
Variable fetch_page :
  string -> World -> (fetch_error + (string * string)) * World.
Variable retry_error : exn -> exn.

Lemma rstrip_app_fixed (a x : string) :
  rstrip isspace x = x -> x <> "" ->
  rstrip isspace (a +:+ x) = a +:+ x.
Proof.
  intros Hx Hne. induction a as [|c a IH]; [exact Hx|].
  rewrite str_app_cons. cbn [rstrip]. rewrite IH.
  destruct (a +:+ x) eqn:Hax; [|reflexivity].
  destruct a; [cbn in Hax; contradiction|discriminate].
Qed.

(** What [sanitize_url] returns is an http or https URL that
    [validate_url] accepts, and sanitizing it again returns it unchanged
    (the letter h, code 104, is not whitespace). *)
Theorem sanitize_url_valid (u v : string) :
  isspace (Ascii.ascii_of_nat 104) = false ->
  sanitize_url isspace urlparse u = Some v ->
  validate_url urlparse v = true
  /\ (String.prefix "http://" v = true \/ String.prefix "https://" v = true)
  /\ sanitize_url isspace urlparse v = Some v.
Proof.
  intros Hh. unfold sanitize_url.
  set (x := strip isspace u).
  destruct (truthy x) eqn:Hx; [|discriminate]. cbn [negb].
  set (v' := if negb (String.prefix "http://" x || String.prefix "https://" x)
             then "https://" +:+ x else x).
  destruct (validate_url urlparse v') eqn:Hvalid; [|discriminate].
  intros H. injection H as <-.
  assert (Hpre : String.prefix "http://" v' || String.prefix "https://" v'
                 = true).
  { unfold v'. destruct (_ || _) eqn:Hp; [exact Hp|]. cbn [negb].
    rewrite prefix_app. apply orb_true_r. }
  assert (Hstrip : strip isspace v' = v').
  { unfold v'. destruct (_ || _); cbn [negb]; [apply strip_strip|].
    unfold strip.
    change ("https://" +:+ x)
      with (String (Ascii.ascii_of_nat 104) ("ttps://" +:+ x)).
    cbn [lstrip]. rewrite Hh.
    change (String (Ascii.ascii_of_nat 104) ("ttps://" +:+ x))
      with ("https://" +:+ x).
    apply rstrip_app_fixed; [apply rstrip_rstrip|].
    now apply truthy_true. }
  split; [exact Hvalid|]. split; [now apply orb_true_iff|].
  rewrite Hstrip.
  assert (Ht : truthy v' = true).
  { unfold v'. destruct (_ || _); cbn [negb]; [exact Hx|reflexivity]. }
  rewrite Ht, Hpre. cbn [negb]. now rewrite Hvalid.
Qed.

Lemma clean_text_length (n : Z) (text : string) :
  (0 <= n)%Z ->
  String.length (clean_text isspace n text) <= Z.to_nat n + 3.
Proof.
  intros Hn. unfold clean_text.
  destruct (Z.ltb n _) eqn:Hlong.
  - rewrite str_length_app. unfold str_prefix.
    destruct (Z.leb_spec 0 n); [|lia].
    assert (Htake := str_take_length (Z.to_nat n)
      (String.concat " "
         (map (strip isspace)
            (List.filter (fun line => truthy (strip isspace line))
               (split_on (Ascii.ascii_of_nat 10) text))))).
    simpl. lia.
  - apply Z.ltb_ge in Hlong. lia.
Qed.

Lemma fetch_and_extract_returns (url : string) (use_cache : bool)
    (max_length : Z) (s : state World) :
  exists out w',
    fetch_and_extract isspace cache_set fetch_page url use_cache
      max_length s
    = (inr out, State w' (calls s))
    /\ sound_output max_length out.
Proof.
  unfold fetch_and_extract, sound_output.
  destruct (fetch_page url (world s)) as [[[e|e]|[title text]] w].
  - eexists _, _. split; [reflexivity|]. cbn. repeat split; auto; lia.
  - eexists _, _. split; [reflexivity|]. cbn. repeat split; auto; lia.
  - unfold try_except, bind, call, ret. cbn [world calls].
    assert (Hlen := clean_text_length max_length text).
    destruct use_cache.
    + cbn [world calls].
      match goal with
      | |- context [cache_set ?k ?o w] =>
          destruct (cache_set k o w) as [[e|[]] w']
      end;
        eexists _, _; (split; [reflexivity|]); cbn;
        repeat split; auto; try lia; discriminate.
    + eexists _, _. split; [reflexivity|]. cbn.
      repeat split; auto; discriminate.
Qed.

Lemma scrape_outcome (url : string) (use_cache : bool)
    (max_length : option Z) (s : state World) :
  (forall key w, exists c w', cache_get key w = (inr c, w')) ->
  exists out w',
    scrape_body isspace urlparse cache_get cache_set fetch_page url
      use_cache max_length s
    = (inr out, State w' (calls s))
    /\ scrape_page isspace urlparse cache_get cache_set fetch_page
         retry_error url use_cache max_length s
       = (inr out, State w' (calls s))
    /\ ((exists key w0 w1, cache_get key w0 = (inr (Some out), w1))
        \/ sound_output (or_scrape_length max_length) out)
    /\ (sanitize_url isspace urlparse url = None ->
        validate_url urlparse url = false ->
        out = scrape_failure url "Invalid URL" /\ w' = world s).
Proof.
  intros Hcache.
  assert (Hbody : exists out w',
             scrape_body isspace urlparse cache_get cache_set fetch_page
               url use_cache max_length s
             = (inr out, State w' (calls s))
             /\ ((exists key w0 w1,
                     cache_get key w0 = (inr (Some out), w1))
                 \/ sound_output (or_scrape_length max_length) out)
             /\ (sanitize_url isspace urlparse url = None ->
                 validate_url urlparse url = false ->
                 out = scrape_failure url "Invalid URL" /\ w' = world s)).
  { unfold scrape_body.
    set (url' := match sanitize_url isspace urlparse url with
                 | Some u => if truthy u then u else url
                 | None => url
                 end).
    assert (Hurl : sanitize_url isspace urlparse url = None -> url' = url).
    { unfold url'. now intros ->. }
    destruct (validate_url urlparse url') eqn:Hvalid.
    - cbn [negb]. destruct use_cache.
      + unfold bind at 1, call.
        destruct (Hcache ("scrape:" +:+ url') (world s)) as (c & w1 & Hc).
        rewrite Hc. destruct c as [cached|].
        * exists cached, w1. split; [reflexivity|]. split; [left; eauto|].
          intros Hnone Hinv. rewrite (Hurl Hnone) in Hvalid. congruence.
        * destruct (fetch_and_extract_returns url' true
                      (or_scrape_length max_length)
                      (State w1 (calls s))) as (out & w' & Hrun & Hs).
          exists out, w'. split; [exact Hrun|]. split; [now right|].
          intros Hnone Hinv. rewrite (Hurl Hnone) in Hvalid. congruence.
      + unfold bind at 1, ret.
        destruct (fetch_and_extract_returns url' false
                    (or_scrape_length max_length) s)
          as (out & w' & Hrun & Hs).
        exists out, w'. split; [exact Hrun|]. split; [now right|].
        intros Hnone Hinv. rewrite (Hurl Hnone) in Hvalid. congruence.
    - cbn [negb]. unfold ret. eexists _, (world s).
      split; [destruct s; reflexivity|]. split.
      + right. unfold sound_output. cbn. repeat split; auto; lia.
      + intros Hnone _. now rewrite (Hurl Hnone). }
  destruct Hbody as (out & w' & Hrun & Hout).
  exists out, w'. split; [exact Hrun|]. split; [|exact Hout].
  unfold scrape_page. now apply retry_returns.
Qed.

(** The scraper returns whenever its cache lookup does, and is then not
    retried: the decorated function returns what its body returns, and
    never raises. A URL that [sanitize_url] rejects and [validate_url]
    does not accept gives the failure ['Invalid URL'] for the URL as
    given, without any call. The output is either one the cache returned,
    or one whose ['length'] is the length of its text, whose text has at
    most [max_length + 3] characters when [max_length] is not negative,
    and which, when it is a failure, has an empty text, an empty title and
    an ['error']. *)
Theorem scrape_returns_unless_cache_raises (url : string)
    (use_cache : bool) (max_length : option Z) (s : state World) :
  (forall key w, exists c w', cache_get key w = (inr c, w')) ->
  exists out w',
    scrape_body isspace urlparse cache_get cache_set fetch_page url
      use_cache max_length s
    = (inr out, State w' (calls s))
    /\ scrape_page isspace urlparse cache_get cache_set fetch_page
         retry_error url use_cache max_length s
       = (inr out, State w' (calls s))
    /\ (sanitize_url isspace urlparse url = None ->
        validate_url urlparse url = false ->
        out = {| sc_url := url; sc_title := ""; sc_text := "";
                 sc_length := 0; sc_success := false;
                 sc_error := Some "Invalid URL" |}
        /\ w' = world s)
    /\ ((exists key w0 w1, cache_get key w0 = (inr (Some out), w1))
        \/ (sc_length out = String.length (sc_text out)
            /\ ((0 <= or_scrape_length max_length)%Z ->
                String.length (sc_text out)
                <= Z.to_nat (or_scrape_length max_length) + 3)
            /\ (sc_success out = false ->
                sc_text out = "" /\ sc_title out = ""
                /\ sc_error out <> None))).
Proof.
  intros Hcache.
  destruct (scrape_outcome url use_cache max_length s Hcache)
    as (out & w' & Hbody & Hrun & Hout & Hinvalid).
  exists out, w'. split; [exact Hbody|]. split; [exact Hrun|].
  split; [exact Hinvalid|exact Hout].
Qed.

(** With [WebScraperTool] as the scraper and a cache lookup that always
    returns, the scrape collaborator of the executor always returns a
    value, and every scraper invocation is a success for the pipeline,
    also when the scrape itself failed. *)
Theorem scraper_invocations_never_fail (env : Tools World) :
  (forall key w, exists c w', cache_get key w = (inr c, w')) ->
  (forall u w, exists p w',
      scrape (with_scraper isspace urlparse cache_get cache_set fetch_page
                retry_error env) u w = (inr p, w'))
  /\ (forall kw s, exists o w',
         execute_tool
           (with_scraper isspace urlparse cache_get cache_set fetch_page
              retry_error env) "scraper" kw s
         = (inr (ok_result "scraper" (scrape_payload o)),
            State w' (calls s ++ [Invocation "scraper" kw]))).
Proof.
  intros Hcache.
  assert (Htool : forall u w, exists o w',
             scraper_tool isspace urlparse cache_get cache_set fetch_page
               retry_error u w = (inr (scrape_payload o), w')).
  { intros u w. unfold scraper_tool.
    destruct (scrape_outcome u true None (State w []) Hcache)
      as (out & w' & _ & -> & _).
    exists out, w'. reflexivity. }
  split.
  - intros u w. destruct (Htool u w) as (o & w' & H).
    exists (scrape_payload o), w'. exact H.
  - intros kw s. destruct (Htool (default "" (kw_url kw)) (world s))
      as (o & w' & H).
    exists o, w'. unfold execute_tool, bind, log_invocation.
    rewrite tools_scraper.
    unfold try_except, route, tool_scrape, call, bind, ret.
    cbn [String.eqb Ascii.eqb Bool.eqb world calls scrape with_scraper].
    now rewrite H.
Qed.

End ScraperProperties.

Lemma sanitize_url_valid_witness :
  sanitize_url Scenario.ascii_space Scenario.one_host
    "https://example.org/page"
  = Some "https://example.org/page".
Proof.
  apply (sanitize_url_valid Scenario.ascii_space Scenario.one_host
           "  example.org/page " "https://example.org/page");
    reflexivity.
Defined.

Lemma scrape_returns_unless_cache_raises_witness :
  scrape_page Scenario.ascii_space (fun _ => inl (Exception "not a URL"))
    (fun _ => Scenario.returns None) (fun _ _ => Scenario.returns tt)
    (fun _ w => (inr ("Title", Scenario.letters "a" 40), w))
    (fun e => e) "  " true (Some 10%Z) Scenario.start
  = (inr {| sc_url := "  "; sc_title := ""; sc_text := "";
            sc_length := 0; sc_success := false;
            sc_error := Some "Invalid URL" |}, Scenario.start)
  /\ exists out w',
      scrape_page Scenario.ascii_space Scenario.one_host
        (fun _ => Scenario.returns None) (fun _ _ => Scenario.returns tt)
        (fun _ w => (inr ("Title", Scenario.letters "a" 40), w))
        (fun e => e) "example.org" true (Some 10%Z) Scenario.start
      = (inr out, State w' [])
      /\ sc_text out = "aaaaaaaaaa..."
      /\ sc_length out = 13.
Proof.
  split.
  - destruct (scrape_returns_unless_cache_raises Scenario.ascii_space
                (fun _ => inl (Exception "not a URL"))
                (fun _ => Scenario.returns None)
                (fun _ _ => Scenario.returns tt)
                (fun _ w => (inr ("Title", Scenario.letters "a" 40), w))
                (fun e => e) "  " true (Some 10%Z) Scenario.start)
      as (out & w' & _ & Hrun & Hinvalid & _).
    + intros key w. exists None, w. reflexivity.
    + destruct Hinvalid as [-> ->]; [reflexivity|reflexivity|].
      exact Hrun.
  - destruct (scrape_returns_unless_cache_raises Scenario.ascii_space
                Scenario.one_host
                (fun _ => Scenario.returns None)
                (fun _ _ => Scenario.returns tt)
                (fun _ w => (inr ("Title", Scenario.letters "a" 40), w))
                (fun e => e) "example.org" true (Some 10%Z) Scenario.start)
      as (out & w' & _ & Hrun & _ & _).
    + intros key w. exists None, w. reflexivity.
    + exists out, w'. split; [exact Hrun|].
      vm_compute in Hrun. injection Hrun as <- _. split; reflexivity.
Defined.

Lemma scraper_invocations_never_fail_witness :
  exists o w',
    execute_tool
      (with_scraper Scenario.ascii_space Scenario.one_host
         (fun _ => Scenario.returns None) (fun _ _ => Scenario.returns tt)
         (fun _ w => (inl (RequestException (Exception "timed out")), w))
         (fun e => e) Scenario.healthy)
      "scraper" (kw_of_url "example.org") Scenario.start
    = (inr (ok_result "scraper" (scrape_payload o)),
       State w' [Invocation "scraper" (kw_of_url "example.org")]).
Proof.
  destruct (scraper_invocations_never_fail Scenario.ascii_space
              Scenario.one_host
              (fun _ => Scenario.returns None)
              (fun _ _ => Scenario.returns tt)
              (fun _ w => (inl (RequestException (Exception "timed out")), w))
              (fun e => e) Scenario.healthy) as (_ & Hexec).
  - intros key w. exists None, w. reflexivity.
  - destruct (Hexec (kw_of_url "example.org") Scenario.start)
      as (o & w' & H).
    exists o, w'. exact H.
Defined.
